(** * docstring2argparse: a shallow embedding of [docstring2argparse/__init__.py]

    The Python module turns the functions of a package into an [argparse]
    command line.  This development embeds the metadata extractors, the
    conflict-aware union, the shared format check, the parsing stage of
    discovery, type resolution, the command-tree builder with its argument
    declarations and the dispatcher, and states the properties of the
    specification over them.

    Conventions.
    - Python values are the inductive [pyval]; Python exceptions are the
      constructors of [exn]; a computation that may raise has type
      [result A].
    - The recursion limit of the interpreter is the [depth] argument of the
      recursive function [union]: running out of it is [RecursionError].
    - Facilities of the runtime and of docutils that the module only calls
      ([textwrap.dedent], the reStructuredText parser, [str] of a list) are
      the fields of the class [Runtime]. *)

From Stdlib Require Import String Ascii List ZArith Bool Lia DecimalString.
Import ListNotations.

Set Warnings "-register-all".

Local Open Scope string_scope.
Local Open Scope nat_scope.
Local Open Scope list_scope.
Local Open Scope bool_scope.

(** ** Exceptions and the error monad *)

(** The exception classes the module raises or lets through, together with
    the base classes a caller may name in a skip-list. *)
Inductive exn : Type :=
| Exception
| AssertionError
| AttributeError
| LookupError
| IndexError
| KeyError
| RuntimeError
| NotImplementedError
| RecursionError
| TypeError
| UnAnnotatedError        (* class UnAnnotatedError(TypeError) *)
| AnnotationFormatError   (* class AnnotationFormatError(TypeError) *)
| ValueError.

Definition exn_eqb (a b : exn) : bool :=
  match a, b with
  | Exception, Exception | AssertionError, AssertionError
  | AttributeError, AttributeError | LookupError, LookupError
  | IndexError, IndexError | KeyError, KeyError
  | RuntimeError, RuntimeError | NotImplementedError, NotImplementedError
  | RecursionError, RecursionError | TypeError, TypeError
  | UnAnnotatedError, UnAnnotatedError
  | AnnotationFormatError, AnnotationFormatError
  | ValueError, ValueError => true
  | _, _ => false
  end.

(** The direct base class of an exception class ([None] for [Exception]). *)
Definition exn_base (e : exn) : option exn :=
  match e with
  | Exception => None
  | IndexError | KeyError => Some LookupError
  | NotImplementedError | RecursionError => Some RuntimeError
  | UnAnnotatedError | AnnotationFormatError => Some TypeError
  | _ => Some Exception
  end.

(** [issubclass e c]: the hierarchy above has height three. *)
Definition issubclass (e c : exn) : bool :=
  exn_eqb e c
  || match exn_base e with
     | None => false
     | Some b =>
         exn_eqb b c
         || match exn_base b with
            | None => false
            | Some b' => exn_eqb b' c
            end
     end.

(** [except errskip] catches [e] when [e] is an instance of one of the
    classes of the tuple [errskip]. *)
Definition caught_by (errskip : list exn) (e : exn) : bool :=
  existsb (issubclass e) errskip.

Inductive result (A : Type) : Type :=
| Ok (a : A)
| Raise (e : exn).
Arguments Ok {A} a.
Arguments Raise {A} e.

Definition bind {A B : Type} (c : result A) (k : A -> result B) : result B :=
  match c with
  | Ok a => k a
  | Raise e => Raise e
  end.

Declare Scope result_scope.
Delimit Scope result_scope with result.
Notation "x <- c ;; k" := (bind c (fun x => k))
  (at level 61, c at next level, right associativity) : result_scope.
Notation "' p <- c ;; k" := (bind c (fun p => k))
  (at level 61, p pattern, c at next level, right associativity) : result_scope.
Notation "c ;;; k" := (bind c (fun _ => k))
  (at level 61, right associativity) : result_scope.
Local Open Scope result_scope.

(** The [assert] statement. *)
Definition assert (b : bool) : result unit :=
  if b then Ok tt else Raise AssertionError.

(** A list comprehension whose element expression may raise. *)
Definition mapM {A B : Type} (f : A -> result B) : list A -> result (list B) :=
  fix go (l : list A) : result (list B) :=
    match l with
    | [] => Ok []
    | x :: l' => y <- f x ;; ys <- go l' ;; Ok (y :: ys)
    end.

(** [all(p(x) for x in l)]: stops at the first false element, and raises
    what [p] raises before that. *)
Definition allM {A : Type} (p : A -> result bool) : list A -> result bool :=
  fix go (l : list A) : result bool :=
    match l with
    | [] => Ok true
    | x :: l' => b <- p x ;; if b then go l' else Ok false
    end.

(** [list(filter(p, l))] for a predicate that may raise. *)
Definition filterM {A : Type} (p : A -> result bool) : list A -> result (list A) :=
  fix go (l : list A) : result (list A) :=
    match l with
    | [] => Ok []
    | x :: l' =>
        b <- p x ;; ys <- go l' ;; Ok (if b then x :: ys else ys)
    end.

(** ** Python values *)

(** The part of the Python object universe that flows through the metadata:
    [None], booleans, integers, strings, tuples, lists, classes, the special
    forms of [typing], parameterised aliases and the float nan.  A class
    carries whether it exposes a [__len__] attribute (as [str] or [list]
    do); [len] of a class object raises all the same.  An alias is given by
    what [typing.get_origin] and [typing.get_args] return for it:
    [typing.Optional[int]] has the origin [typing.Union], [int | None] the
    origin [types.UnionType], both the arguments [int] and the null type.
    A nan is the one value here that differs from itself under [==], so
    that it matters which object it is: the number tells the nan objects
    apart. *)
Inductive pyval : Type :=
| VNone
| VBool (b : bool)
| VInt (z : Z)
| VStr (s : string)
| VTuple (l : list pyval)
| VList (l : list pyval)
| VClass (name : string) (has_len : bool)
| VSpecialForm (name : string)
| VAlias (origin : pyval) (args : list pyval)
| VNaN (object : nat).

Definition NoneType : pyval := VClass "NoneType" false.
Definition py_bool : pyval := VClass "bool" false.
Definition py_int : pyval := VClass "int" false.
Definition py_float : pyval := VClass "float" false.
Definition py_str : pyval := VClass "str" true.
Definition py_tuple : pyval := VClass "tuple" true.
Definition py_list : pyval := VClass "list" true.
Definition py_type_class : pyval := VClass "type" false.
(** [inspect._empty], the marker of a missing annotation or default. *)
Definition _empty : pyval := VClass "_empty" false.
Definition typing_Union : pyval := VSpecialForm "typing.Union".
(** [types.UnionType], the class of the unions written [X | Y] and, from
    CPython 3.10 to 3.13, what [typing.get_origin] returns for them. *)
Definition types_UnionType : pyval := VClass "types.UnionType" false.

(** [x is None], [x is True] and the [isinstance] tests of the module. *)
Definition is_None (x : pyval) : bool :=
  match x with VNone => true | _ => false end.
Definition is_True (x : pyval) : bool :=
  match x with VBool true => true | _ => false end.
Definition isinstance_str (x : pyval) : bool :=
  match x with VStr _ => true | _ => false end.
Definition isinstance_bool (x : pyval) : bool :=
  match x with VBool _ => true | _ => false end.
Definition isinstance_tuple (x : pyval) : bool :=
  match x with VTuple _ => true | _ => false end.
Definition isinstance_list (x : pyval) : bool :=
  match x with VList _ => true | _ => false end.
Definition isinstance_type (x : pyval) : bool :=
  match x with VClass _ _ => true | _ => false end.

(** Truth value of an object, as tested by [if x:]. *)
Definition truthy (x : pyval) : bool :=
  match x with
  | VNone => false
  | VBool b => b
  | VInt z => negb (Z.eqb z 0)
  | VStr s => negb (String.eqb s "")
  | VTuple l | VList l => match l with [] => false | _ => true end
  | VClass _ _ | VSpecialForm _ | VAlias _ _ | VNaN _ => true
  end.

(** [o is typing.Union]. *)
Definition is_typing_Union (o : pyval) : bool :=
  match o with
  | VSpecialForm n => String.eqb n "typing.Union"
  | _ => false
  end.

(** [o is types.UnionType], and an origin of either kind of union. *)
Definition is_types_UnionType (o : pyval) : bool :=
  match o with
  | VClass n _ => String.eqb n "types.UnionType"
  | _ => false
  end.

Definition is_union_origin (o : pyval) : bool :=
  is_typing_Union o || is_types_UnionType o.

(** [type(x)]. *)
Definition py_type (x : pyval) : pyval :=
  match x with
  | VNone => NoneType
  | VBool _ => py_bool
  | VInt _ => py_int
  | VStr _ => py_str
  | VTuple _ => py_tuple
  | VList _ => py_list
  | VClass _ _ => py_type_class
  | VSpecialForm _ => VClass "typing._SpecialForm" false
  | VAlias o _ =>
      if is_typing_Union o then VClass "typing._UnionGenericAlias" false
      else if is_types_UnionType o then types_UnionType
      else VClass "typing._GenericAlias" false
  | VNaN _ => py_float
  end.

Definition list_eqb {A : Type} (eqb : A -> A -> bool) : list A -> list A -> bool :=
  fix go (l m : list A) : bool :=
    match l, m with
    | [], [] => true
    | x :: l', y :: m' => eqb x y && go l' m'
    | _, _ => false
    end.

(** [x is y], where it decides a comparison: two nan are the same object
    or not; any other value that is another is also equal to it. *)
Definition py_is (x y : pyval) : bool :=
  match x, y with
  | VNaN i, VNaN j => Nat.eqb i j
  | _, _ => false
  end.

(** [a == b].  [bool] is a subclass of [int], so [True == 1]; a nan is
    equal to nothing, itself included; sequences compare item by item, and
    CPython takes two items that are the same object for equal before it
    asks [==]; classes and special forms compare by identity; two unions
    ([typing.Union[...]] or [X | Y]) compare their arguments as sets, any
    other alias its origin and its arguments in order. *)
Fixpoint py_eq (a b : pyval) : bool :=
  match a, b with
  | VNone, VNone => true
  | VBool x, VBool y => Bool.eqb x y
  | VBool x, VInt y => Z.eqb (Z.b2z x) y
  | VInt x, VBool y => Z.eqb x (Z.b2z y)
  | VInt x, VInt y => Z.eqb x y
  | VStr x, VStr y => String.eqb x y
  | VTuple l, VTuple m => list_eqb (fun x y => py_is x y || py_eq x y) l m
  | VList l, VList m => list_eqb (fun x y => py_is x y || py_eq x y) l m
  | VClass n s, VClass n' s' => String.eqb n n' && Bool.eqb s s'
  | VSpecialForm n, VSpecialForm n' => String.eqb n n'
  | VAlias o l, VAlias o' m =>
      if is_union_origin o && is_union_origin o'
      then forallb (fun x => existsb (fun y => py_is x y || py_eq x y) m) l
           && forallb (fun y => existsb (fun x => py_is x y || py_eq x y) l) m
      else py_eq o o' && list_eqb (fun x y => py_is x y || py_eq x y) l m
  | _, _ => false
  end.

(** The comparison of two items of a sequence. *)
Definition item_eq (x y : pyval) : bool := py_is x y || py_eq x y.

(** [hasattr(x, '__len__')]. *)
Definition hasattr_len (x : pyval) : bool :=
  match x with
  | VStr _ | VTuple _ | VList _ => true
  | VClass _ s => s
  | _ => false
  end.

(** The characters of a string, each a string of length one. *)
Fixpoint chars (s : string) : list pyval :=
  match s with
  | EmptyString => []
  | String c s' => VStr (String c EmptyString) :: chars s'
  end.

(** [len(x)]. *)
Definition py_len (x : pyval) : result nat :=
  match x with
  | VStr s => Ok (String.length s)
  | VTuple l | VList l => Ok (List.length l)
  | _ => Raise TypeError
  end.

(** [iter(x)], as far as a [for] or a generator consumes it. *)
Definition py_iter (x : pyval) : result (list pyval) :=
  match x with
  | VStr s => Ok (chars s)
  | VTuple l | VList l => Ok l
  | _ => Raise TypeError
  end.

(** [x[i]] for a non-negative literal index. *)
Definition getitem (x : pyval) (i : nat) : result pyval :=
  match x with
  | VStr s =>
      match nth_error (chars s) i with Some c => Ok c | None => Raise IndexError end
  | VTuple l | VList l =>
      match nth_error l i with Some v => Ok v | None => Raise IndexError end
  | _ => Raise TypeError
  end.

(** ** Strings *)

(** Strings are sequences of code points below 256.  [str.strip] removes
    the code points that [str.isspace] accepts. *)
Definition isspace (c : ascii) : bool :=
  let n := nat_of_ascii c in
  ((9 <=? n) && (n <=? 13)) || ((28 <=? n) && (n <=? 32))
  || (n =? 133) || (n =? 160).

Fixpoint lstrip (s : string) : string :=
  match s with
  | EmptyString => EmptyString
  | String c s' => if isspace c then lstrip s' else s
  end.

Fixpoint rstrip (s : string) : string :=
  match s with
  | EmptyString => EmptyString
  | String c s' =>
      match rstrip s' with
      | EmptyString => if isspace c then EmptyString else String c EmptyString
      | r => String c r
      end
  end.

Definition strip (s : string) : string := rstrip (lstrip s).

(** [s.split(sep)] for a separator of one character. *)
Fixpoint split (sep : ascii) (s : string) : list string :=
  match s with
  | EmptyString => [EmptyString]
  | String c s' =>
      if Ascii.eqb c sep then EmptyString :: split sep s'
      else match split sep s' with
           | [] => [String c EmptyString]
           | w :: ws => String c w :: ws
           end
  end.

Definition newline : ascii := ascii_of_nat 10.

(** ** The consumed interfaces *)

(** A docutils element, as far as the module looks into it: its tag, its
    [names] attribute, the text [astext()] returns and its children. *)
Inductive node : Type :=
| Node (tagname : string) (names : list string) (text : string)
       (children : list node).

Definition tagname (n : node) : string := let 'Node t _ _ _ := n in t.
Definition names (n : node) : list string := let 'Node _ ns _ _ := n in ns.
Definition astext (n : node) : string := let 'Node _ _ s _ := n in s.
Definition children (n : node) : list node := let 'Node _ _ _ cs := n in cs.

(** [document.astext()]: the texts of the remaining children, separated by
    a blank line. *)
Definition document_astext (d : list node) : string :=
  String.concat (String newline (String newline EmptyString)) (map astext d).

(** What the module calls without defining it:
    - [textwrap.dedent] on a string;
    - the reStructuredText parser behind
      [function_parser_docstring_numpy._parse_rst], which yields the
      children of the parsed document; the runs in which docutils raises
      instead, as it does with [SystemMessage] on a severe markup error,
      are outside of what is modelled here;
    - [str] applied to a list, reached through [type(v1[0])(...)] in
      [union] when the values are strings. *)
Class Runtime : Type := {
  dedent : string -> string;
  _parse_rst : string -> list node;
  str_of_list : list pyval -> string
}.

(** [inspect.signature]: the ordered parameters with their annotation and
    default ([_empty] when missing) and the return annotation, or the
    [ValueError] it raises with its message. *)
Module inspect.
Record parameter : Type := {
  name : string;
  annotation : pyval;
  default : pyval
}.

Inductive Signature : Type :=
| Sig (parameters : list parameter) (return_annotation : pyval)
| SigValueError (message : string).
End inspect.

(** A call with positional arguments, then keyword arguments. *)
Definition callable : Type := list pyval -> list (string * pyval) -> result pyval.

(** A function object as the module sees it. *)
Record function : Type := {
  __name__ : string;
  __doc__ : option string;
  signature : inspect.Signature;
  __call__ : callable
}.

(** ** function_parser_base *)

Module function_parser_base.

Definition str_or_None (x : pyval) : bool := isinstance_str x || is_None x.

(** The condition on one element of [ans[2]] (line 51). *)
Definition parameter_ok (x : pyval) : bool :=
  is_None x
  || match x with
     | VTuple [x0; _; x2; x3] =>
         str_or_None x0 && str_or_None x2
         && (match x3 with
             | VTuple [o; d] =>
                 is_None o || (isinstance_bool o && (is_None d || is_True o))
             | _ => false
             end
             || is_None x3)
     | _ => false
     end.

(** The conditions on [ans[3]] (line 55): a single triple, or a sequence
    of entries of length three or four. *)
Definition return_triple_ok (x : pyval) : bool :=
  match x with
  | VTuple [x0; _; x2] => str_or_None x0 && str_or_None x2
  | _ => false
  end.

Definition return_entry_ok (x : pyval) : bool :=
  is_None x
  || match x with
     | VTuple [x0; _; x2] | VTuple [x0; _; x2; _] =>
         str_or_None x0 && str_or_None x2
     | _ => false
     end.

(** [check(cls, ans, name)]; [cls] and [name] only appear in the messages
    of the exceptions, which are not modelled. *)
Definition check (ans : pyval) : result pyval :=
  n <- py_len ans ;;
  assert (n =? 4) ;;;
  a0 <- getitem ans 0 ;;
  assert (str_or_None a0) ;;;
  a1 <- getitem ans 1 ;;
  assert (str_or_None a1) ;;;
  a2 <- getitem ans 2 ;;
  assert (isinstance_list a2 || is_None a2) ;;;
  bad <- (if is_None a2 then Ok false
          else xs <- py_iter a2 ;; Ok (negb (forallb parameter_ok xs))) ;;
  if bad : bool then Raise AnnotationFormatError
  else
    a3 <- getitem ans 3 ;;
    if py_eq a3 _empty then Raise UnAnnotatedError
    else
      good <- (if is_None a3 || return_triple_ok a3 then Ok true
               else xs <- py_iter a3 ;; Ok (forallb return_entry_ok xs)) ;;
      if good : bool then Ok ans else Raise AnnotationFormatError.

End function_parser_base.

(** ** function_parser_signature *)

Module function_parser_signature.

(** The optionality of a parameter: [(True, default)] when it has a
    default, [(False, None)] otherwise. *)
Definition optionality (y : inspect.parameter) : pyval :=
  if negb (py_eq (inspect.default y) _empty)
  then VTuple [VBool true; inspect.default y]
  else VTuple [VBool false; VNone].

Definition _parse (func : function) : result pyval :=
  match signature func with
  | inspect.SigValueError e =>
      if String.prefix "no signature found for builtin" e
      then Raise UnAnnotatedError
      else Raise ValueError
  | inspect.Sig parameters return_annotation =>
      let t3 :=
        if is_None return_annotation
           || isinstance_tuple return_annotation
           || isinstance_list return_annotation
        then return_annotation
        else VTuple [VNone; return_annotation; VNone] in
      Ok (VList [VNone; VNone;
                 VList (map (fun y =>
                               VTuple [VStr (inspect.name y);
                                       inspect.annotation y;
                                       VNone;
                                       optionality y])
                            parameters);
                 t3])
  end.

End function_parser_signature.

(** ** function_parser_docstring_numpy *)

(** [l[i] = v] on a list. *)
Fixpoint setitem (l : list pyval) (i : nat) (v : pyval) : result (list pyval) :=
  match l, i with
  | [], _ => Raise IndexError
  | _ :: l', O => Ok (v :: l')
  | x :: l', S i' => l'' <- setitem l' i' v ;; Ok (x :: l'')
  end.

(** A [for] loop threading a state through a body that may raise. *)
Definition foldM {A S : Type} (body : S -> A -> result S) : list A -> S -> result S :=
  fix go (l : list A) (s : S) : result S :=
    match l with
    | [] => Ok s
    | x :: l' => s' <- body s x ;; go l' s'
    end.

(** Lookup in a dict kept as an association list in insertion order. *)
Fixpoint dict_get {V : Type} (k : string) (d : list (string * V)) : option V :=
  match d with
  | [] => None
  | (k', v) :: d' => if String.eqb k k' then Some v else dict_get k d'
  end.

Module function_parser_docstring_numpy.
Section WithRuntime.
Context {rt : Runtime}.

(** [y['names'][0]]. *)
Definition first_name (y : node) : result string :=
  match names y with
  | [] => Raise IndexError
  | n :: _ => Ok n
  end.

(** [y.tagname=='section' and y['names'][0]==x] (line 129). *)
Definition is_section (x : string) (y : node) : result bool :=
  if String.eqb (tagname y) "section"
  then n <- first_name y ;; Ok (String.eqb n x)
  else Ok false.

(** [x.tagname=='section' and x['names'][0] in set(secs)|secs_hide]
    (line 133). *)
Definition is_removed (found hide : list string) (x : node) : result bool :=
  if String.eqb (tagname x) "section"
  then n <- first_name x ;; Ok (existsb (String.eqb n) (found ++ hide))
  else Ok false.

Definition is_paragraph (x : node) : bool := String.eqb (tagname x) "paragraph".

(** [d.remove(t1[0])] for the first paragraph [t1[0]] of [d]. *)
Fixpoint remove_first (p : node -> bool) (d : list node) : list node :=
  match d with
  | [] => []
  | x :: d' => if p x then d' else x :: remove_first p d'
  end.

(** [{y.tagname:y for y in x}[tag]]: the last child of [x] with that tag. *)
Definition child_by_tag (tag : string) (x : node) : result node :=
  match find (fun y => String.eqb (tagname y) tag) (rev (children x)) with
  | Some y => Ok y
  | None => Raise KeyError
  end.

Definition has_tag (tag : string) (x : node) : bool :=
  existsb (fun y => String.eqb (tagname y) tag) (children x).

Definition nth_str (l : list string) (i : nat) : result string :=
  match nth_error l i with
  | Some s => Ok s
  | None => Raise IndexError
  end.

(** Lines 153 to 164: the entries of one extracted section. *)
Definition entries (d : list node) : result pyval :=
  assert (List.length d =? 1) ;;;
  d <- match d with d0 :: _ => Ok d0 | [] => Raise IndexError end ;;
  assert (list_eqb String.eqb (map tagname (children d))
                   ["title"; "definition_list"]) ;;;
  d <- match nth_error (children d) 1 with
       | Some d1 => Ok d1
       | None => Raise IndexError
       end ;;
  assert (forallb (fun x => String.eqb (tagname x) "definition_list_item")
                  (children d)) ;;;
  assert (forallb (fun x => has_tag "term" x && has_tag "definition" x)
                  (children d)) ;;;
  d <- mapM (fun x =>
               t <- child_by_tag "term" x ;;
               f <- child_by_tag "definition" x ;;
               Ok (strip (astext t), strip (astext f)))
            (children d) ;;
  assert (forallb (fun x => List.length (split ":" (fst x)) =? 2) d) ;;;
  d <- mapM (fun x =>
               n <- nth_str (split ":" (fst x)) 0 ;;
               t <- nth_str (split ":" (fst x)) 1 ;;
               Ok (strip n, strip t, snd x))
            d ;;
  Ok (VList (map (fun '(n, t, f) =>
                    if 0 <? String.length t
                    then VTuple [VStr n; VStr t; VStr f; VNone]
                    else VTuple [VStr n; VNone; VStr f; VNone])
                 d)).

(** The body of the loop over [zip(['parameters','results'],range(2))]
    (lines 148 to 165). *)
Definition section_step (secs : list (string * list node)) (ans : list pyval)
    (xi : string * nat) : result (list pyval) :=
  match dict_get (fst xi) secs with
  | None => Ok ans
  | Some d =>
      if String.eqb (fst xi) "results" then Raise NotImplementedError
      else d' <- entries d ;; setitem ans (2 + snd xi) d'
  end.

(** The body of the loop over [range(2)] (lines 143 to 145). *)
Definition blank_step (ans : list pyval) (xi : nat) : result (list pyval) :=
  a <- match nth_error ans xi with Some a => Ok a | None => Raise IndexError end ;;
  if is_None a then Ok ans
  else n <- py_len a ;;
       if n =? 0 then setitem ans xi VNone else Ok ans.

Definition _parse (func : function) : result pyval :=
  let ans := [VNone; VNone; VNone; VNone] in
  (* dedent(None) raises TypeError *)
  doc <- match __doc__ func with
         | Some text => Ok (dedent text)
         | None => Raise TypeError
         end ;;
  let d := _parse_rst doc in
  let secs_hide := ["yields"; "receives"] in
  secs <- mapM (fun x => y <- filterM (is_section x) d ;; Ok (x, y))
               ["parameters"; "results"] ;;
  let secs := filter (fun xy => 0 <? List.length (snd xy)) secs in
  assert (forallb (fun xy => List.length (snd xy) =? 1) secs) ;;;
  (* the sections of t1 are removed from d one by one *)
  d <- filterM (fun x => b <- is_removed (map fst secs) secs_hide x ;;
                         Ok (negb b)) d ;;
  '(ans, d) <- match filter is_paragraph d with
               | t1_0 :: _ =>
                   ans <- setitem ans 0 (VStr (strip (astext t1_0))) ;;
                   Ok (ans, remove_first is_paragraph d)
               | [] => Ok (ans, d)
               end ;;
  ans <- setitem ans 1 (VStr (strip (document_astext d))) ;;
  ans <- foldM blank_step [0; 1] ans ;;
  ans <- foldM (section_step secs) [("parameters", 0); ("results", 1)] ans ;;
  Ok (VList ans).

End WithRuntime.
End function_parser_docstring_numpy.

(** ** function_parser_union *)

(** The parser objects: the two extractors and the union of a list of
    parsers. *)
Inductive function_parser : Type :=
| parser_signature
| parser_docstring_numpy
| parser_union (parsers : list function_parser).

Module function_parser_union.
Section WithRuntime.
Context {rt : Runtime}.

(** The first item and the rest of every row, unless a row is exhausted. *)
Fixpoint heads_tails (rows : list (list pyval))
  : option (list pyval * list (list pyval)) :=
  match rows with
  | [] => Some ([], [])
  | [] :: _ => None
  | (x :: r) :: rows' =>
      match heads_tails rows' with
      | Some (hs, ts) => Some (x :: hs, r :: ts)
      | None => None
      end
  end.

(** [zip(first, *others)]: stops at the shortest row. *)
Fixpoint zip_star (first : list pyval) (others : list (list pyval))
  : list (list pyval) :=
  match first with
  | [] => []
  | x :: first' =>
      match heads_tails others with
      | Some (hs, ts) => (x :: hs) :: zip_star first' ts
      | None => []
      end
  end.

(** [type(v)(items)] for the types that have a length. *)
Definition rebuild (v : pyval) (items : list pyval) : result pyval :=
  match v with
  | VTuple _ => Ok (VTuple items)
  | VList _ => Ok (VList items)
  | VStr _ => Ok (VStr (str_of_list items))
  | _ => Raise TypeError
  end.

Fixpoint union (depth : nat) (val : list pyval) : result pyval :=
  match depth with
  | O => Raise RecursionError
  | S depth' =>
      let v1 := filter (fun x => negb (is_None x)) val in
      match v1 with
      | [] => Ok VNone                              (* no known values *)
      | [v] => Ok v                                 (* single known value *)
      | v1_0 :: v1_1 =>
          (* confirm identical types *)
          let t1 := py_type v1_0 in
          assert (forallb (fun x => py_eq (py_type x) t1) v1_1) ;;;
          if forallb (fun x => py_eq x v1_0) v1_1
          then Ok v1_0                              (* identical values *)
          else
            (* identical lengths *)
            assert (forallb hasattr_len v1) ;;;
            t1 <- py_len v1_0 ;;
            same <- allM (fun x => n <- py_len x ;; Ok (n =? t1)) v1_1 ;;
            if negb same then Raise ValueError
            else
              (* recursive union *)
              first <- py_iter v1_0 ;;
              others <- mapM py_iter v1_1 ;;
              items <- mapM (union depth') (zip_star first others) ;;
              rebuild v1_0 items
      end
  end.

(** [_parse], given the [parse] method of the member parsers. *)
Definition _parse (parse : function_parser -> function -> result pyval)
    (depth : nat) (parsers : list function_parser) (func : function)
  : result pyval :=
  ans <- mapM (fun x => parse x func) parsers ;;
  union depth ans.

End WithRuntime.
End function_parser_union.

(** [function_parser_base.parse]: the [_parse] of the parser's class, then
    the shared [check]. *)
Fixpoint parse {rt : Runtime} (depth : nat) (self : function_parser)
    (func : function) {struct self} : result pyval :=
  ans <- match self with
         | parser_signature => function_parser_signature._parse func
         | parser_docstring_numpy => function_parser_docstring_numpy._parse func
         | parser_union parsers =>
             function_parser_union._parse (parse depth) depth parsers func
         end ;;
  function_parser_base.check ans ;;;
  Ok ans.

(** ** Discovery: the parsing of the collected functions *)

(** [d[k] = v] on a dict kept in insertion order: an existing key keeps its
    place. *)
Fixpoint dict_set {V : Type} (k : string) (v : V) (d : list (string * V))
  : list (string * V) :=
  match d with
  | [] => [(k, v)]
  | (k', v') :: d' =>
      if String.eqb k k' then (k, v) :: d' else (k', v') :: dict_set k v d'
  end.

(** Line 242 of [get_functions_raw]: [{'.'.join(y):x for x,y in ans}], where
    [ans] is the list of [function, path] pairs the walk over the modules
    has collected.  The walk itself (lines 226 to 241) is a traversal of
    live module objects and is not embedded. *)
Definition by_name (ans : list (function * list string))
  : list (string * function) :=
  fold_left (fun d xy => dict_set (String.concat "." (snd xy)) (fst xy) d)
            ans [].

(** Lines 242 to 251 of [get_functions_raw]: the dict [ans_f].  [parse] is
    [parser.parse]. *)
Definition get_functions_raw_ans_f (parse : function -> result pyval)
    (errskip : list exn) (ans : list (function * list string))
  : result (list (string * (function * pyval))) :=
  let ans := by_name ans in
  if List.length errskip =? 0
  then mapM (fun '(x, y) => m <- parse y ;; Ok (x, (y, m))) ans
  else
    foldM (fun ans_f '(x, y) =>
             match parse y with
             | Ok m => Ok (dict_set x (y, m) ans_f)
             | Raise e => if caught_by errskip e then Ok ans_f else Raise e
             end)
          ans [].

(** ** Type resolution *)

(** [typing.get_origin] and [typing.get_args]. *)
Definition get_origin (t : pyval) : pyval :=
  match t with VAlias o _ => o | _ => VNone end.
Definition get_args (t : pyval) : list pyval :=
  match t with VAlias _ a => a | _ => [] end.

Definition totype (t : pyval) : result pyval :=
  if isinstance_type t then Ok t
  else
    let t1 := (get_origin t, get_args t) in
    if py_eq (fst t1) typing_Union
       && (List.length (snd t1) =? 2)
       && (List.length (filter (fun x => py_eq x NoneType) (snd t1)) =? 1)
    then
      (* typing.Optional *)
      match filter (fun x => negb (py_eq x NoneType)) (snd t1) with
      | x :: _ => Ok x
      | [] => Raise IndexError
      end
    else Raise TypeError.

(** ** The argument declarations of [docstringparser] *)

Inductive action : Type := store | store_true.

(** One call [p[xi].add_argument(name, **kwargs)]; a keyword that is not
    passed is [None]. *)
Record add_argument : Type := {
  arg_name : string;
  arg_type : option pyval;
  arg_help : pyval;
  arg_default : option pyval;
  arg_action : action
}.

(** ['--'+x] and a positional name [x]: both need a string. *)
Definition as_str (x : pyval) : result string :=
  match x with
  | VStr s => Ok s
  | _ => Raise TypeError
  end.

(** The body of the loop over [p0[2]] (lines 333 to 342). *)
Definition declare_argument (xj : pyval) : result add_argument :=
  xj_3 <- getitem xj 3 ;;
  optional <- getitem xj_3 0 ;;
  if truthy optional then
    (* keyword arguments *)
    xj_1 <- getitem xj 1 ;;
    ttype <- totype xj_1 ;;
    if py_eq ttype py_bool then
      xj_0 <- getitem xj 0 ;;
      n <- as_str xj_0 ;;
      h <- getitem xj 2 ;;
      Ok {| arg_name := "--" ++ n; arg_type := None; arg_help := h;
            arg_default := Some (VBool false); arg_action := store_true |}
    else
      xj_0 <- getitem xj 0 ;;
      n <- as_str xj_0 ;;
      h <- getitem xj 2 ;;
      d <- getitem xj_3 1 ;;
      Ok {| arg_name := "--" ++ n; arg_type := Some ttype; arg_help := h;
            arg_default := Some d; arg_action := store |}
  else
    (* required arguments *)
    xj_0 <- getitem xj 0 ;;
    n <- as_str xj_0 ;;
    xj_1 <- getitem xj 1 ;;
    ttype <- totype xj_1 ;;
    h <- getitem xj 2 ;;
    Ok {| arg_name := n; arg_type := Some ttype; arg_help := h;
          arg_default := None; arg_action := store |}.

(** Lines 332 to 342: the calls made on the leaf parser of a function whose
    metadata is [p0], in order. *)
Definition docstringparser_arguments (p0 : pyval) : result (list add_argument) :=
  p0_2 <- getitem p0 2 ;;
  xs <- py_iter p0_2 ;;
  mapM declare_argument xs.

(** ** Dispatch *)

(** The parsed-arguments object: the two defaults set on the leaf
    ([set_defaults(_func=func,_fullname=xi)]) and one attribute per declared
    argument. *)
Record Namespace : Type := {
  _func : callable;
  _fullname : string;
  attributes : list (string * pyval)
}.

Definition getattr (args : Namespace) (x : pyval) : result pyval :=
  match x with
  | VStr n =>
      match dict_get n (attributes args) with
      | Some v => Ok v
      | None => Raise AttributeError
      end
  | _ => Raise TypeError
  end.

(** [funcs[args._fullname][1][2]], iterated. *)
Definition recorded_parameters (funcs : list (string * (function * pyval)))
    (args : Namespace) : result (list pyval) :=
  entry <- match dict_get (_fullname args) funcs with
           | Some e => Ok e
           | None => Raise KeyError
           end ;;
  p2 <- getitem (snd entry) 2 ;;
  py_iter p2.

Definition run_args (funcs : list (string * (function * pyval)))
    (args : Namespace) : result pyval :=
  xs <- recorded_parameters funcs args ;;
  a <- foldM (fun a x =>
                x_3 <- getitem x 3 ;;
                o <- getitem x_3 0 ;;
                if negb (truthy o)
                then x_0 <- getitem x 0 ;;
                     v <- getattr args x_0 ;;
                     Ok (a ++ [v])
                else Ok a)
             xs [] ;;
  xs <- recorded_parameters funcs args ;;
  ka <- foldM (fun ka x =>
                 x_3 <- getitem x 3 ;;
                 o <- getitem x_3 0 ;;
                 if truthy o
                 then x_0 <- getitem x 0 ;;
                      v <- getattr args x_0 ;;
                      k <- as_str x_0 ;;
                      Ok (dict_set k v ka)
                 else Ok ka)
              xs [] ;;
  _func args a ka.

(** The parser [docstringrunner] builds: the signature, then the
    docstring. *)
Definition docstringrunner_parser_func : function_parser :=
  parser_union [parser_signature; parser_docstring_numpy].

(** ** The parameter records of the data model *)

(** A parameter record whose four fields are all known:
    [(name, type, description, (optional, default))]. *)
Record parameter_record : Type := {
  r_name : string;
  r_type : pyval;
  r_description : pyval;
  r_optional : bool;
  r_default : pyval
}.

Definition record_tuple (r : parameter_record) : pyval :=
  VTuple [VStr (r_name r); r_type r; r_description r;
          VTuple [VBool (r_optional r); r_default r]].

(** The shapes the extractors and the union keep: an optionality is
    [None], [(True, default)] or [(False, None)]; a record is [None] or a
    tuple of four fields whose last is such an optionality; and so on up to
    the whole metadata. *)
Definition optionality_shape (o : pyval) : Prop :=
  o = VNone \/ (exists d, o = VTuple [VBool true; d])
  \/ o = VTuple [VBool false; VNone].

Definition record_shape (r : pyval) : Prop :=
  r = VNone
  \/ exists n t h o, r = VTuple [n; t; h; o] /\ optionality_shape o.

Definition parameters_shape (p : pyval) : Prop :=
  p = VNone \/ exists rs, p = VList rs /\ Forall record_shape rs.

Definition metadata_shape (ans : pyval) : Prop :=
  exists a0 a1 a2 a3, ans = VList [a0; a1; a2; a3] /\ parameters_shape a2.

(** [list(filter(lambda x: x is not None,val))], the list [v1] of [union]. *)
Definition known (val : list pyval) : list pyval :=
  filter (fun x => negb (is_None x)) val.

(** The items [iter(x)] yields; nothing when [x] is not iterable. *)
Definition items_of (x : pyval) : list pyval :=
  match x with
  | VStr s => chars s
  | VTuple l | VList l => l
  | _ => []
  end.

(** ** Sample inputs *)

(** A runtime for the examples: the text is already flush left, the parser
    answers with the document [sample_document] describes, and [str] of a
    list is not looked at. *)
Definition sample_document (doc : string) : list node :=
  if String.eqb doc "Doc."
  then [Node "paragraph" [] "Doc." []]
  else [Node "paragraph" [] "Doc." [];
        Node "section" ["results"] "Results" []].

Definition sample_runtime : Runtime :=
  {| dedent := fun s => s;
     _parse_rst := sample_document;
     str_of_list := fun _ => "" |}.

Definition sample_call : callable := fun a ka => Ok (VTuple [VList a; VList (map snd ka)]).

(** [def greet(name: str, loud: bool = True) -> str], documented by the
    one line ["Doc."]. *)
Definition sample_greet : function :=
  {| __name__ := "greet";
     __doc__ := Some "Doc.";
     signature :=
       inspect.Sig
         [ {| inspect.name := "name"; inspect.annotation := py_str;
              inspect.default := _empty |};
           {| inspect.name := "loud"; inspect.annotation := py_bool;
              inspect.default := VBool true |} ]
         py_str;
     __call__ := sample_call |}.

(** The two parameter records of [sample_greet] and the metadata the
    pipeline of [docstringrunner] yields for it. *)
Definition sample_records : list parameter_record :=
  [ {| r_name := "name"; r_type := py_str; r_description := VNone;
       r_optional := false; r_default := VNone |};
    {| r_name := "loud"; r_type := py_bool; r_description := VNone;
       r_optional := true; r_default := VBool true |} ].

Definition sample_metadata : pyval :=
  VList [VStr "Doc."; VNone; VList (map record_tuple sample_records);
         VTuple [VNone; py_str; VNone]].

(** The namespace [argparse] returns for [greet Ada --loud]. *)
Definition sample_namespace : Namespace :=
  {| _func := sample_call;
     _fullname := "pkg.tools.greet";
     attributes := [("name", VStr "Ada"); ("loud", VBool true)] |}.

Definition sample_value (n : string) : pyval :=
  if String.eqb n "name" then VStr "Ada" else VBool true.

(** [def quiet(x: int = 3) -> int] without a documentation string. *)
Definition sample_undocumented : function :=
  {| __name__ := "quiet";
     __doc__ := None;
     signature :=
       inspect.Sig
         [ {| inspect.name := "x"; inspect.annotation := py_int;
              inspect.default := VInt 3 |} ]
         py_int;
     __call__ := sample_call |}.

(** A function whose documentation has a Results section. *)
Definition sample_with_results : function :=
  {| __name__ := "total";
     __doc__ := Some "Doc. Results";
     signature := inspect.Sig [] py_int;
     __call__ := sample_call |}.

(** [def unannotated(x: int)], documented by ["Doc."], with no return
    annotation. *)
Definition sample_unannotated : function :=
  {| __name__ := "unannotated";
     __doc__ := Some "Doc.";
     signature :=
       inspect.Sig
         [ {| inspect.name := "x"; inspect.annotation := py_int;
              inspect.default := _empty |} ]
         _empty;
     __call__ := sample_call |}.

(** ** The merge the union computes *)

(** How deep the tuples and lists of a value are nested. *)
Fixpoint nesting (x : pyval) : nat :=
  match x with
  | VTuple l | VList l => S (list_max (map nesting l))
  | _ => 0
  end.

Definition zip_with {A B C : Type} (f : A -> B -> C) : list A -> list B -> list C :=
  fix go (l : list A) (m : list B) : list C :=
    match l, m with
    | x :: l', y :: m' => f x y :: go l' m'
    | _, _ => []
    end.

(** Two values are compatible when one is [None], or when they have the
    same type and are equal, or are two tuples or two lists of one length
    whose items are compatible position by position. *)
Fixpoint compatible (x y : pyval) : bool :=
  is_None x || is_None y
  || (py_eq (py_type y) (py_type x)
      && (py_eq y x
          || match x, y with
             | VTuple l, VTuple m | VList l, VList m => list_eqb compatible l m
             | _, _ => false
             end)).

(** The merge of two compatible values: the known one of the two, the first
    of two equal ones, and position by position inside two sequences. *)
Fixpoint merge (x y : pyval) : pyval :=
  match x, y with
  | VNone, _ => y
  | _, VNone => x
  | VTuple l, VTuple m =>
      if py_eq y x then x else VTuple (zip_with merge l m)
  | VList l, VList m =>
      if py_eq y x then x else VList (zip_with merge l m)
  | _, _ => x
  end.

(** One call of [union], the recursive calls being [rec]. *)
Definition union_body {rt : Runtime} (rec : list pyval -> result pyval)
    (val : list pyval) : result pyval :=
  let v1 := filter (fun x => negb (is_None x)) val in
  match v1 with
  | [] => Ok VNone
  | [v] => Ok v
  | v1_0 :: v1_1 =>
      let t1 := py_type v1_0 in
      assert (forallb (fun x => py_eq (py_type x) t1) v1_1) ;;;
      if forallb (fun x => py_eq x v1_0) v1_1
      then Ok v1_0
      else
        assert (forallb hasattr_len v1) ;;;
        t1 <- py_len v1_0 ;;
        same <- allM (fun x => n <- py_len x ;; Ok (n =? t1)) v1_1 ;;
        if negb same then Raise ValueError
        else
          first <- py_iter v1_0 ;;
          others <- mapM py_iter v1_1 ;;
          items <- mapM rec (function_parser_union.zip_star first others) ;;
          function_parser_union.rebuild v1_0 items
  end.

(** The exceptions [union] raises. *)
Definition union_exn (e : exn) : Prop :=
  e = AssertionError \/ e = ValueError \/ e = TypeError \/ e = RecursionError.

(** A result the recursion limit has not cut short. *)
Definition settled {A : Type} (r : result A) : Prop :=
  match r with
  | Raise RecursionError => False
  | _ => True
  end.

(** ** What the extractors return *)

(** A description as the documentation extractor leaves it: [None] instead
    of an empty text. *)
Definition blank_to_None (s : string) : pyval :=
  if String.length s =? 0 then VNone else VStr s.

(** A parameter entry of the documentation extractor: the name, the type
    text ([None] when empty), the description, and no optionality. *)
Definition docstring_entry (ntf : string * string * string) : pyval :=
  let '(n, t, f) := ntf in
  VTuple [VStr n; blank_to_None t; VStr f; VNone].

(** A parameter entry of the signature extractor. *)
Definition signature_entry (y : inspect.parameter) : pyval :=
  VTuple [VStr (inspect.name y); inspect.annotation y; VNone;
          function_parser_signature.optionality y].

(** The return information of the signature extractor (line 96). *)
Definition signature_return (return_annotation : pyval) : pyval :=
  if is_None return_annotation
     || isinstance_tuple return_annotation
     || isinstance_list return_annotation
  then return_annotation
  else VTuple [VNone; return_annotation; VNone].

(** Metadata whose return information is not the bare marker [_empty]. *)
Definition return_not_marker (ans : pyval) : Prop :=
  exists a0 a1 a2 a3, ans = VList [a0; a1; a2; a3] /\ a3 <> _empty.

(** ** The documents the documentation extractor reads *)

(** A section the extractor removes without reading it: its first name is
    in [secs_hide]. *)
Definition hidden_section (y : node) : bool :=
  String.eqb (tagname y) "section"
  && match names y with
     | n :: _ => String.eqb n "yields" || String.eqb n "receives"
     | [] => false
     end.


(** A node that is not a section named [parameters] or [results]; a
    section has a first name. *)
Definition no_entries (y : node) : bool :=
  negb (String.eqb (tagname y) "section")
  || match names y with
     | n :: _ => negb (String.eqb n "parameters") && negb (String.eqb n "results")
     | [] => false
     end.

(** The stripped text of the last child of [x] with the tag [tag]. *)
Definition item_text (tag : string) (x : node) : string :=
  match find (fun y => String.eqb (tagname y) tag) (rev (children x)) with
  | Some y => strip (astext y)
  | None => EmptyString
  end.

(** The entry of an item whose term reads [name:type]. *)
Definition entry_of_item (x : node) : pyval :=
  let parts := split ":" (item_text "term" x) in
  docstring_entry (strip (nth 0 parts EmptyString),
                   strip (nth 1 parts EmptyString),
                   item_text "definition" x).

(** The conditions lines 158, 159 and 162 assert on the items of the
    definition list. *)
Definition items_ok (items : list node) : bool :=
  forallb (fun x => String.eqb (tagname x) "definition_list_item") items
  && forallb (fun x => function_parser_docstring_numpy.has_tag "term" x
                       && function_parser_docstring_numpy.has_tag "definition" x)
             items
  && forallb (fun x => List.length (split ":" (item_text "term" x)) =? 2) items.

(** ** The argument of a parameter *)

(** What the builder declares for a parameter of the signature whose
    annotation resolves to [T], with the help text [h]: a flag when the
    parameter has a default, a positional otherwise. *)
Definition argument_of (y : inspect.parameter) (h T : pyval) : add_argument :=
  if negb (py_eq (inspect.default y) _empty)
  then if py_eq T py_bool
       then {| arg_name := "--" ++ inspect.name y; arg_type := None;
               arg_help := h; arg_default := Some (VBool false);
               arg_action := store_true |}
       else {| arg_name := "--" ++ inspect.name y; arg_type := Some T;
               arg_help := h; arg_default := Some (inspect.default y);
               arg_action := store |}
  else {| arg_name := inspect.name y; arg_type := Some T; arg_help := h;
          arg_default := None; arg_action := store |}.

(** The entries discovery keeps of the collected functions: those whose
    metadata [parse] returns. *)
Definition parsed (parse : function -> result pyval)
    (ans : list (string * function)) : list (string * (function * pyval)) :=
  flat_map (fun xy => match parse (snd xy) with
                      | Ok m => [(fst xy, (snd xy, m))]
                      | Raise _ => []
                      end) ans.

(** ** The command tree of [docstringparser] *)

(** The calls [docstringparser] makes on [argparse], in order.  A parser or
    a group of subparsers is named by the position of the call that created
    it.  The keyword arguments of [ka_argparse], passed to every parser
    alike, and the constant keywords [help='sub-commands'] and
    [required=True] are left out; a keyword that is not passed is [None].
    The calls are recorded as they are made: whether [argparse] accepts a
    call, or raises on it as on a flag that the parser has already, is
    outside of what is modelled here. *)
Inductive argparse_call : Type :=
| ArgumentParser (prog : string) (description : pyval)
| add_subparsers (parser : nat) (dest : string)
| add_parser (subparsers : nat) (name : string) (help : option pyval)
             (description : option string)
| add_argument_to (parser : nat) (argument : add_argument)
| set_defaults (parser : nat) (func : function) (fullname : string).

(** The dicts [p] and [ps] and the calls made so far. *)
Record parsers : Type := {
  dict_p : list (string * nat);
  dict_ps : list (string * nat);
  calls : list argparse_call
}.

(** One more call; its position names what it creates. *)
Definition called (c : argparse_call) (st : parsers) : nat * parsers :=
  (List.length (calls st),
   {| dict_p := dict_p st; dict_ps := dict_ps st; calls := calls st ++ [c] |}).

(** [k in d] and [d[k]]. *)
Definition dict_in {V : Type} (k : string) (d : list (string * V)) : bool :=
  match dict_get k d with Some _ => true | None => false end.

Definition dict_item {V : Type} (d : list (string * V)) (k : string) : result V :=
  match dict_get k d with Some v => Ok v | None => Raise KeyError end.

(** ['.'.join(l)]. *)
Definition join (l : list string) : string := String.concat "." l.

(** [f'subcommand_{xj}']. *)
Definition subcommand (xj : nat) : string :=
  ("subcommand_" ++ NilZero.string_of_uint (Nat.to_uint xj))%string.

(** The body of the loop over [range(nlv,len(t1))] (lines 311 to 321); [m]
    maps the dotted name of a module to its documentation [m[name][1]]. *)
Definition module_step (m : list (string * pyval)) (t1 : list string)
    (st : parsers) (xj : nat) : result parsers :=
  let t2 := join (firstn xj t1) in
  if dict_in t2 (dict_p st) then Ok st
  else
    let t3 := join (removelast (split "." t2)) in
    assert (dict_in t3 (dict_ps st)) ;;;
    m_t2 <- dict_item m t2 ;;
    let help := if negb (is_None m_t2) then Some m_t2 else None in
    ps_t3 <- dict_item (dict_ps st) t3 ;;
    (* t2.rsplit('.',maxsplit=1)[-1]: what follows the last dot *)
    let '(p_t2, st) :=
      called (add_parser ps_t3 (last (split "." t2) EmptyString) help None) st in
    let '(ps_t2, st) := called (add_subparsers p_t2 (subcommand xj)) st in
    Ok {| dict_p := dict_set t2 p_t2 (dict_p st);
          dict_ps := dict_set t2 ps_t2 (dict_ps st);
          calls := calls st |}.

(** The body of the loop over [f] (lines 305 to 343). *)
Definition function_step (linesep : string) (pkgname : string) (nlv : nat)
    (f : list (string * (function * pyval))) (m : list (string * pyval))
    (st : parsers) (xi : string) : result parsers :=
  '(func, p0) <- dict_item f xi ;;
  (* iteratively add parsers for functions *)
  let t1 := split "." xi in
  assert (nlv <? List.length t1) ;;;
  assert (String.eqb (join (firstn nlv t1)) pkgname) ;;;
  st <- foldM (module_step m t1) (seq nlv (List.length t1 - nlv)) st ;;
  (* add subparser for this function *)
  let t2 := join (removelast t1) in
  p0_0 <- getitem p0 0 ;;
  '(help, desc) <- (if negb (is_None p0_0)
                    then s <- as_str p0_0 ;;
                         Ok (Some p0_0, (s ++ linesep ++ linesep)%string)
                    else Ok (None, EmptyString)) ;;
  p0_1 <- getitem p0 1 ;;
  desc <- (if negb (is_None p0_1)
           then s <- as_str p0_1 ;; Ok (desc ++ s)%string
           else Ok desc) ;;
  ps_t2 <- dict_item (dict_ps st) t2 ;;
  let '(p_xi, st) :=
    called (add_parser ps_t2 (last t1 EmptyString) help (Some desc)) st in
  let st := {| dict_p := dict_set xi p_xi (dict_p st);
               dict_ps := dict_ps st;
               calls := calls st |} in
  args <- docstringparser_arguments p0 ;;
  let st := {| dict_p := dict_p st; dict_ps := dict_ps st;
               calls := calls st ++ map (add_argument_to p_xi) args |} in
  Ok (snd (called (set_defaults p_xi func xi) st)).

(** Lines 296 to 344 of [docstringparser], given the dicts [f] and [m] that
    discovery has returned at line 295 and the line separator of the
    platform: the calls made and the two dicts at the end. *)
Definition docstringparser_parsers (linesep : string) (pkgname : string)
    (f : list (string * (function * pyval))) (m : list (string * pyval))
  : result parsers :=
  let nlv := List.length (split "." pkgname) in
  m_pkgname <- dict_item m pkgname ;;
  let '(p_pkgname, st) :=
    called (ArgumentParser (hd EmptyString (split "." pkgname)) m_pkgname)
           {| dict_p := []; dict_ps := []; calls := [] |} in
  let st := {| dict_p := dict_set pkgname p_pkgname (dict_p st);
               dict_ps := dict_ps st; calls := calls st |} in
  let '(ps_pkgname, st) := called (add_subparsers p_pkgname (subcommand 1)) st in
  let st := {| dict_p := dict_p st;
               dict_ps := dict_set pkgname ps_pkgname (dict_ps st);
               calls := calls st |} in
  foldM (function_step linesep pkgname nlv f m) (map fst f) st.

(** The calls that declare an argument or set the defaults on the parser
    [id]. *)
Definition calls_on (id : nat) (cs : list argparse_call) : list argparse_call :=
  filter (fun c => match c with
                   | add_argument_to i _ | set_defaults i _ _ => i =? id
                   | _ => false
                   end) cs.

(** The leaf of the function [xi] in the command tree: the parser [p[xi]],
    created by [add_parser] under the last component of the name, on which
    the arguments of the metadata [p0] are declared and the defaults set,
    and nothing else. *)
Definition leaf_of (xi : string) (func : function) (p0 : pyval) (st : parsers)
  : Prop :=
  exists id ps_t2 help desc args,
    dict_get xi (dict_p st) = Some id
    /\ nth_error (calls st) id
       = Some (add_parser ps_t2 (last (split "." xi) EmptyString) help desc)
    /\ docstringparser_arguments p0 = Ok args
    /\ calls_on id (calls st)
       = map (add_argument_to id) args ++ [set_defaults id func xi].

(** What the loop over [f] keeps of the two dicts: the package is in
    [ps], the names in [ps] are in [p], and a name in [p] that is not in
    [ps] is the name of a function. *)
Definition tree_inv (pkgname : string) (f : list (string * (function * pyval)))
    (st : parsers) : Prop :=
  dict_in pkgname (dict_ps st) = true
  /\ (forall k, dict_in k (dict_ps st) = true -> dict_in k (dict_p st) = true)
  /\ (forall k, dict_in k (dict_p st) = true ->
                dict_in k (dict_ps st) = true \/ dict_in k f = true).

(** The commands that lead from the root of the command tree to the
    parser [id]: none for the parser that [ArgumentParser] made; for a
    parser that [add_parser] made under the command [name], in a group of
    subparsers that [add_subparsers] made on the parser [pid], the commands
    that lead to [pid], then [name]. *)
Inductive command_path (cs : list argparse_call) : nat -> list string -> Prop :=
| path_root (id : nat) (prog : string) (description : pyval) :
    nth_error cs id = Some (ArgumentParser prog description) ->
    command_path cs id []
| path_step (id sp pid : nat) (name dest : string) (help : option pyval)
    (desc : option string) (path : list string) :
    nth_error cs id = Some (add_parser sp name help desc) ->
    nth_error cs sp = Some (add_subparsers pid dest) ->
    command_path cs pid path ->
    command_path cs id (path ++ [name]).

(** The commands that lead to the parser [id] spell the dotted name [name]
    below the package. *)
Definition spelled_by (pkgname : string) (cs : list argparse_call)
    (name : string) (id : nat) : Prop :=
  exists path, command_path cs id path /\ name = join (pkgname :: path).

(** What the loop over [f] keeps of the two dicts: the package is in [p];
    the commands that lead to a parser of [p] spell the name it is kept
    under; and a group of [ps] is one that [add_subparsers] made on a
    parser that the name of the group leads to. *)
Definition tree_paths (pkgname : string) (st : parsers) : Prop :=
  dict_in pkgname (dict_p st) = true
  /\ (forall name id,
        dict_get name (dict_p st) = Some id ->
        spelled_by pkgname (calls st) name id)
  /\ (forall name sp,
        dict_get name (dict_ps st) = Some sp ->
        exists pid dest,
          nth_error (calls st) sp = Some (add_subparsers pid dest)
          /\ spelled_by pkgname (calls st) name pid).

(** Whether the signature gives a default to a parameter. *)
Definition has_default (y : inspect.parameter) : bool :=
  negb (py_eq (inspect.default y) _empty).

(** ** Further sample inputs *)

(** A builtin whose signature [inspect.signature] cannot read. *)
Definition sample_builtin : function :=
  {| __name__ := "max";
     __doc__ := Some "Doc.";
     signature :=
       inspect.SigValueError
         "no signature found for builtin <built-in function max>";
     __call__ := sample_call |}.

(** A runtime whose parser answers with the description [Doc.] and a
    Parameters section of one entry: its term is the text itself, its
    definition is [the input]. *)
Definition sample_parameters_document (term : string) : list node :=
  [Node "paragraph" [] "Doc." [];
   Node "section" ["parameters"] "Parameters"
     [Node "title" [] "Parameters" [];
      Node "definition_list" [] ""
        [Node "definition_list_item" [] ""
           [Node "term" [] term []; Node "definition" [] "the input" []]]]].

Definition sample_parameters_runtime : Runtime :=
  {| dedent := fun s => s;
     _parse_rst := sample_parameters_document;
     str_of_list := fun _ => "" |}.

(** [def double(x: int) -> int], whose documentation has the only entry
    [term] in its Parameters section. *)
Definition sample_double (term : string) : function :=
  {| __name__ := "double";
     __doc__ := Some term;
     signature :=
       inspect.Sig
         [ {| inspect.name := "x"; inspect.annotation := py_int;
              inspect.default := _empty |} ]
         py_int;
     __call__ := sample_call |}.

(** What discovery returns for a package [pkg] whose module [pkg.tools]
    defines [greet]: the dict of the functions and the documentation of the
    modules. *)
Definition sample_functions : list (string * (function * pyval)) :=
  [("pkg.tools.greet", (sample_greet, sample_metadata))].

Definition sample_modules : list (string * pyval) :=
  [("pkg", VStr "The package."); ("pkg.tools", VStr "Tools.")].

(** * Properties *)

(** ** Reasoning about the error monad *)

Lemma bind_Ok {A B : Type} (c : result A) (k : A -> result B) (b : B) :
  bind c k = Ok b -> exists a, c = Ok a /\ k a = Ok b.
Proof.
  destruct c as [a|e]; simpl; intros H; [exists a; split; auto | discriminate].
Qed.

(** [bind_skip H]: the computation in [H] returned, so its first step did;
    what that step returned is not needed. *)
Ltac bind_skip H := apply bind_Ok in H as (_ & _ & H).

Lemma mapM_cons {A B : Type} (f : A -> result B) (x : A) (l : list A) :
  mapM f (x :: l) = (y <- f x ;; ys <- mapM f l ;; Ok (y :: ys)).
Proof. reflexivity. Qed.

Lemma foldM_cons {A S : Type} (body : S -> A -> result S) (x : A) (l : list A)
    (s : S) :
  foldM body (x :: l) s = (s' <- body s x ;; foldM body l s').
Proof. reflexivity. Qed.

Lemma mapM_Forall2 {A B : Type} (f : A -> result B) (l : list A) (r : list B) :
  mapM f l = Ok r -> Forall2 (fun x y => f x = Ok y) l r.
Proof.
  revert r; induction l as [|x l IH]; intros r H.
  - injection H as <-. constructor.
  - rewrite mapM_cons in H.
    apply bind_Ok in H as (y & Hy & H). apply bind_Ok in H as (ys & Hys & H).
    injection H as <-. constructor; [exact Hy | apply IH, Hys].
Qed.

Lemma allM_true {A : Type} (p : A -> result bool) (l : list A) :
  allM p l = Ok true -> Forall (fun x => p x = Ok true) l.
Proof.
  induction l as [|x l IH]; intros H; [constructor|].
  change (allM p (x :: l)) with (b <- p x ;; if b then allM p l else Ok false) in H.
  apply bind_Ok in H as (b & Hb & H). destruct b; [|discriminate].
  constructor; [exact Hb | apply IH, H].
Qed.

Lemma filterM_In {A : Type} (p : A -> result bool) (l r : list A) (x : A) :
  filterM p l = Ok r -> In x l -> p x = Ok true -> In x r.
Proof.
  revert r; induction l as [|y l IH]; simpl; intros r H Hin Hx; [contradiction|].
  apply bind_Ok in H as (b & Hb & H). apply bind_Ok in H as (ys & Hys & H).
  injection H as <-. destruct Hin as [-> | Hin].
  - rewrite Hx in Hb. injection Hb as <-. left. reflexivity.
  - specialize (IH ys Hys Hin Hx). destruct b; [right|]; exact IH.
Qed.

(** ** Equality of values *)

Lemma list_eqb_length {A : Type} (eqb : A -> A -> bool) (l m : list A) :
  list_eqb eqb l m = true -> List.length l = List.length m.
Proof.
  revert m; induction l as [|x l IH]; intros [|y m]; simpl; try discriminate.
  - reflexivity.
  - intros H. apply andb_true_iff in H as [_ H]. f_equal. apply IH, H.
Qed.

Lemma py_eq_VClass (x : pyval) (n : string) (s : bool) :
  py_eq x (VClass n s) = true <-> x = VClass n s.
Proof.
  split.
  - destruct x; simpl; try discriminate.
    intros H. apply andb_true_iff in H as [Hn Hs].
    apply String.eqb_eq in Hn. apply Bool.eqb_prop in Hs. subst. reflexivity.
  - intros ->. cbn [py_eq]. rewrite String.eqb_refl, Bool.eqb_reflx.
    reflexivity.
Qed.

Lemma py_eq_VSpecialForm (x : pyval) (n : string) :
  py_eq x (VSpecialForm n) = true <-> x = VSpecialForm n.
Proof.
  split.
  - destruct x; simpl; try discriminate.
    intros H. apply String.eqb_eq in H. subst. reflexivity.
  - intros ->. apply String.eqb_refl.
Qed.

Lemma py_type_is_class (x : pyval) : exists n s, py_type x = VClass n s.
Proof.
  destruct x; simpl; try (eexists; eexists; reflexivity).
  destruct (is_typing_Union x); [|destruct (is_types_UnionType x)];
    eexists; eexists; reflexivity.
Qed.

Lemma py_eq_py_type (a b : pyval) :
  py_eq (py_type a) (py_type b) = true <-> py_type a = py_type b.
Proof.
  destruct (py_type_is_class b) as (n & s & ->). apply py_eq_VClass.
Qed.


(** ** The union *)




(** C3, as the code has it: for every value [A], the union of [[A, None]]
    and of [[None, A]] returns [A], and the union of [[A, A]] returns [A]
    when [A == A] holds, whatever recursion depth is left. *)
Theorem union_absent_and_idempotent {rt : Runtime} (depth : nat) (A : pyval) :
  function_parser_union.union (S depth) [A; VNone] = Ok A
  /\ function_parser_union.union (S depth) [VNone; A] = Ok A
  /\ (py_eq A A = true ->
      function_parser_union.union (S depth) [A; A] = Ok A).
Proof.
  repeat split.
  - destruct A; reflexivity.
  - destruct A; reflexivity.
  - intros Heq. destruct (is_None A) eqn:E.
    + destruct A; try discriminate. reflexivity.
    + simpl. rewrite E. simpl.
      rewrite (proj2 (py_eq_py_type A A) eq_refl). simpl.
      rewrite Heq. reflexivity.
Qed.

Lemma union_absent_and_idempotent_witness :
  function_parser_union.union (rt := sample_runtime) 1
    [VTuple [VStr "x"; py_int]; VNone]
  = Ok (VTuple [VStr "x"; py_int])
  /\ function_parser_union.union (rt := sample_runtime) 1
       [VNone; VTuple [VStr "x"; py_int]]
     = Ok (VTuple [VStr "x"; py_int])
  /\ function_parser_union.union (rt := sample_runtime) 1
       [VTuple [VStr "x"; py_int]; VTuple [VStr "x"; py_int]]
     = Ok (VTuple [VStr "x"; py_int]).
Proof.
  destruct (union_absent_and_idempotent (rt := sample_runtime) 0
              (VTuple [VStr "x"; py_int])) as (H1 & H2 & H3).
  split; [exact H1|]. split; [exact H2|]. apply H3. reflexivity.
Defined.

(** C3, as stated, fails: a float nan differs from itself, and the union
    of a nan with itself raises [AssertionError] instead of returning
    it. *)
Lemma union_of_nan_with_itself_raises :
  function_parser_union.union (rt := sample_runtime) 3 [VNaN 0; VNaN 0]
  = Raise AssertionError
  /\ function_parser_union.union (rt := sample_runtime) 3 [VNaN 0; VNaN 0]
     <> Ok (VNaN 0).
Proof. split; [reflexivity | discriminate]. Qed.




(** Two different strings of one length never reach [ValueError] nor a
    result: the recursion on their characters goes on until the depth is
    used up. *)
Lemma union_unequal_characters_exhaust_depth {rt : Runtime} (depth : nat) :
  function_parser_union.union depth [VStr "a"; VStr "b"] = Raise RecursionError.
Proof.
  induction depth as [|depth IH]; [reflexivity|].
  change (function_parser_union.union (S depth) [VStr "a"; VStr "b"])
    with (items <- mapM (function_parser_union.union depth)
                        [[VStr "a"; VStr "b"]] ;;
          function_parser_union.rebuild (VStr "a") items).
  rewrite mapM_cons, IH. reflexivity.
Qed.

(** ** The signature extractor *)

Lemma py_eq_empty (x : pyval) : py_eq x _empty = true <-> x = _empty.
Proof. apply py_eq_VClass. Qed.

(** C4: when the signature of a function can be read, the signature
    extractor returns a record whose two descriptions are [None] and whose
    parameter list has one entry per declared parameter, in declaration
    order: the declared name, the declared annotation as it is, [None], and
    [(True, default)] when the parameter has a default, [(False, None)]
    otherwise. *)
Theorem signature_parse_parameters (func : function)
    (parameters : list inspect.parameter) (return_annotation : pyval) :
  signature func = inspect.Sig parameters return_annotation ->
  exists entries ret,
    function_parser_signature._parse func
    = Ok (VList [VNone; VNone; VList entries; ret])
    /\ List.length entries = List.length parameters
    /\ forall i y,
         nth_error parameters i = Some y ->
         exists opt,
           nth_error entries i
           = Some (VTuple [VStr (inspect.name y); inspect.annotation y; VNone; opt])
           /\ (inspect.default y <> _empty ->
               opt = VTuple [VBool true; inspect.default y])
           /\ (inspect.default y = _empty -> opt = VTuple [VBool false; VNone]).
Proof.
  intros Hsig. unfold function_parser_signature._parse. rewrite Hsig.
  eexists. eexists. split; [reflexivity|]. split; [apply length_map|].
  intros i y Hy. rewrite nth_error_map, Hy. simpl.
  eexists. split; [reflexivity|].
  unfold function_parser_signature.optionality.
  destruct (py_eq (inspect.default y) _empty) eqn:E; simpl.
  - apply py_eq_empty in E. split; [congruence | reflexivity].
  - split; [reflexivity|]. intros H. rewrite H in E. discriminate.
Qed.

(** ** Type resolution *)

(** C5, as the code has it: [totype] returns a plain type unchanged,
    returns [T] for the union of [T] and the null type, in either order,
    whose origin is [typing.Union] ([typing.Optional[T]],
    [typing.Union[T, None]]), and raises [TypeError] for every other value,
    the union [T | None] whose origin is [types.UnionType] among them. *)
Theorem totype_resolution (t : pyval) :
  (isinstance_type t = true -> totype t = Ok t)
  /\ (forall T, T <> NoneType ->
        t = VAlias typing_Union [T; NoneType]
        \/ t = VAlias typing_Union [NoneType; T] ->
        totype t = Ok T)
  /\ (isinstance_type t = false ->
      (forall T, T <> NoneType ->
         t <> VAlias typing_Union [T; NoneType]
         /\ t <> VAlias typing_Union [NoneType; T]) ->
      totype t = Raise TypeError).
Proof.
  repeat split.
  - intros H. unfold totype. rewrite H. reflexivity.
  - intros T HT Ht.
    assert (E : py_eq T NoneType = false).
    { destruct (py_eq T NoneType) eqn:E; [|reflexivity].
      apply py_eq_VClass in E. contradiction. }
    destruct Ht as [-> | ->]; unfold totype; simpl; rewrite E; reflexivity.
  - intros Hplain Hother. unfold totype. rewrite Hplain.
    destruct t as [ | | | | | | | |o l| ]; try reflexivity. simpl.
    destruct (py_eq o typing_Union) eqn:Eo; [|reflexivity].
    apply py_eq_VSpecialForm in Eo. subst o.
    destruct l as [|a [|b [|c l]]]; try reflexivity. simpl.
    destruct (py_eq a NoneType) eqn:Ea, (py_eq b NoneType) eqn:Eb;
      try reflexivity; exfalso.
    + apply py_eq_VClass in Ea. subst a.
      assert (Hb : b <> NoneType).
      { intros ->. cbn in Eb. discriminate. }
      apply (proj2 (Hother b Hb)). reflexivity.
    + apply py_eq_VClass in Eb. subst b.
      assert (Ha : a <> NoneType).
      { intros ->. cbn in Ea. discriminate. }
      apply (proj1 (Hother a Ha)). reflexivity.
Qed.

Lemma totype_resolution_witness :
  totype py_int = Ok py_int
  /\ totype (VAlias typing_Union [py_int; NoneType]) = Ok py_int
  /\ totype (VAlias py_list [py_int]) = Raise TypeError.
Proof.
  split; [|split].
  - apply (proj1 (totype_resolution py_int)). reflexivity.
  - apply (proj1 (proj2 (totype_resolution (VAlias typing_Union [py_int; NoneType]))) py_int);
      [discriminate | left; reflexivity].
  - apply (proj2 (proj2 (totype_resolution (VAlias py_list [py_int]))));
      [reflexivity | intros T _; split; discriminate].
Defined.

(** C5, as stated, fails: [int | None] is a two-armed union of [int] and
    the null type, its origin is [types.UnionType], which is not
    [typing.Union], and [totype] raises [TypeError] instead of returning
    [int]. *)
Lemma totype_of_bar_union_raises :
  get_origin (VAlias types_UnionType [py_int; NoneType]) = types_UnionType
  /\ totype (VAlias types_UnionType [py_int; NoneType]) = Raise TypeError
  /\ totype (VAlias types_UnionType [py_int; NoneType]) <> Ok py_int.
Proof. split; [reflexivity|]. split; [reflexivity | discriminate]. Qed.

Lemma signature_parse_parameters_witness :
  exists entries ret,
    function_parser_signature._parse sample_greet
    = Ok (VList [VNone; VNone; VList entries; ret])
    /\ List.length entries = 2
    /\ forall i y,
         nth_error
           [ {| inspect.name := "name"; inspect.annotation := py_str;
                inspect.default := _empty |};
             {| inspect.name := "loud"; inspect.annotation := py_bool;
                inspect.default := VBool true |} ] i = Some y ->
         exists opt,
           nth_error entries i
           = Some (VTuple [VStr (inspect.name y); inspect.annotation y; VNone; opt])
           /\ (inspect.default y <> _empty ->
               opt = VTuple [VBool true; inspect.default y])
           /\ (inspect.default y = _empty -> opt = VTuple [VBool false; VNone]).
Proof.
  exact (signature_parse_parameters sample_greet _ _ eq_refl).
Defined.

(** ** The argument declarations *)

Lemma declare_argument_record (r : parameter_record) (T : pyval) :
  totype (r_type r) = Ok T ->
  declare_argument (record_tuple r)
  = Ok (if r_optional r
        then if py_eq T py_bool
             then {| arg_name := "--" ++ r_name r; arg_type := None;
                     arg_help := r_description r;
                     arg_default := Some (VBool false);
                     arg_action := store_true |}
             else {| arg_name := "--" ++ r_name r; arg_type := Some T;
                     arg_help := r_description r;
                     arg_default := Some (r_default r);
                     arg_action := store |}
        else {| arg_name := r_name r; arg_type := Some T;
                arg_help := r_description r;
                arg_default := None; arg_action := store |}).
Proof.
  intros HT. unfold declare_argument, record_tuple. simpl.
  destruct (r_optional r); simpl; rewrite HT; simpl; [|reflexivity].
  destruct (py_eq T py_bool); reflexivity.
Qed.

(** C6: for a function whose recorded parameters all have a string name, a
    type that resolves and a boolean optionality, the builder declares one
    argument per parameter, in order.  An optional parameter whose resolved
    type is [bool] is the flag [--name] with action [store_true] and default
    [False], whatever default was recorded; an optional parameter of another
    type is the flag [--name] storing one value of the resolved type, with
    the recorded default; a parameter that is not optional is the positional
    [name] of the resolved type. *)
Theorem docstringparser_declares_arguments (p0 : pyval)
    (rs : list parameter_record) :
  getitem p0 2 = Ok (VList (map record_tuple rs)) ->
  Forall (fun r => exists T, totype (r_type r) = Ok T) rs ->
  exists args,
    docstringparser_arguments p0 = Ok args
    /\ Forall2
         (fun r arg =>
            forall T,
              totype (r_type r) = Ok T ->
              (r_optional r = true -> T = py_bool ->
               arg = {| arg_name := "--" ++ r_name r; arg_type := None;
                        arg_help := r_description r;
                        arg_default := Some (VBool false);
                        arg_action := store_true |})
              /\ (r_optional r = true -> T <> py_bool ->
                  arg = {| arg_name := "--" ++ r_name r; arg_type := Some T;
                           arg_help := r_description r;
                           arg_default := Some (r_default r);
                           arg_action := store |})
              /\ (r_optional r = false ->
                  arg = {| arg_name := r_name r; arg_type := Some T;
                           arg_help := r_description r;
                           arg_default := None; arg_action := store |}))
         rs args.
Proof.
  intros Hp0 Hrs. unfold docstringparser_arguments. rewrite Hp0.
  cbn [bind py_iter]. clear Hp0.
  induction Hrs as [|r rs (T & HT) _ (args & Hargs & IH)].
  - exists []. split; [reflexivity | constructor].
  - eexists. split.
    + cbn [mapM map] in *. rewrite (declare_argument_record r T HT).
      cbn [bind]. rewrite Hargs. reflexivity.
    + constructor; [|exact IH].
      intros T' HT'. rewrite HT in HT'. injection HT' as <-.
      repeat split.
      * intros -> ->. reflexivity.
      * intros -> HnT. destruct (py_eq T py_bool) eqn:E; [|reflexivity].
        apply py_eq_VClass in E. contradiction.
      * intros ->. reflexivity.
Qed.

Lemma docstringparser_declares_arguments_witness :
  exists args,
    docstringparser_arguments sample_metadata = Ok args
    /\ Forall2
         (fun r arg =>
            forall T,
              totype (r_type r) = Ok T ->
              (r_optional r = true -> T = py_bool ->
               arg = {| arg_name := "--" ++ r_name r; arg_type := None;
                        arg_help := r_description r;
                        arg_default := Some (VBool false);
                        arg_action := store_true |})
              /\ (r_optional r = true -> T <> py_bool ->
                  arg = {| arg_name := "--" ++ r_name r; arg_type := Some T;
                           arg_help := r_description r;
                           arg_default := Some (r_default r);
                           arg_action := store |})
              /\ (r_optional r = false ->
                  arg = {| arg_name := r_name r; arg_type := Some T;
                           arg_help := r_description r;
                           arg_default := None; arg_action := store |}))
         sample_records args.
Proof.
  apply (docstringparser_declares_arguments sample_metadata sample_records).
  - reflexivity.
  - constructor; [exists py_str; reflexivity|].
    constructor; [exists py_bool; reflexivity|].
    constructor.
Defined.

(** ** Dispatch *)

Lemma dict_set_fresh {V : Type} (k : string) (v : V) (d : list (string * V)) :
  ~ In k (map fst d) -> dict_set k v d = d ++ [(k, v)].
Proof.
  induction d as [|[k' v'] d IH]; simpl; intros Hk; [reflexivity|].
  destruct (String.eqb_spec k k') as [->|_].
  - exfalso. apply Hk. left. reflexivity.
  - f_equal. apply IH. intros H. apply Hk. right. exact H.
Qed.

Section run_args_loops.
Variable args : Namespace.
Variable value : string -> pyval.

Let required_body (a : list pyval) (x : pyval) : result (list pyval) :=
  x_3 <- getitem x 3 ;;
  o <- getitem x_3 0 ;;
  if negb (truthy o)
  then x_0 <- getitem x 0 ;; v <- getattr args x_0 ;; Ok (a ++ [v])
  else Ok a.

Let optional_body (ka : list (string * pyval)) (x : pyval)
  : result (list (string * pyval)) :=
  x_3 <- getitem x 3 ;;
  o <- getitem x_3 0 ;;
  if truthy o
  then x_0 <- getitem x 0 ;; v <- getattr args x_0 ;; k <- as_str x_0 ;;
       Ok (dict_set k v ka)
  else Ok ka.

Lemma required_loop (rs : list parameter_record) (a : list pyval) :
  (forall r, In r rs ->
     dict_get (r_name r) (attributes args) = Some (value (r_name r))) ->
  foldM required_body (map record_tuple rs) a
  = Ok (a ++ map (fun r => value (r_name r))
                 (filter (fun r => negb (r_optional r)) rs)).
Proof.
  revert a. induction rs as [|r rs IH]; intros a Hattr; simpl.
  - rewrite app_nil_r. reflexivity.
  - unfold required_body at 1. simpl.
    destruct (r_optional r) eqn:E; simpl.
    + apply IH. intros r' Hr'. apply Hattr. right. exact Hr'.
    + unfold getattr. rewrite (Hattr r (or_introl eq_refl)). simpl.
      rewrite IH by (intros r' Hr'; apply Hattr; right; exact Hr').
      rewrite <- app_assoc. reflexivity.
Qed.

Lemma optional_loop (rs : list parameter_record) (ka : list (string * pyval)) :
  (forall r, In r rs ->
     dict_get (r_name r) (attributes args) = Some (value (r_name r))) ->
  NoDup (map fst ka ++ map r_name rs) ->
  foldM optional_body (map record_tuple rs) ka
  = Ok (ka ++ map (fun r => (r_name r, value (r_name r)))
                  (filter r_optional rs)).
Proof.
  revert ka. induction rs as [|r rs IH]; intros ka Hattr Hnd; simpl.
  - rewrite app_nil_r. reflexivity.
  - unfold optional_body at 1. simpl.
    assert (Hr : ~ In (r_name r) (map fst ka)
                 /\ NoDup (map fst ka ++ map r_name rs)).
    { simpl in Hnd. split.
      - intros Hin. apply NoDup_remove_2 in Hnd. apply Hnd.
        apply in_or_app. left. exact Hin.
      - eapply NoDup_remove_1, Hnd. }
    destruct Hr as [Hfresh Hnd'].
    destruct (r_optional r) eqn:E; simpl.
    + unfold getattr. rewrite (Hattr r (or_introl eq_refl)). simpl.
      rewrite (dict_set_fresh _ _ _ Hfresh).
      rewrite IH.
      * rewrite <- app_assoc. reflexivity.
      * intros r' Hr'. apply Hattr. right. exact Hr'.
      * rewrite map_app. simpl. rewrite <- app_assoc. simpl. exact Hnd.
    + apply IH; [|exact Hnd'].
      intros r' Hr'. apply Hattr. right. exact Hr'.
Qed.

End run_args_loops.

(** C7: when the namespace carries the callable and the name the builder
    attached to the leaf, and one attribute per recorded parameter,
    [run_args] calls that callable with the attributes of the required
    parameters as positional arguments, in declaration order, and with the
    attributes of the optional parameters as keyword arguments under their
    names; what the call returns or raises is the result, unchanged. *)
Theorem run_args_dispatch (funcs : list (string * (function * pyval)))
    (args : Namespace) (func : function) (meta : pyval)
    (rs : list parameter_record) (value : string -> pyval) :
  dict_get (_fullname args) funcs = Some (func, meta) ->
  _func args = __call__ func ->
  getitem meta 2 = Ok (VList (map record_tuple rs)) ->
  NoDup (map r_name rs) ->
  (forall r, In r rs ->
     dict_get (r_name r) (attributes args) = Some (value (r_name r))) ->
  run_args funcs args
  = __call__ func
      (map (fun r => value (r_name r))
           (filter (fun r => negb (r_optional r)) rs))
      (map (fun r => (r_name r, value (r_name r)))
           (filter r_optional rs)).
Proof.
  intros Hfuncs Hcall Hmeta Hnd Hattr.
  unfold run_args, recorded_parameters.
  rewrite Hfuncs. cbn [bind snd]. rewrite Hmeta. cbn [bind py_iter].
  rewrite (required_loop args value rs [] Hattr). cbn [bind app].
  rewrite (optional_loop args value rs [] Hattr Hnd). cbn [bind app].
  rewrite Hcall. reflexivity.
Qed.

Lemma run_args_dispatch_witness :
  run_args [("pkg.tools.greet", (sample_greet, sample_metadata))] sample_namespace
  = sample_call [VStr "Ada"] [("loud", VBool true)].
Proof.
  apply (run_args_dispatch
           [("pkg.tools.greet", (sample_greet, sample_metadata))]
           sample_namespace sample_greet sample_metadata sample_records
           sample_value).
  - reflexivity.
  - reflexivity.
  - reflexivity.
  - repeat constructor; simpl; intuition discriminate.
  - intros r [<- | [<- | []]]; reflexivity.
Defined.

(** ** The documentation extractor *)

Lemma setitem_other (l l' : list pyval) (i j : nat) (v : pyval) :
  setitem l i v = Ok l' -> i <> j -> nth_error l' j = nth_error l j.
Proof.
  revert l' i j; induction l as [|x l IH]; intros l' i j H Hij; simpl in H.
  - destruct i; discriminate.
  - destruct i as [|i].
    + injection H as <-. destruct j; [congruence | reflexivity].
    + apply bind_Ok in H as (l'' & Hl & H). injection H as <-.
      destruct j as [|j]; [reflexivity|]. simpl. eapply IH; [exact Hl | congruence].
Qed.

Section docstring_numpy.
Context {rt : Runtime}.
Import function_parser_docstring_numpy.

Lemma blank_step_keeps (ans ans' : list pyval) (xi j : nat) :
  blank_step ans xi = Ok ans' -> xi <> j -> nth_error ans' j = nth_error ans j.
Proof.
  unfold blank_step. intros H Hj.
  apply bind_Ok in H as (a & _ & H).
  destruct (is_None a); [injection H as <-; reflexivity|].
  apply bind_Ok in H as (n & _ & H).
  destruct (n =? 0); [|injection H as <-; reflexivity].
  eapply setitem_other; eassumption.
Qed.

Lemma section_loop (secs : list (string * list node)) (ans ans' : list pyval) :
  foldM (section_step secs) [("parameters", 0); ("results", 1)] ans = Ok ans' ->
  nth_error ans' 3 = nth_error ans 3 /\ dict_get "results" secs = None.
Proof.
  cbn [foldM]. intros H.
  apply bind_Ok in H as (ans1 & H1 & H).
  apply bind_Ok in H as (ans2 & H2 & H). injection H as <-.
  unfold section_step in H1, H2. cbn [fst snd] in H1, H2.
  destruct (dict_get "results" secs) as [d|]; [discriminate|].
  injection H2 as <-. split; [|reflexivity].
  destruct (dict_get "parameters" secs) as [d|]; [|injection H1 as <-; reflexivity].
  simpl in H1. apply bind_Ok in H1 as (d' & _ & H1).
  eapply setitem_other; [exact H1 | discriminate].
Qed.

Lemma blank_loop (ans ans' : list pyval) :
  foldM blank_step [0; 1] ans = Ok ans' -> nth_error ans' 3 = nth_error ans 3.
Proof.
  cbn [foldM]. intros H.
  apply bind_Ok in H as (ans1 & H1 & H).
  apply bind_Ok in H as (ans2 & H2 & H). injection H as <-.
  rewrite (blank_step_keeps _ _ 1 3 H2), (blank_step_keeps _ _ 0 3 H1);
    [reflexivity | discriminate | discriminate].
Qed.

(** What a successful [_parse] went through. *)
Lemma _parse_Ok (func : function) (ans : pyval) :
  _parse func = Ok ans ->
  exists text found l,
    __doc__ func = Some text
    /\ filterM (is_section "results") (_parse_rst (dedent text)) = Ok found
    /\ (0 <? List.length found) = false
    /\ ans = VList l
    /\ nth_error l 3 = Some VNone.
Proof.
  unfold _parse. intros H.
  destruct (__doc__ func) as [text|]; [|discriminate]. cbn [bind] in H.
  apply bind_Ok in H as (secs & Hsecs & H).
  cbn [mapM] in Hsecs.
  apply bind_Ok in Hsecs as (s1 & Hs1 & Hsecs).
  apply bind_Ok in Hs1 as (y1 & Hy1 & Hs1). injection Hs1 as <-.
  apply bind_Ok in Hsecs as (ss & Hs2 & Hsecs). injection Hsecs as <-.
  apply bind_Ok in Hs2 as (s2 & Hs2 & Hss).
  apply bind_Ok in Hs2 as (y2 & Hy2 & Hs2). injection Hs2 as <-.
  apply bind_Ok in Hss as (none & Hnone & Hss). injection Hnone as <-.
  injection Hss as <-.
  bind_skip H.
  apply bind_Ok in H as (d & _ & H).
  apply bind_Ok in H as ([ans0 d'] & Hans0 & H).
  apply bind_Ok in H as (ans1 & Hans1 & H).
  apply bind_Ok in H as (ans2 & Hans2 & H).
  apply bind_Ok in H as (ans3 & Hans3 & H). injection H as <-.
  apply section_loop in Hans3 as [H3 Hres].
  apply blank_loop in Hans2.
  apply setitem_other with (j := 3) in Hans1; [|discriminate].
  assert (H0 : nth_error ans0 3 = Some VNone).
  { destruct (filter is_paragraph d).
    - injection Hans0 as <- _. reflexivity.
    - apply bind_Ok in Hans0 as (a & Ha & Hans0). injection Hans0 as <- _.
      apply setitem_other with (j := 3) in Ha; [|discriminate].
      rewrite Ha. reflexivity. }
  exists text, y2, ans3. repeat split; try reflexivity.
  - exact Hy2.
  - cbn [filter snd] in Hres.
    destruct (0 <? List.length y2); [|reflexivity].
    destruct (0 <? List.length y1); simpl in Hres; discriminate.
  - congruence.
Qed.

(** C8: when the parsed documentation of a function has a section named
    [results], the documentation extractor raises; and whenever it returns,
    the return information of its record is [None]. *)
Theorem docstring_results_section_raises (func : function) :
  (forall (text : string) (y : node) (ns : list string),
     __doc__ func = Some text ->
     In y (_parse_rst (dedent text)) ->
     tagname y = "section" ->
     names y = "results" :: ns ->
     exists e, _parse func = Raise e)
  /\ (forall ans, _parse func = Ok ans -> getitem ans 3 = Ok VNone).
Proof.
  split.
  - intros text y ns Hdoc Hin Htag Hnames.
    destruct (_parse func) as [ans|e] eqn:E; [exfalso | exists e; reflexivity].
    apply _parse_Ok in E as (text' & found & l & Hdoc' & Hfound & Hempty & _).
    rewrite Hdoc in Hdoc'. injection Hdoc' as <-.
    assert (Hy : In y found).
    { eapply filterM_In; [exact Hfound | exact Hin |].
      unfold is_section, first_name. rewrite Htag, Hnames. reflexivity. }
    destruct found; [contradiction | discriminate].
  - intros ans E.
    apply _parse_Ok in E as (_ & _ & l & _ & _ & _ & -> & H3).
    unfold getitem. rewrite H3. reflexivity.
Qed.

End docstring_numpy.

Lemma docstring_results_section_raises_witness :
  (exists e,
     function_parser_docstring_numpy._parse (rt := sample_runtime)
       sample_with_results = Raise e)
  /\ getitem (VList [VStr "Doc."; VNone; VNone; VNone]) 3 = Ok VNone.
Proof.
  split.
  - apply (proj1 (docstring_results_section_raises (rt := sample_runtime)
                    sample_with_results)
             "Doc. Results" (Node "section" ["results"] "Results" []) []);
      [reflexivity | right; left; reflexivity | reflexivity | reflexivity].
  - apply (proj2 (docstring_results_section_raises (rt := sample_runtime)
                    sample_greet)).
    reflexivity.
Defined.

(** ** Shapes kept by the union *)

Section union_shapes.
Context {rt : Runtime}.
Import function_parser_union.

(** The three ways in which [union] returns. *)
Lemma union_Ok (depth : nat) (val : list pyval) (r : pyval) :
  union depth val = Ok r ->
  (known val = [] /\ r = VNone)
  \/ In r (known val)
  \/ exists depth' v1_0 v1_1 first others items,
       depth = S depth'
       /\ known val = v1_0 :: v1_1
       /\ forallb (fun x => py_eq x v1_0) v1_1 = false
       /\ py_iter v1_0 = Ok first
       /\ Forall2 (fun x o => py_iter x = Ok o) v1_1 others
       /\ Forall (fun x => py_len x = py_len v1_0) v1_1
       /\ Forall2 (fun row item => union depth' row = Ok item)
                  (zip_star first others) items
       /\ rebuild v1_0 items = Ok r.
Proof.
  destruct depth as [|depth']; [discriminate|].
  cbn [union]. fold (known val).
  destruct (known val) as [|v1_0 [|v v1_1]] eqn:Ev1; intros H.
  - left. injection H as <-. split; reflexivity.
  - right. left. injection H as <-. left. reflexivity.
  - bind_skip H.
    destruct (forallb (fun x => py_eq x v1_0) (v :: v1_1)) eqn:Eeq.
    + right. left. injection H as <-. left. reflexivity.
    + right. right.
      bind_skip H.
      apply bind_Ok in H as (t1 & Ht1 & H).
      apply bind_Ok in H as (same & Hsame & H).
      destruct same; [|discriminate]. cbn [negb] in H.
      apply bind_Ok in H as (first & Hfirst & H).
      apply bind_Ok in H as (others & Hothers & H).
      apply bind_Ok in H as (items & Hitems & H).
      exists depth', v1_0, (v :: v1_1), first, others, items.
      repeat split; try assumption.
      * apply mapM_Forall2, Hothers.
      * apply allM_true in Hsame. rewrite Ht1.
        eapply Forall_impl; [|exact Hsame]. intros x Hx. cbv beta in Hx.
        apply bind_Ok in Hx as (n & Hn & Hx). injection Hx as Hx.
        apply Nat.eqb_eq in Hx. subst. exact Hn.
      * apply mapM_Forall2, Hitems.
Qed.

(** [zip] row by row: with rows at least as long as the first, the [i]-th
    tuple holds the [i]-th item of every row. *)
Lemma heads_tails_nonempty (rows : list (list pyval)) :
  Forall (fun o => o <> []) rows ->
  heads_tails rows = Some (map (hd VNone) rows, map (@tl pyval) rows).
Proof.
  induction 1 as [|o rows Ho _ IH]; [reflexivity|].
  destruct o as [|x o]; [contradiction|]. cbn [heads_tails].
  rewrite IH. reflexivity.
Qed.

Lemma zip_star_columns (first : list pyval) (others : list (list pyval)) :
  Forall (fun o => List.length first <= List.length o) others ->
  zip_star first others
  = map (fun i => nth i first VNone :: map (fun o => nth i o VNone) others)
        (seq 0 (List.length first)).
Proof.
  revert others. induction first as [|x first IH]; intros others Hlen;
    [reflexivity|].
  cbn [zip_star List.length seq map].
  rewrite heads_tails_nonempty.
  - rewrite IH.
    + f_equal.
      * f_equal. apply map_ext. intros [|y o]; reflexivity.
      * rewrite <- seq_shift, map_map. apply map_ext. intros i.
        cbn [nth]. f_equal. rewrite map_map. apply map_ext.
        intros [|y o]; [destruct i|]; reflexivity.
    + rewrite Forall_map. eapply Forall_impl; [|exact Hlen].
      intros [|y o]; cbn [List.length tl]; lia.
  - eapply Forall_impl; [|exact Hlen].
    intros [|y o]; cbn [List.length]; [lia | discriminate].
Qed.

End union_shapes.

Section union_levels.
Context {rt : Runtime}.
Import function_parser_union.

Lemma known_In (val : list pyval) (x : pyval) :
  In x (known val) -> In x val /\ is_None x = false.
Proof.
  unfold known. rewrite filter_In. intros [Hin Hx]. split; [exact Hin|].
  destruct (is_None x); [discriminate | reflexivity].
Qed.

Lemma known_Forall (P : pyval -> Prop) (val : list pyval) :
  Forall P val -> Forall (fun x => P x /\ is_None x = false) (known val).
Proof.
  intros H. apply Forall_forall. intros x Hx. apply known_In in Hx as [Hin Hx].
  split; [|exact Hx]. rewrite Forall_forall in H. apply H, Hin.
Qed.

Lemma known_id (val : list pyval) :
  Forall (fun x => is_None x = false) val -> known val = val.
Proof.
  induction 1 as [|x val Hx _ IH]; [reflexivity|].
  unfold known in *. cbn [filter]. rewrite Hx, IH. reflexivity.
Qed.

Lemma py_iter_items (v1_1 : list pyval) (others : list (list pyval)) :
  Forall2 (fun x o => py_iter x = Ok o) v1_1 others ->
  others = map items_of v1_1.
Proof.
  induction 1 as [|x o v1_1 others Hx _ IH]; [reflexivity|].
  cbn [map]. rewrite <- IH. f_equal.
  destruct x; try discriminate; injection Hx as <-; reflexivity.
Qed.

(** Booleans have no length: their union returns only when they all agree. *)
Lemma union_of_bools (depth : nat) (b0 : bool) (rest : list pyval) (item : pyval) :
  Forall (fun x => exists b, x = VBool b) rest ->
  union depth (VBool b0 :: rest) = Ok item ->
  item = VBool b0 /\ Forall (fun x => x = VBool b0) rest.
Proof.
  intros Hrest H. destruct depth as [|depth']; [discriminate|].
  cbn [union] in H.
  change (filter (fun x => negb (is_None x)) (VBool b0 :: rest))
    with (known (VBool b0 :: rest)) in H.
  rewrite known_id in H.
  2:{ constructor; [reflexivity|]. eapply Forall_impl; [|exact Hrest].
      intros x (b & ->). reflexivity. }
  destruct rest as [|y rest].
  { injection H as <-. split; [reflexivity | constructor]. }
  bind_skip H.
  destruct (forallb (fun x => py_eq x (VBool b0)) (y :: rest)) eqn:E.
  - injection H as <-. split; [reflexivity|].
    rewrite forallb_forall in E. apply Forall_forall. intros x Hx.
    rewrite Forall_forall in Hrest. destruct (Hrest x Hx) as (b & ->).
    specialize (E _ Hx). cbn [py_eq] in E. apply Bool.eqb_prop in E.
    subst. reflexivity.
  - discriminate.
Qed.

Lemma optionality_known (o : pyval) :
  optionality_shape o -> is_None o = false ->
  exists b d, o = VTuple [VBool b; d] /\ (b = false -> d = VNone).
Proof.
  intros [-> | [(d & ->) | ->]] Hn.
  - discriminate.
  - exists true, d. split; [reflexivity | discriminate].
  - exists false, VNone. split; reflexivity.
Qed.

Lemma union_optionality (depth : nat) (os : list pyval) (o : pyval) :
  Forall optionality_shape os ->
  union depth os = Ok o ->
  optionality_shape o.
Proof.
  intros Hos H. pose proof (known_Forall _ _ Hos) as Hk.
  apply union_Ok in H
    as [[_ ->] | [Hin | (depth' & v1_0 & v1_1 & first & others & items & ->
                           & Ev1 & Hneq & Hfirst & Hothers & _ & Hitems & Hr)]].
  - left. reflexivity.
  - rewrite Forall_forall in Hk. apply Hk, Hin.
  - rewrite Ev1 in Hk. inversion Hk as [|? ? [H0 N0] Hk1]; subst.
    destruct (optionality_known _ H0 N0) as (b0 & d0 & -> & Hd0).
    injection Hfirst as <-.
    apply py_iter_items in Hothers. subst others.
    assert (Hpairs : Forall (fun x => exists b d,
                               x = VTuple [VBool b; d] /\ (b = false -> d = VNone))
                            v1_1).
    { eapply Forall_impl; [|exact Hk1]. intros x [Hx Nx].
      apply optionality_known; assumption. }
    rewrite zip_star_columns in Hitems.
    2:{ rewrite Forall_map. eapply Forall_impl; [|exact Hpairs].
        intros x (b & d & -> & _). cbn. lia. }
    cbn [List.length seq map nth] in Hitems.
    inversion Hitems as [|r0 i0 rs0 is0 Hi0 Hitems1]; subst.
    inversion Hitems1 as [|r1 i1 rs1 is1 Hi1 Hitems2]; subst.
    inversion Hitems2; subst.
    apply union_of_bools in Hi0 as [-> Hflags].
    2:{ rewrite map_map, Forall_map. eapply Forall_impl; [|exact Hpairs].
        intros x (b & d & -> & _). exists b. reflexivity. }
    injection Hr as <-.
    destruct b0; [right; left; eexists; reflexivity|].
    exfalso. rewrite map_map, Forall_map in Hflags.
    assert (Hall : forallb (fun x => py_eq x (VTuple [VBool false; d0])) v1_1 = true).
    { apply forallb_forall. intros x Hx.
      rewrite Forall_forall in Hflags, Hpairs.
      destruct (Hpairs x Hx) as (b & d & -> & Hd).
      specialize (Hflags _ Hx). cbn in Hflags. injection Hflags as ->.
      rewrite (Hd eq_refl), (Hd0 eq_refl). reflexivity. }
    rewrite Hall in Hneq. discriminate.
Qed.

Lemma record_known (r : pyval) :
  record_shape r -> is_None r = false ->
  exists n t h o, r = VTuple [n; t; h; o] /\ optionality_shape o.
Proof. intros [-> | H] Hn; [discriminate | exact H]. Qed.

Lemma union_record (depth : nat) (rs : list pyval) (r : pyval) :
  Forall record_shape rs ->
  union depth rs = Ok r ->
  record_shape r.
Proof.
  intros Hrs H. pose proof (known_Forall _ _ Hrs) as Hk.
  apply union_Ok in H
    as [[_ ->] | [Hin | (depth' & v1_0 & v1_1 & first & others & items & ->
                           & Ev1 & _ & Hfirst & Hothers & _ & Hitems & Hr)]].
  - left. reflexivity.
  - rewrite Forall_forall in Hk. apply Hk, Hin.
  - rewrite Ev1 in Hk. inversion Hk as [|? ? [H0 N0] Hk1]; subst.
    destruct (record_known _ H0 N0) as (n0 & t0 & h0 & o0 & -> & Ho0).
    injection Hfirst as <-.
    apply py_iter_items in Hothers. subst others.
    assert (Htuples : Forall (fun x => exists n t h o,
                                x = VTuple [n; t; h; o] /\ optionality_shape o)
                             v1_1).
    { eapply Forall_impl; [|exact Hk1]. intros x [Hx Nx].
      apply record_known; assumption. }
    rewrite zip_star_columns in Hitems.
    2:{ rewrite Forall_map. eapply Forall_impl; [|exact Htuples].
        intros x (n & t & h & o & -> & _). cbn. lia. }
    cbn [List.length seq map nth] in Hitems.
    inversion Hitems as [|r0 i0 rs0 is0 _ Hitems1]; subst.
    inversion Hitems1 as [|r1 i1 rs1 is1 _ Hitems2]; subst.
    inversion Hitems2 as [|r2 i2 rs2 is2 _ Hitems3]; subst.
    inversion Hitems3 as [|r3 i3 rs3 is3 Hi3 Hitems4]; subst.
    inversion Hitems4; subst.
    injection Hr as <-. right. exists i0, i1, i2, i3. split; [reflexivity|].
    eapply union_optionality; [|exact Hi3].
    constructor; [exact Ho0|].
    rewrite map_map, Forall_map. eapply Forall_impl; [|exact Htuples].
    intros x (n & t & h & o & -> & Ho). exact Ho.
Qed.

Lemma heads_tails_Forall (P : pyval -> Prop) (rows : list (list pyval))
    (hs : list pyval) (ts : list (list pyval)) :
  heads_tails rows = Some (hs, ts) ->
  Forall (Forall P) rows ->
  Forall P hs /\ Forall (Forall P) ts.
Proof.
  revert hs ts. induction rows as [|o rows IH]; intros hs ts H Hrows.
  - injection H as <- <-. split; constructor.
  - destruct o as [|x o]; [discriminate|]. cbn [heads_tails] in H.
    destruct (heads_tails rows) as [[hs' ts']|]; [|discriminate].
    injection H as <- <-.
    inversion Hrows as [|? ? Hxo Hrows']; subst.
    inversion Hxo; subst.
    destruct (IH hs' ts' eq_refl Hrows') as [Hhs Hts].
    split; constructor; assumption.
Qed.

Lemma zip_star_Forall (P : pyval -> Prop) (first : list pyval)
    (others : list (list pyval)) :
  Forall P first -> Forall (Forall P) others ->
  Forall (Forall P) (zip_star first others).
Proof.
  intros Hfirst. revert others.
  induction Hfirst as [|x first Hx _ IH]; intros others Hothers;
    [constructor|].
  cbn [zip_star]. destruct (heads_tails others) as [[hs ts]|] eqn:E;
    [|constructor].
  destruct (heads_tails_Forall P _ _ _ E Hothers) as [Hhs Hts].
  constructor; [constructor; assumption | apply IH, Hts].
Qed.

Lemma parameters_known (p : pyval) :
  parameters_shape p -> is_None p = false ->
  exists rs, p = VList rs /\ Forall record_shape rs.
Proof. intros [-> | H] Hn; [discriminate | exact H]. Qed.

Lemma union_parameters (depth : nat) (ps : list pyval) (p : pyval) :
  Forall parameters_shape ps ->
  union depth ps = Ok p ->
  parameters_shape p.
Proof.
  intros Hps H. pose proof (known_Forall _ _ Hps) as Hk.
  apply union_Ok in H
    as [[_ ->] | [Hin | (depth' & v1_0 & v1_1 & first & others & items & ->
                           & Ev1 & _ & Hfirst & Hothers & _ & Hitems & Hr)]].
  - left. reflexivity.
  - rewrite Forall_forall in Hk. apply Hk, Hin.
  - rewrite Ev1 in Hk. inversion Hk as [|? ? [H0 N0] Hk1]; subst.
    destruct (parameters_known _ H0 N0) as (rs0 & -> & Hrs0).
    injection Hfirst as <-. injection Hr as <-.
    apply py_iter_items in Hothers. subst others.
    right. exists items. split; [reflexivity|].
    assert (Hrows : Forall (Forall record_shape)
                           (zip_star rs0 (map items_of v1_1))).
    { apply zip_star_Forall; [exact Hrs0|].
      rewrite Forall_map. eapply Forall_impl; [|exact Hk1].
      intros x [Hx Nx]. destruct (parameters_known _ Hx Nx) as (rs & -> & Hrs).
      exact Hrs. }
    clear - Hitems Hrows. induction Hitems as [|row item rows items Hi _ IH];
      [constructor|].
    inversion Hrows; subst.
    constructor; [eapply union_record; eassumption | apply IH; assumption].
Qed.

Lemma metadata_known (a : pyval) :
  metadata_shape a ->
  is_None a = false
  /\ exists a0 a1 a2 a3, a = VList [a0; a1; a2; a3] /\ parameters_shape a2.
Proof.
  intros (a0 & a1 & a2 & a3 & -> & H). split; [reflexivity|].
  exists a0, a1, a2, a3. split; [reflexivity | exact H].
Qed.

Lemma union_metadata (depth : nat) (l : list pyval) (a : pyval) :
  Forall metadata_shape l ->
  union depth l = Ok a ->
  a = VNone \/ metadata_shape a.
Proof.
  intros Hl H. pose proof (known_Forall _ _ Hl) as Hk.
  apply union_Ok in H
    as [[_ ->] | [Hin | (depth' & v1_0 & v1_1 & first & others & items & ->
                           & Ev1 & _ & Hfirst & Hothers & _ & Hitems & Hr)]].
  - left. reflexivity.
  - right. rewrite Forall_forall in Hk. apply Hk, Hin.
  - right. rewrite Ev1 in Hk. inversion Hk as [|? ? [H0 _] Hk1]; subst.
    destruct (metadata_known _ H0) as (_ & a0 & a1 & a2 & a3 & -> & Ha2).
    injection Hfirst as <-.
    apply py_iter_items in Hothers. subst others.
    assert (Hlists : Forall (fun x => exists b0 b1 b2 b3,
                               x = VList [b0; b1; b2; b3] /\ parameters_shape b2)
                            v1_1).
    { eapply Forall_impl; [|exact Hk1]. intros x [Hx _].
      apply metadata_known, Hx. }
    rewrite zip_star_columns in Hitems.
    2:{ rewrite Forall_map. eapply Forall_impl; [|exact Hlists].
        intros x (b0 & b1 & b2 & b3 & -> & _). cbn. lia. }
    cbn [List.length seq map nth] in Hitems.
    inversion Hitems as [|r0 i0 rs0 is0 _ Hitems1]; subst.
    inversion Hitems1 as [|r1 i1 rs1 is1 _ Hitems2]; subst.
    inversion Hitems2 as [|r2 i2 rs2 is2 Hi2 Hitems3]; subst.
    inversion Hitems3 as [|r3 i3 rs3 is3 _ Hitems4]; subst.
    inversion Hitems4; subst.
    injection Hr as <-. exists i0, i1, i2, i3. split; [reflexivity|].
    eapply union_parameters; [|exact Hi2].
    constructor; [exact Ha2|].
    rewrite map_map, Forall_map. eapply Forall_impl; [|exact Hlists].
    intros x (b0 & b1 & b2 & b3 & -> & Hb). exact Hb.
Qed.

End union_levels.

(** ** Shapes kept by the parsers *)

Lemma function_parser_ind_nested (P : function_parser -> Prop)
  (Hsig : P parser_signature)
  (Hdoc : P parser_docstring_numpy)
  (Hunion : forall parsers, Forall P parsers -> P (parser_union parsers)) :
  forall p, P p.
Proof.
  fix IH 1. intros [ | |parsers].
  - exact Hsig.
  - exact Hdoc.
  - apply Hunion. revert parsers.
    fix IHl 1. intros [|p parsers]; constructor; [apply IH | apply IHl].
Qed.

Lemma signature_shape (func : function) (ans : pyval) :
  function_parser_signature._parse func = Ok ans -> metadata_shape ans.
Proof.
  unfold function_parser_signature._parse.
  destruct (signature func) as [parameters ret|e].
  - intros H. injection H as <-. do 4 eexists. split; [reflexivity|].
    right. eexists. split; [reflexivity|].
    rewrite Forall_map. apply Forall_forall. intros y _.
    right. do 4 eexists. split; [reflexivity|].
    unfold function_parser_signature.optionality.
    destruct (negb (py_eq (inspect.default y) _empty)).
    + right. left. eexists. reflexivity.
    + right. right. reflexivity.
  - destruct (String.prefix _ e); discriminate.
Qed.

Lemma setitem_length (l l' : list pyval) (i : nat) (v : pyval) :
  setitem l i v = Ok l' -> List.length l' = List.length l.
Proof.
  revert l' i; induction l as [|x l IH]; intros l' i H; simpl in H.
  - destruct i; discriminate.
  - destruct i as [|i].
    + injection H as <-. reflexivity.
    + apply bind_Ok in H as (l'' & Hl & H). injection H as <-.
      simpl. f_equal. eapply IH, Hl.
Qed.

Lemma setitem_same (l l' : list pyval) (i : nat) (v : pyval) :
  setitem l i v = Ok l' -> nth_error l' i = Some v.
Proof.
  revert l' i; induction l as [|x l IH]; intros l' i H; simpl in H.
  - destruct i; discriminate.
  - destruct i as [|i].
    + injection H as <-. reflexivity.
    + apply bind_Ok in H as (l'' & Hl & H). injection H as <-.
      simpl. eapply IH, Hl.
Qed.

Section docstring_shape.
Context {rt : Runtime}.
Import function_parser_docstring_numpy.

(** The record under construction has four fields and its parameters are
    well shaped. *)
Let building (l : list pyval) : Prop :=
  List.length l = 4
  /\ exists a2, nth_error l 2 = Some a2 /\ parameters_shape a2.

Lemma building_setitem (l l' : list pyval) (i : nat) (v : pyval) :
  setitem l i v = Ok l' ->
  building l ->
  i <> 2 \/ parameters_shape v ->
  building l'.
Proof.
  intros H (Hlen & a2 & Ha2 & Hshape) Hi. split.
  - rewrite (setitem_length _ _ _ _ H). exact Hlen.
  - destruct (Nat.eq_dec i 2) as [->|Hne].
    + exists v. split; [eapply setitem_same, H|].
      destruct Hi as [Hi | Hi]; [contradiction | exact Hi].
    + exists a2. split; [|exact Hshape].
      rewrite (setitem_other _ _ _ _ _ H Hne). exact Ha2.
Qed.

Lemma entries_shape (d : list node) (d' : pyval) :
  entries d = Ok d' -> parameters_shape d'.
Proof.
  unfold entries. intros H.
  bind_skip H.
  apply bind_Ok in H as (d0 & _ & H).
  bind_skip H.
  apply bind_Ok in H as (d1 & _ & H).
  bind_skip H.
  bind_skip H.
  apply bind_Ok in H as (d2 & _ & H).
  bind_skip H.
  apply bind_Ok in H as (d3 & _ & H).
  injection H as <-. right. eexists. split; [reflexivity|].
  rewrite Forall_map. apply Forall_forall. intros [[n t] f] _.
  right. destruct (0 <? String.length t);
    do 4 eexists; (split; [reflexivity | left; reflexivity]).
Qed.

Lemma docstring_shape (func : function) (ans : pyval) :
  _parse func = Ok ans -> metadata_shape ans.
Proof.
  unfold _parse. intros H.
  apply bind_Ok in H as (doc & _ & H).
  apply bind_Ok in H as (secs & _ & H).
  bind_skip H.
  apply bind_Ok in H as (d & _ & H).
  apply bind_Ok in H as ([ans0 d'] & Hans0 & H).
  apply bind_Ok in H as (ans1 & Hans1 & H).
  apply bind_Ok in H as (ans2 & Hans2 & H).
  apply bind_Ok in H as (ans3 & Hans3 & H). injection H as <-.
  assert (B0 : building ans0).
  { assert (B : building [VNone; VNone; VNone; VNone]).
    { split; [reflexivity|]. exists VNone. split; [reflexivity | left; reflexivity]. }
    destruct (filter is_paragraph d).
    - injection Hans0 as <- _. exact B.
    - apply bind_Ok in Hans0 as (a & Ha & Hans0). injection Hans0 as <- _.
      eapply building_setitem; [exact Ha | exact B | left; discriminate]. }
  assert (B1 : building ans1).
  { eapply building_setitem; [exact Hans1 | exact B0 | left; discriminate]. }
  assert (Hblank : forall l l' xi, xi <> 2 -> blank_step l xi = Ok l' ->
                                   building l -> building l').
  { intros l l' xi Hxi Hb B. unfold blank_step in Hb.
    apply bind_Ok in Hb as (a & _ & Hb).
    destruct (is_None a); [injection Hb as <-; exact B|].
    apply bind_Ok in Hb as (n & _ & Hb).
    destruct (n =? 0); [|injection Hb as <-; exact B].
    eapply building_setitem; [exact Hb | exact B | left; exact Hxi]. }
  assert (B2 : building ans2).
  { cbn [foldM] in Hans2.
    apply bind_Ok in Hans2 as (l0 & H0 & Hans2).
    apply bind_Ok in Hans2 as (l1 & H1 & Hans2). injection Hans2 as <-.
    eapply (Hblank l0 l1 1); [discriminate | exact H1|].
    eapply (Hblank ans1 l0 0); [discriminate | exact H0 | exact B1]. }
  assert (Hsection : forall l l' xi, section_step
                                       (filter (fun xy => 0 <? List.length (snd xy)) secs)
                                       l xi = Ok l' ->
                                     building l -> building l').
  { intros l l' xi Hs B. unfold section_step in Hs.
    destruct (dict_get (fst xi) _) as [sec|]; [|injection Hs as <-; exact B].
    destruct (String.eqb (fst xi) "results"); [discriminate|].
    apply bind_Ok in Hs as (e' & He' & Hs).
    eapply building_setitem; [exact Hs | exact B | right].
    eapply entries_shape, He'. }
  assert (B3 : building ans3).
  { cbn [foldM] in Hans3.
    apply bind_Ok in Hans3 as (l0 & H0 & Hans3).
    apply bind_Ok in Hans3 as (l1 & H1 & Hans3). injection Hans3 as <-.
    eapply Hsection; [exact H1|]. eapply Hsection; [exact H0 | exact B2]. }
  destruct B3 as (Hlen & a2 & Ha2 & Hshape).
  destruct ans3 as [|a0 [|a1 [|a2' [|a3 [|]]]]]; try discriminate.
  injection Ha2 as ->.
  exists a0, a1, a2, a3. split; [reflexivity | exact Hshape].
Qed.

End docstring_shape.

(** Every parser returns well-shaped metadata. *)
Lemma parse_shape {rt : Runtime} (depth : nat) (parser : function_parser)
    (func : function) (ans : pyval) :
  parse depth parser func = Ok ans -> metadata_shape ans.
Proof.
  revert ans.
  induction parser as [ | |parsers IH] using function_parser_ind_nested;
    intros ans H.
  - cbn [parse] in H. apply bind_Ok in H as (a & Ha & H).
    bind_skip H. injection H as <-.
    eapply signature_shape, Ha.
  - cbn [parse] in H. apply bind_Ok in H as (a & Ha & H).
    bind_skip H. injection H as <-.
    eapply docstring_shape, Ha.
  - change (parse depth (parser_union parsers) func)
      with (a <- function_parser_union._parse (parse depth) depth parsers func ;;
            function_parser_base.check a ;;; Ok a) in H.
    apply bind_Ok in H as (a & Ha & H).
    apply bind_Ok in H as (u & Hcheck & H). injection H as <-.
    unfold function_parser_union._parse in Ha.
    apply bind_Ok in Ha as (anss & Hanss & Ha).
    apply mapM_Forall2 in Hanss.
    assert (Hshapes : Forall metadata_shape anss).
    { clear - Hanss IH. induction Hanss as [|p a ps anss Hp _ IHl];
        [constructor|].
      inversion IH; subst. constructor; [auto | apply IHl; assumption]. }
    destruct (union_metadata depth anss a Hshapes Ha) as [-> | Hshape];
      [discriminate | exact Hshape].
Qed.

(** ** The shared format check *)

Lemma forallb_false_In {A : Type} (f : A -> bool) (l : list A) (x : A) :
  In x l -> f x = false -> forallb f l = false.
Proof.
  intros Hin Hx. destruct (forallb f l) eqn:E; [|reflexivity].
  rewrite forallb_forall in E. rewrite (E x Hin) in Hx. discriminate.
Qed.

Lemma parameter_ok_false_default (n t h d : pyval) :
  function_parser_base.parameter_ok (VTuple [n; t; h; VTuple [VBool false; d]]) = true ->
  d = VNone.
Proof.
  unfold function_parser_base.parameter_ok. simpl.
  destruct d; try reflexivity; simpl;
    rewrite ?andb_false_r; intros H; discriminate.
Qed.

Lemma check_Ok_parameters (ans ans' : pyval) (xs : list pyval) :
  function_parser_base.check ans = Ok ans' ->
  getitem ans 2 = Ok (VList xs) ->
  forallb function_parser_base.parameter_ok xs = true.
Proof.
  unfold function_parser_base.check. intros H H2.
  apply bind_Ok in H as (n & _ & H).
  bind_skip H.
  apply bind_Ok in H as (a0 & _ & H).
  bind_skip H.
  apply bind_Ok in H as (a1 & _ & H).
  bind_skip H.
  apply bind_Ok in H as (a2 & Ha2 & H).
  rewrite H2 in Ha2. injection Ha2 as <-.
  bind_skip H.
  simpl in H.
  destruct (forallb function_parser_base.parameter_ok xs); [reflexivity|].
  simpl in H. discriminate.
Qed.

(** Line 51 does not look at the default when the optionality flag itself
    is [None]: the check alone lets such a pair through.  No parser returns
    one ([parse_shape]). *)
Lemma check_accepts_absent_flag :
  function_parser_base.check
    (VList [VNone; VNone;
            VList [VTuple [VStr "x"; py_int; VNone; VTuple [VNone; VInt 3]]];
            VNone])
  = Ok (VList [VNone; VNone;
               VList [VTuple [VStr "x"; py_int; VNone; VTuple [VNone; VInt 3]]];
               VNone]).
Proof. reflexivity. Qed.

(** C9: the shared check rejects, as a format error, a parameter record
    whose optionality is [False] and whose default is not [None]; so in
    every record list it accepts an optionality [False] comes with the
    default [None]; and in every record a parser returns, extractor or
    union, a default that is not [None] comes with the optionality
    [True]. *)
Theorem check_rejects_false_optionality_with_default :
  (forall (a0 a1 a3 : pyval) (xs : list pyval) (n t h d : pyval),
     function_parser_base.str_or_None a0 = true ->
     function_parser_base.str_or_None a1 = true ->
     In (VTuple [n; t; h; VTuple [VBool false; d]]) xs ->
     d <> VNone ->
     function_parser_base.check (VList [a0; a1; VList xs; a3])
     = Raise AnnotationFormatError)
  /\ (forall (ans ans' : pyval) (xs : list pyval) (n t h d : pyval),
        function_parser_base.check ans = Ok ans' ->
        getitem ans 2 = Ok (VList xs) ->
        In (VTuple [n; t; h; VTuple [VBool false; d]]) xs ->
        d = VNone)
  /\ (forall (rt : Runtime) (depth : nat) (parser : function_parser)
             (func : function) (ans : pyval) (xs : list pyval)
             (n t h o d : pyval),
        parse depth parser func = Ok ans ->
        getitem ans 2 = Ok (VList xs) ->
        In (VTuple [n; t; h; VTuple [o; d]]) xs ->
        d <> VNone ->
        o = VBool true).
Proof.
  split; [|split].
  - intros a0 a1 a3 xs n t h d H0 H1 Hin Hd.
    unfold function_parser_base.check. simpl.
    rewrite H0, H1. simpl.
    rewrite (forallb_false_In _ xs _ Hin); [reflexivity|].
    destruct (function_parser_base.parameter_ok
                (VTuple [n; t; h; VTuple [VBool false; d]])) eqn:E;
      [|reflexivity].
    apply parameter_ok_false_default in E. contradiction.
  - intros ans ans' xs n t h d Hc H2 Hin.
    pose proof (check_Ok_parameters ans ans' xs Hc H2) as Hall.
    rewrite forallb_forall in Hall.
    eapply parameter_ok_false_default, Hall, Hin.
  - intros rt depth parser func ans xs n t h o d Hp H2 Hin Hd.
    apply parse_shape in Hp as (a0 & a1 & a2 & a3 & -> & Hshape).
    injection H2 as ->.
    destruct Hshape as [E | (rs & E & Hrs)]; [discriminate|].
    injection E as <-. rewrite Forall_forall in Hrs.
    destruct (Hrs _ Hin) as [E | (n' & t' & h' & o' & E & Ho)];
      [discriminate|].
    injection E as _ _ _ <-.
    destruct Ho as [E | [(d' & E) | E]]; [discriminate | |].
    + injection E as -> _. reflexivity.
    + injection E as _ ->. contradiction.
Qed.

Lemma check_rejects_false_optionality_with_default_witness :
  function_parser_base.check
    (VList [VNone; VNone;
            VList [VTuple [VStr "x"; py_int; VNone; VTuple [VBool false; VInt 3]]];
            VNone])
  = Raise AnnotationFormatError
  /\ VNone = VNone
  /\ VBool true = VBool true.
Proof.
  destruct check_rejects_false_optionality_with_default as (H1 & H2 & H3).
  split; [|split].
  - apply (H1 VNone VNone VNone _ (VStr "x") py_int VNone (VInt 3));
      [reflexivity | reflexivity | left; reflexivity | discriminate].
  - apply (H2 sample_metadata sample_metadata (map record_tuple sample_records)
              (VStr "name") py_str VNone VNone);
      [reflexivity | reflexivity | left; reflexivity].
  - apply (H3 sample_runtime 5 docstringrunner_parser_func sample_greet
              sample_metadata (map record_tuple sample_records)
              (VStr "loud") py_bool VNone (VBool true) (VBool true));
      [reflexivity | reflexivity | right; left; reflexivity | discriminate].
Defined.

(** ** Undocumented functions and the skip-list *)

Lemma dict_set_keys {V : Type} (k k' : string) (v : V) (d : list (string * V)) :
  In k' (map fst (dict_set k v d)) <-> k' = k \/ In k' (map fst d).
Proof.
  induction d as [|[k0 v0] d IH]; simpl.
  - intuition congruence.
  - destruct (String.eqb_spec k k0) as [->|Hk]; simpl.
    + intuition congruence.
    + rewrite IH. intuition congruence.
Qed.

Lemma dict_set_NoDup {V : Type} (k : string) (v : V) (d : list (string * V)) :
  NoDup (map fst d) -> NoDup (map fst (dict_set k v d)).
Proof.
  induction d as [|[k0 v0] d IH]; simpl; intros Hnd.
  - constructor; [intros [] | constructor].
  - inversion Hnd as [|? ? Hk0 Hd]; subst.
    destruct (String.eqb_spec k k0) as [->|Hk]; simpl.
    + constructor; assumption.
    + constructor; [|apply IH, Hd].
      rewrite dict_set_keys. intros [E | Hin]; [congruence | contradiction].
Qed.

Lemma by_name_NoDup (ans : list (function * list string)) :
  NoDup (map fst (by_name ans)).
Proof.
  unfold by_name.
  assert (H : forall d : list (string * function),
             NoDup (map fst d) ->
             NoDup (map fst
                      (fold_left
                         (fun d xy => dict_set (String.concat "." (snd xy)) (fst xy) d)
                         ans d))).
  { induction ans as [|xy ans IH]; intros d Hd; simpl; [exact Hd|].
    apply IH, dict_set_NoDup, Hd. }
  apply H. constructor.
Qed.

Lemma dict_get_In {V : Type} (k : string) (v : V) (d : list (string * V)) :
  dict_get k d = Some v -> In (k, v) d.
Proof.
  induction d as [|[k0 v0] d IH]; simpl; [discriminate|].
  destruct (String.eqb_spec k k0) as [->|Hk].
  - intros H. injection H as <-. left. reflexivity.
  - intros H. right. apply IH, H.
Qed.

Lemma dict_get_unique {V : Type} (k : string) (v v' : V) (d : list (string * V)) :
  NoDup (map fst d) -> dict_get k d = Some v -> In (k, v') d -> v' = v.
Proof.
  induction d as [|[k0 v0] d IH]; simpl; [discriminate|].
  intros Hnd Hget Hin. inversion Hnd as [|? ? Hk0 Hd]; subst.
  destruct (String.eqb_spec k k0) as [->|Hk].
  - injection Hget as <-. destruct Hin as [E | Hin]; [congruence|].
    exfalso. apply Hk0. apply (in_map fst) in Hin. exact Hin.
  - destruct Hin as [E | Hin]; [congruence|]. apply IH; assumption.
Qed.

Lemma dict_set_get_other {V : Type} (k x : string) (v : V) (d : list (string * V)) :
  x <> k -> dict_get x (dict_set k v d) = dict_get x d.
Proof.
  intros Hx. induction d as [|[k0 v0] d IH]; simpl.
  - destruct (String.eqb_spec x k); [contradiction | reflexivity].
  - destruct (String.eqb_spec k k0) as [->|Hk]; simpl.
    + destruct (String.eqb_spec x k0); [contradiction | reflexivity].
    + destruct (String.eqb_spec x k0); [reflexivity | exact IH].
Qed.

Section skip_list.
Variable parse_func : function -> result pyval.
Variable func : function.
Variable e : exn.
Hypothesis parse_raises : parse_func func = Raise e.

Lemma parse_all_raises (l : list (string * function)) (x : string) :
  In (x, func) l ->
  exists e', mapM (fun '(x, y) => m <- parse_func y ;; Ok (x, (y, m))) l = Raise e'.
Proof.
  induction l as [|[k f] l IH]; intros Hin; [contradiction|].
  rewrite mapM_cons.
  destruct (parse_func f) as [m|e1] eqn:E; cbn [bind];
    [|exists e1; reflexivity].
  destruct Hin as [Heq | Hin].
  - injection Heq as -> ->. congruence.
  - destruct (IH Hin) as (e' & He'). exists e'. rewrite He'. reflexivity.
Qed.

Variable errskip : list exn.

Let skip_body (ans_f : list (string * (function * pyval))) (xy : string * function)
  : result (list (string * (function * pyval))) :=
  let '(x, y) := xy in
  match parse_func y with
  | Ok m => Ok (dict_set x (y, m) ans_f)
  | Raise e => if caught_by errskip e then Ok ans_f else Raise e
  end.

Lemma parse_skip_raises (l : list (string * function)) (x : string)
    (ans_f : list (string * (function * pyval))) :
  caught_by errskip e = false ->
  In (x, func) l ->
  exists e', foldM skip_body l ans_f = Raise e'.
Proof.
  intros Hskip. revert ans_f.
  induction l as [|[k f] l IH]; intros ans_f Hin; [contradiction|].
  rewrite foldM_cons. unfold skip_body at 1.
  destruct Hin as [Heq | Hin].
  - injection Heq as -> ->. rewrite parse_raises, Hskip.
    exists e. reflexivity.
  - destruct (parse_func f) as [m|e1]; cbn [bind].
    + apply IH, Hin.
    + destruct (caught_by errskip e1); cbn [bind];
        [apply IH, Hin | exists e1; reflexivity].
Qed.

Lemma parse_skip_omits (l : list (string * function)) (x : string)
    (ans_f r : list (string * (function * pyval))) :
  caught_by errskip e = true ->
  (forall f, In (x, f) l -> f = func) ->
  dict_get x ans_f = None ->
  foldM skip_body l ans_f = Ok r ->
  dict_get x r = None.
Proof.
  intros Hskip. revert ans_f.
  induction l as [|[k f] l IH]; intros ans_f Hl Hx H.
  - injection H as <-. exact Hx.
  - rewrite foldM_cons in H. apply bind_Ok in H as (ans_f' & Hstep & H).
    unfold skip_body in Hstep.
    apply (IH ans_f'); [intros f' Hf'; apply Hl; right; exact Hf' | | exact H].
    destruct (String.eqb_spec x k) as [->|Hxk].
    + rewrite (Hl f (or_introl eq_refl)), parse_raises, Hskip in Hstep.
      injection Hstep as <-. exact Hx.
    + destruct (parse_func f) as [m|e1].
      * injection Hstep as <-. rewrite dict_set_get_other; assumption.
      * destruct (caught_by errskip e1); [|discriminate].
        injection Hstep as <-. exact Hx.
Qed.

End skip_list.

(** C10: for a function without a documentation string, the documentation
    extractor raises [TypeError] instead of returning a record, and so does
    its [parse]; the pipeline of [docstringrunner] (signature, then
    docstring) raises too, with [TypeError] unless the signature extractor
    has raised before.  Discovery lets the exception through when there is
    no skip-list or when the skip-list does not catch it, and leaves the
    function out of its result when the skip-list catches it. *)
Theorem undocumented_function_fails {rt : Runtime} (depth : nat)
    (func : function) :
  __doc__ func = None ->
  function_parser_docstring_numpy._parse func = Raise TypeError
  /\ parse depth parser_docstring_numpy func = Raise TypeError
  /\ exists e,
       parse depth docstringrunner_parser_func func = Raise e
       /\ (forall m, parse depth parser_signature func = Ok m -> e = TypeError)
       /\ forall (ans : list (function * list string)) (x : string),
            dict_get x (by_name ans) = Some func ->
            (exists e',
               get_functions_raw_ans_f
                 (parse depth docstringrunner_parser_func) [] ans = Raise e')
            /\ (forall errskip,
                  errskip <> [] -> caught_by errskip e = false ->
                  exists e',
                    get_functions_raw_ans_f
                      (parse depth docstringrunner_parser_func) errskip ans
                    = Raise e')
            /\ (forall errskip r,
                  errskip <> [] -> caught_by errskip e = true ->
                  get_functions_raw_ans_f
                    (parse depth docstringrunner_parser_func) errskip ans
                  = Ok r ->
                  dict_get x r = None).
Proof.
  intros Hdoc.
  assert (H_parse : function_parser_docstring_numpy._parse func = Raise TypeError).
  { unfold function_parser_docstring_numpy._parse. rewrite Hdoc. reflexivity. }
  assert (Hparse : parse depth parser_docstring_numpy func = Raise TypeError).
  { cbn [parse]. rewrite H_parse. reflexivity. }
  split; [exact H_parse|]. split; [exact Hparse|].
  exists (match parse depth parser_signature func with
          | Ok _ => TypeError
          | Raise e1 => e1
          end).
  assert (Hpipe : parse depth docstringrunner_parser_func func
                  = Raise (match parse depth parser_signature func with
                           | Ok _ => TypeError
                           | Raise e1 => e1
                           end)).
  { unfold docstringrunner_parser_func.
    change (parse depth (parser_union [parser_signature; parser_docstring_numpy]) func)
      with (ans <- function_parser_union._parse (parse depth) depth
                     [parser_signature; parser_docstring_numpy] func ;;
            function_parser_base.check ans ;;; Ok ans).
    unfold function_parser_union._parse. rewrite !mapM_cons.
    destruct (parse depth parser_signature func) as [m|e1]; cbn [bind];
      [rewrite Hparse|]; reflexivity. }
  split; [exact Hpipe|]. split.
  - intros m Hm. rewrite Hm. reflexivity.
  - intros ans x Hx. unfold get_functions_raw_ans_f.
    pose proof (dict_get_In _ _ _ Hx) as Hin.
    split; [|split].
    + cbn [List.length Nat.eqb]. eapply parse_all_raises; eassumption.
    + intros errskip Hne Hskip.
      destruct errskip as [|c errskip]; [contradiction|].
      cbn [List.length Nat.eqb].
      eapply parse_skip_raises; eassumption.
    + intros errskip r Hne Hskip Hr.
      destruct errskip as [|c errskip]; [contradiction|].
      cbn [List.length Nat.eqb] in Hr.
      apply (parse_skip_omits _ func _ Hpipe (c :: errskip) (by_name ans) x [] r
               Hskip); [|reflexivity | exact Hr].
      intros f Hf. eapply dict_get_unique; [apply by_name_NoDup | exact Hx | exact Hf].
Qed.

Lemma undocumented_function_fails_witness :
  function_parser_docstring_numpy._parse (rt := sample_runtime)
    sample_undocumented = Raise TypeError
  /\ parse (rt := sample_runtime) 5 parser_docstring_numpy sample_undocumented
     = Raise TypeError
  /\ exists e,
       parse (rt := sample_runtime) 5 docstringrunner_parser_func
         sample_undocumented = Raise e
       /\ (forall m,
             parse (rt := sample_runtime) 5 parser_signature sample_undocumented
             = Ok m -> e = TypeError)
       /\ forall (ans : list (function * list string)) (x : string),
            dict_get x (by_name ans) = Some sample_undocumented ->
            (exists e',
               get_functions_raw_ans_f
                 (parse (rt := sample_runtime) 5 docstringrunner_parser_func)
                 [] ans = Raise e')
            /\ (forall errskip,
                  errskip <> [] -> caught_by errskip e = false ->
                  exists e',
                    get_functions_raw_ans_f
                      (parse (rt := sample_runtime) 5 docstringrunner_parser_func)
                      errskip ans
                    = Raise e')
            /\ (forall errskip r,
                  errskip <> [] -> caught_by errskip e = true ->
                  get_functions_raw_ans_f
                    (parse (rt := sample_runtime) 5 docstringrunner_parser_func)
                    errskip ans
                  = Ok r ->
                  dict_get x r = None).
Proof.
  exact (undocumented_function_fails (rt := sample_runtime) 5
           sample_undocumented eq_refl).
Defined.

(** ** The missing return annotation *)

Lemma signature_entries_ok (parameters : list inspect.parameter) :
  forallb function_parser_base.parameter_ok
    (map (fun y => VTuple [VStr (inspect.name y); inspect.annotation y; VNone;
                           function_parser_signature.optionality y])
         parameters) = true.
Proof.
  apply forallb_forall. intros x Hx. apply in_map_iff in Hx as (y & <- & _).
  unfold function_parser_base.parameter_ok, function_parser_signature.optionality.
  destruct (negb (py_eq (inspect.default y) _empty)); simpl;
    rewrite ?orb_true_r; reflexivity.
Qed.

(** The guard of lines 53 and 54 fires on the bare marker [_empty]. *)
Lemma check_bare_empty_raises (a0 a1 : pyval) :
  function_parser_base.str_or_None a0 = true ->
  function_parser_base.str_or_None a1 = true ->
  function_parser_base.check (VList [a0; a1; VNone; _empty])
  = Raise UnAnnotatedError.
Proof.
  intros H0 H1. unfold function_parser_base.check. simpl.
  rewrite H0, H1. reflexivity.
Qed.

(** The signature extractor never hands the bare marker to the check: a
    missing return annotation is wrapped into [(None, _empty, None)], which
    the check accepts. *)
Lemma signature_wraps_missing_return {rt : Runtime} (depth : nat)
    (func : function) (parameters : list inspect.parameter) :
  signature func = inspect.Sig parameters _empty ->
  exists entries,
    parse depth parser_signature func
    = Ok (VList [VNone; VNone; VList entries; VTuple [VNone; _empty; VNone]]).
Proof.
  intros Hsig. eexists. cbn [parse].
  unfold function_parser_signature._parse. rewrite Hsig. cbn [bind].
  unfold function_parser_base.check. simpl.
  rewrite signature_entries_ok. reflexivity.
Qed.

(** C1, at the failing input: for [def unannotated(x: int)] with the
    documentation ["Doc."] and no return annotation, the pipeline of
    [docstringrunner] passes the check after the union and returns a record
    whose return information is [(None, _empty, None)]; no
    [UnAnnotatedError] is raised. *)
Theorem unannotated_return_passes_check :
  parse (rt := sample_runtime) 5 docstringrunner_parser_func sample_unannotated
  = Ok (VList [VStr "Doc."; VNone;
               VList [VTuple [VStr "x"; py_int; VNone;
                              VTuple [VBool false; VNone]]];
               VTuple [VNone; _empty; VNone]])
  /\ parse (rt := sample_runtime) 5 docstringrunner_parser_func sample_unannotated
     <> Raise UnAnnotatedError.
Proof. split; [reflexivity | discriminate]. Qed.

(** * Further properties *)

(** ** The union of two values *)

Lemma list_eqb_Forall2 {A : Type} (eqb : A -> A -> bool) (l m : list A) :
  list_eqb eqb l m = true <-> Forall2 (fun x y => eqb x y = true) l m.
Proof.
  split.
  - revert m; induction l as [|x l IH]; intros [|y m] H; try discriminate;
      [constructor|].
    cbn in H. apply andb_true_iff in H as [Hx H].
    constructor; [exact Hx | apply IH, H].
  - induction 1 as [|x y l m Hx _ IH]; [reflexivity|].
    cbn. rewrite Hx. exact IH.
Qed.

Lemma assert_true (b : bool) (u : unit) : assert b = Ok u -> b = true.
Proof. destruct b; [reflexivity | discriminate]. Qed.

Lemma zip_star_pair (l m : list pyval) :
  List.length l = List.length m ->
  function_parser_union.zip_star l [m] = zip_with (fun x y => [x; y]) l m.
Proof.
  revert m; induction l as [|x l IH]; intros [|y m] H; try discriminate;
    [reflexivity|].
  cbn. f_equal. apply IH. injection H as H. exact H.
Qed.

Lemma mapM_zip_with {B : Type} (f : list pyval -> result B) (g : pyval -> pyval -> B)
    (l m : list pyval) :
  Forall2 (fun x y => f [x; y] = Ok (g x y)) l m ->
  mapM f (zip_with (fun x y => [x; y]) l m) = Ok (zip_with g l m).
Proof.
  induction 1 as [|x y l m Hx _ IH]; [reflexivity|].
  cbn [zip_with]. rewrite mapM_cons, Hx. cbn [bind]. 
  change (zip_with (fun x0 y0 => [x0; y0]) l m) with (zip_with (fun x y => [x; y]) l m).
  rewrite IH. reflexivity.
Qed.

Lemma nesting_item (l : list pyval) (x : pyval) (d : nat) :
  In x l -> S (list_max (map nesting l)) < S d -> nesting x < d.
Proof.
  intros Hin H. apply PeanoNat.lt_S_n in H.
  assert (Hle : list_max (map nesting l) <= list_max (map nesting l)) by lia.
  apply list_max_le in Hle. rewrite Forall_map, Forall_forall in Hle.
  specialize (Hle x Hin). lia.
Qed.

Lemma mapM_zip_with_inv {B : Type} (f : list pyval -> result B)
    (P : pyval -> pyval -> Prop) (g : pyval -> pyval -> B)
    (l m : list pyval) (items : list B) :
  List.length l = List.length m ->
  (forall x y r, f [x; y] = Ok r -> P x y /\ r = g x y) ->
  mapM f (zip_with (fun x y => [x; y]) l m) = Ok items ->
  Forall2 P l m /\ items = zip_with g l m.
Proof.
  intros Hlen Hf. revert m items Hlen.
  induction l as [|x l IH]; intros [|y m] items Hlen H; try discriminate.
  - injection H as <-. split; [constructor | reflexivity].
  - cbn [zip_with] in H. rewrite mapM_cons in H.
    apply bind_Ok in H as (r & Hr & H). apply bind_Ok in H as (rs & Hrs & H).
    injection H as <-. injection Hlen as Hlen.
    destruct (Hf _ _ _ Hr) as [HP ->].
    destruct (IH m rs Hlen Hrs) as [HPs ->].
    split; [constructor; assumption | reflexivity].
Qed.

Lemma chars_length (s : string) : List.length (chars s) = String.length s.
Proof. induction s as [|c s IH]; [reflexivity|]. cbn. f_equal. exact IH. Qed.

Lemma chars_Forall2_eq (s s' : string) :
  Forall2 (fun x y => py_eq y x = true) (chars s) (chars s') -> s = s'.
Proof.
  revert s'; induction s as [|c s IH]; intros [|c' s'] H; cbn [chars] in H;
    inversion H as [|a b l m E Hrest]; subst; [reflexivity|].
  cbn [py_eq] in E. apply String.eqb_eq in E. injection E as ->.
  f_equal. apply IH. exact Hrest.
Qed.

Lemma py_type_same_kind (x y : pyval) :
  py_eq (py_type y) (py_type x) = true ->
  match x with
  | VStr _ => isinstance_str y = true
  | VTuple _ => isinstance_tuple y = true
  | VList _ => isinstance_list y = true
  | _ => True
  end.
Proof.
  destruct x; try exact (fun _ => I);
    destruct y; cbn; try discriminate; try reflexivity;
    destruct (is_typing_Union y); try discriminate;
    destruct (is_types_UnionType y); cbn; discriminate.
Qed.

Section union_pairs.
Context {rt : Runtime}.
Import function_parser_union.

Lemma union_pair_unfold (depth' : nat) (x y : pyval) :
  is_None x = false -> is_None y = false ->
  union (S depth') [x; y]
  = (assert (py_eq (py_type y) (py_type x) && true) ;;;
     if py_eq y x && true then Ok x
     else
       assert (hasattr_len x && (hasattr_len y && true)) ;;;
       t1 <- py_len x ;;
       same <- (n <- py_len y ;; if n =? t1 then Ok true else Ok false) ;;
       if negb same then Raise ValueError
       else
         first <- py_iter x ;;
         others <- (o <- py_iter y ;; Ok [o]) ;;
         items <- mapM (union depth') (zip_star first others) ;;
         rebuild x items).
Proof.
  intros Hx Hy. cbn [union filter]. rewrite Hx, Hy. cbn [negb].
  cbn [forallb allM mapM]. 
  destruct (py_eq (py_type y) (py_type x)); [|reflexivity]. cbn [andb assert bind].
  destruct (py_eq y x); [reflexivity|]. cbn [andb].
  destruct (hasattr_len x && (hasattr_len y && true)); [|reflexivity].
  cbn [assert bind]. destruct (py_len x) as [t1|]; [|reflexivity]. cbn [bind].
  destruct (py_len y) as [n|]; [|reflexivity]. cbn [bind].
  destruct (n =? t1); [|reflexivity]. cbn [bind negb].
  destruct (py_iter x); [|reflexivity]. cbn [bind].
  destruct (py_iter y); reflexivity.
Qed.

Lemma merge_eq (x y : pyval) :
  is_None x = false -> is_None y = false -> py_eq y x = true -> merge x y = x.
Proof.
  intros Hx Hy E. destruct x, y; try discriminate; cbn [merge];
    try reflexivity; rewrite E; reflexivity.
Qed.

(** Enough recursion depth makes the union of two compatible values their
    merge. *)
Lemma union_compatible (depth : nat) :
  forall x y,
    compatible x y = true -> nesting x < depth ->
    union depth [x; y] = Ok (merge x y).
Proof.
  induction depth as [|depth IH]; intros x y Hc Hn; [lia|].
  destruct (is_None x) eqn:Hx.
  { destruct x; try discriminate. destruct y; reflexivity. }
  destruct (is_None y) eqn:Hy.
  { destruct y; try discriminate. destruct x; try discriminate; reflexivity. }
  rewrite union_pair_unfold by assumption.
  assert (Hc' : py_eq (py_type y) (py_type x) = true
                /\ (py_eq y x = true
                    \/ match x, y with
                       | VTuple l, VTuple m | VList l, VList m =>
                           list_eqb compatible l m = true
                       | _, _ => False
                       end)).
  { destruct x, y; try discriminate; cbn [compatible is_None orb] in Hc;
      apply andb_true_iff in Hc as [Ht Hc]; (split; [exact Ht|]);
      apply orb_true_iff in Hc as [Hc | Hc]; auto; discriminate. }
  destruct Hc' as [Ht Hc']. rewrite Ht. cbn [andb assert bind].
  destruct (py_eq y x) eqn:E.
  { cbn [andb]. rewrite merge_eq by assumption. reflexivity. }
  cbn [andb]. destruct Hc' as [Hc' | Hc']; [discriminate|].
  assert (Hseq : forall l m,
             list_eqb compatible l m = true ->
             (forall z, In z l -> nesting z < depth) ->
             mapM (union depth) (zip_star l [m]) = Ok (zip_with merge l m)).
  { intros l m Hlm Hl.
    rewrite zip_star_pair by (eapply list_eqb_length, Hlm).
    apply mapM_zip_with. apply list_eqb_Forall2 in Hlm.
    clear - Hlm Hl IH. induction Hlm as [|a b l m Hab _ IHl]; constructor.
    - apply IH; [exact Hab | apply Hl; left; reflexivity].
    - apply IHl. intros z Hz. apply Hl. right. exact Hz. }
  destruct x as [ | | | |l|l| | | | ], y as [ | | | |m|m| | | | ];
    try contradiction.
  - pose proof (list_eqb_length _ _ _ Hc') as Hlen.
    cbn [hasattr_len andb assert bind py_len py_iter].
    rewrite <- Hlen, Nat.eqb_refl. cbn [bind negb].
    rewrite Hseq; [|exact Hc' | intros z Hz; eapply nesting_item; eassumption].
    cbn [bind rebuild merge]. rewrite E. reflexivity.
  - pose proof (list_eqb_length _ _ _ Hc') as Hlen.
    cbn [hasattr_len andb assert bind py_len py_iter].
    rewrite <- Hlen, Nat.eqb_refl. cbn [bind negb].
    rewrite Hseq; [|exact Hc' | intros z Hz; eapply nesting_item; eassumption].
    cbn [bind rebuild merge]. rewrite E. reflexivity.
Qed.

(** Whenever the union of two values returns, they were compatible and the
    result is their merge. *)
Lemma union_pair_Ok (depth : nat) :
  forall x y r,
    union depth [x; y] = Ok r -> compatible x y = true /\ r = merge x y.
Proof.
  induction depth as [|depth IH]; intros x y r H; [discriminate|].
  destruct (is_None x) eqn:Hx.
  { destruct x; try discriminate. split; [reflexivity|].
    destruct y; cbn in H; injection H as <-; reflexivity. }
  destruct (is_None y) eqn:Hy.
  { destruct y; try discriminate.
    split; [destruct x; reflexivity|].
    destruct x; try discriminate; cbn in H; injection H as <-; reflexivity. }
  rewrite union_pair_unfold in H by assumption.
  apply bind_Ok in H as (u & Ht & H).
  apply assert_true in Ht. rewrite andb_true_r in Ht.
  destruct (py_eq y x) eqn:E; cbn [andb] in H.
  { injection H as <-. split; [|symmetry; apply merge_eq; assumption].
    destruct x, y; try discriminate; cbn [compatible is_None orb];
      rewrite Ht, E; reflexivity. }
  bind_skip H.
  apply bind_Ok in H as (t1 & Ht1 & H).
  apply bind_Ok in H as (same & Hsame & H).
  apply bind_Ok in Hsame as (n & Hn & Hsame).
  destruct same; [|discriminate]. cbn [negb] in H.
  destruct (Nat.eqb_spec n t1) as [->|]; [|discriminate]. clear Hsame.
  apply bind_Ok in H as (first & Hfirst & H).
  apply bind_Ok in H as (others & Hothers & H).
  apply bind_Ok in Hothers as (o & Ho & Hothers). injection Hothers as <-.
  apply bind_Ok in H as (items & Hitems & H).
  pose proof (py_type_same_kind x y Ht) as Hkind.
  destruct x as [ | | |s|l|l| | | | ]; try discriminate.
  - (* two strings: their characters would all have to agree *)
    destruct y as [ | | |s'| | | | | | ]; try discriminate. exfalso.
    injection Ht1 as <-. injection Hn as Hn.
    injection Hfirst as <-. injection Ho as <-.
    rewrite zip_star_pair in Hitems by (rewrite !chars_length; congruence).
    apply (mapM_zip_with_inv _ (fun a b => compatible a b = true) merge)
      in Hitems as [Hall _]; [|rewrite !chars_length; congruence | apply IH].
    assert (Hs : s = s').
    { apply chars_Forall2_eq.
      assert (Hstr : forall l m, Forall2 (fun a b => compatible a b = true) l m ->
                                 Forall (fun a => isinstance_str a = true) l ->
                                 Forall (fun a => isinstance_str a = true) m ->
                                 Forall2 (fun a b => py_eq b a = true) l m).
      { induction 1 as [|a b l m Hab _ IHl]; intros Hl Hm; [constructor|].
        inversion Hl; inversion Hm; subst. constructor; [|apply IHl; assumption].
        destruct a, b; try discriminate. cbn in Hab.
        rewrite orb_false_r in Hab. exact Hab. }
      apply Hstr; [exact Hall | |];
        [clear; induction s | clear; induction s']; constructor; auto. }
    subst s'. cbn in E. rewrite String.eqb_refl in E. discriminate.
  - destruct y as [ | | | |m| | | | | ]; try discriminate.
    injection Ht1 as <-. injection Hn as Hn.
    injection Hfirst as <-. injection Ho as <-.
    rewrite zip_star_pair in Hitems by congruence.
    apply (mapM_zip_with_inv _ (fun a b => compatible a b = true) merge)
      in Hitems as [Hall ->]; [|congruence | apply IH].
    injection H as <-. cbn [compatible merge is_None orb].
    rewrite Ht, E. cbn [orb andb]. split; [|reflexivity].
    apply list_eqb_Forall2, Hall.
  - destruct y as [ | | | | |m| | | | ]; try discriminate.
    injection Ht1 as <-. injection Hn as Hn.
    injection Hfirst as <-. injection Ho as <-.
    rewrite zip_star_pair in Hitems by congruence.
    apply (mapM_zip_with_inv _ (fun a b => compatible a b = true) merge)
      in Hitems as [Hall ->]; [|congruence | apply IH].
    injection H as <-. cbn [compatible merge is_None orb].
    rewrite Ht, E. cbn [orb andb]. split; [|reflexivity].
    apply list_eqb_Forall2, Hall.
Qed.

End union_pairs.

(** ** The union and the recursion depth *)

Lemma bind_Raise {A B : Type} (c : result A) (k : A -> result B) (e : exn) :
  bind c k = Raise e -> c = Raise e \/ exists a, c = Ok a /\ k a = Raise e.
Proof.
  destruct c as [a|e']; cbn; intros H;
    [right; exists a; auto | left; injection H as ->; reflexivity].
Qed.

Lemma mapM_Raise {A B : Type} (f : A -> result B) (l : list A) (e : exn) :
  mapM f l = Raise e -> exists x, In x l /\ f x = Raise e.
Proof.
  induction l as [|x l IH]; [discriminate|]. rewrite mapM_cons. intros H.
  apply bind_Raise in H as [H | (y & _ & H)].
  - exists x. split; [left; reflexivity | exact H].
  - apply bind_Raise in H as [H | (ys & _ & H)]; [|discriminate].
    destruct (IH H) as (z & Hz & Hfz). exists z. split; [right|]; assumption.
Qed.

Lemma allM_Raise {A : Type} (p : A -> result bool) (l : list A) (e : exn) :
  allM p l = Raise e -> exists x, In x l /\ p x = Raise e.
Proof.
  induction l as [|x l IH]; [discriminate|].
  change (allM p (x :: l)) with (b <- p x ;; if b then allM p l else Ok false).
  intros H. apply bind_Raise in H as [H | (b & _ & H)].
  - exists x. split; [left; reflexivity | exact H].
  - destruct b; [|discriminate].
    destruct (IH H) as (z & Hz & Hpz). exists z. split; [right|]; assumption.
Qed.

Lemma assert_Raise (b : bool) (e : exn) : assert b = Raise e -> e = AssertionError.
Proof. destruct b; [discriminate|]. intros H. injection H as <-. reflexivity. Qed.

Lemma py_len_Raise (x : pyval) (e : exn) : py_len x = Raise e -> e = TypeError.
Proof. destruct x; cbn; intros H; try discriminate; injection H as <-; reflexivity. Qed.

Lemma py_iter_Raise (x : pyval) (e : exn) : py_iter x = Raise e -> e = TypeError.
Proof. destruct x; cbn; intros H; try discriminate; injection H as <-; reflexivity. Qed.

Section union_depth.
Context {rt : Runtime}.
Import function_parser_union.

Lemma union_S (depth : nat) (val : list pyval) :
  union (S depth) val = union_body (union depth) val.
Proof. reflexivity. Qed.

Lemma union_body_Raise (rec : list pyval -> result pyval) (val : list pyval)
    (e : exn) :
  (forall row e', rec row = Raise e' -> union_exn e') ->
  union_body rec val = Raise e -> union_exn e.
Proof.
  intros Hrec. unfold union_body.
  destruct (filter _ val) as [|v1_0 [|v v1_1]]; try discriminate.
  intros H.
  apply bind_Raise in H as [H | (_ & _ & H)];
    [apply assert_Raise in H; left; exact H|].
  destruct (forallb _ (v :: v1_1)); [discriminate|].
  apply bind_Raise in H as [H | (_ & _ & H)];
    [apply assert_Raise in H; left; exact H|].
  apply bind_Raise in H as [H | (t1 & _ & H)];
    [apply py_len_Raise in H; right; right; left; exact H|].
  apply bind_Raise in H as [H | (same & _ & H)].
  { apply allM_Raise in H as (x & _ & H).
    apply bind_Raise in H as [H | (n & _ & H)]; [|discriminate].
    apply py_len_Raise in H. right; right; left; exact H. }
  destruct same; cbn [negb] in H;
    [|injection H as <-; right; left; reflexivity].
  apply bind_Raise in H as [H | (first & _ & H)];
    [apply py_iter_Raise in H; right; right; left; exact H|].
  apply bind_Raise in H as [H | (others & _ & H)].
  { apply mapM_Raise in H as (x & _ & H).
    apply py_iter_Raise in H. right; right; left; exact H. }
  apply bind_Raise in H as [H | (items & _ & H)].
  { apply mapM_Raise in H as (row & _ & H). eapply Hrec, H. }
  destruct v1_0; cbn in H; try discriminate; injection H as <-;
    right; right; left; reflexivity.
Qed.

Lemma union_Raise (depth : nat) (val : list pyval) (e : exn) :
  union depth val = Raise e -> union_exn e.
Proof.
  revert val e. induction depth as [|depth IH]; intros val e H.
  - injection H as <-. right; right; right. reflexivity.
  - rewrite union_S in H. eapply union_body_Raise; [|exact H].
    intros row e'. apply IH.
Qed.

Lemma mapM_transfer {A B : Type} (f g : A -> result B) (l : list A) :
  (forall x, settled (f x) -> g x = f x) ->
  settled (mapM f l) -> mapM g l = mapM f l.
Proof.
  intros Hfg. induction l as [|x l IH]; [reflexivity|].
  rewrite !mapM_cons. intros Hs.
  destruct (f x) as [y|e] eqn:Ey.
  - rewrite (Hfg x) by (rewrite Ey; exact I). rewrite Ey. cbn [bind] in Hs |- *.
    destruct (mapM f l) as [ys|e] eqn:Eys.
    + rewrite IH by exact I. reflexivity.
    + rewrite IH by exact Hs. reflexivity.
  - rewrite (Hfg x) by (rewrite Ey; exact Hs). rewrite Ey. reflexivity.
Qed.

Lemma union_body_transfer (rec1 rec2 : list pyval -> result pyval)
    (val : list pyval) :
  (forall row, settled (rec1 row) -> rec2 row = rec1 row) ->
  settled (union_body rec1 val) ->
  union_body rec2 val = union_body rec1 val.
Proof.
  intros Hrec. unfold union_body.
  destruct (filter _ val) as [|v1_0 [|v v1_1]]; try reflexivity.
  destruct (assert _) as [u|e]; [cbn [bind] | reflexivity].
  destruct (forallb _ (v :: v1_1)); [reflexivity|].
  destruct (assert _) as [u'|e]; [cbn [bind] | reflexivity].
  destruct (py_len v1_0) as [t1|e]; [cbn [bind] | reflexivity].
  destruct (allM _ _) as [same|e]; [cbn [bind] | reflexivity].
  destruct (negb same); [reflexivity|].
  destruct (py_iter v1_0) as [first|e]; [cbn [bind] | reflexivity].
  destruct (mapM py_iter _) as [others|e]; [cbn [bind] | reflexivity].
  intros Hs.
  rewrite (mapM_transfer rec1 rec2 _ Hrec); [reflexivity|].
  destruct (mapM rec1 (zip_star first others)); [exact I | exact Hs].
Qed.

Lemma union_deeper (depth : nat) :
  forall val, settled (union depth val) ->
              union (S depth) val = union depth val.
Proof.
  induction depth as [|depth IH]; intros val Hs; [contradiction|].
  rewrite !union_S in *. apply union_body_transfer; [|exact Hs].
  intros row. apply IH.
Qed.

Lemma union_deeper_by (depth k : nat) (val : list pyval) :
  settled (union depth val) -> union (depth + k) val = union depth val.
Proof.
  intros Hs. induction k as [|k IH]; [rewrite Nat.add_0_r; reflexivity|].
  rewrite Nat.add_succ_r, union_deeper; [exact IH|]. rewrite IH. exact Hs.
Qed.

End union_depth.

(** X1: with more recursion depth left than the first value is nested, the
    union of two compatible values returns their merge: the known one of
    the two, the first of two equal ones, and field by field inside two
    tuples or two lists of one length. *)
Theorem union_of_compatible_is_merge {rt : Runtime} (depth : nat) (x y : pyval) :
  compatible x y = true -> nesting x < depth ->
  function_parser_union.union depth [x; y] = Ok (merge x y).
Proof. apply union_compatible. Qed.

Lemma union_of_compatible_is_merge_witness :
  function_parser_union.union (rt := sample_runtime) 3
    [VTuple [VStr "x"; py_int; VNone; VTuple [VBool false; VNone]];
     VTuple [VStr "x"; VNone; VStr "the input"; VNone]]
  = Ok (VTuple [VStr "x"; py_int; VStr "the input"; VTuple [VBool false; VNone]]).
Proof.
  apply (union_of_compatible_is_merge (rt := sample_runtime) 3
           (VTuple [VStr "x"; py_int; VNone; VTuple [VBool false; VNone]])
           (VTuple [VStr "x"; VNone; VStr "the input"; VNone]));
    [reflexivity | cbn; lia].
Defined.



(** X3: a result of [union] that is not [RecursionError] does not depend on
    the recursion depth: with any deeper limit the union returns the same
    value or raises the same exception. *)
Theorem union_result_independent_of_depth {rt : Runtime} (depth k : nat)
    (val : list pyval) :
  settled (function_parser_union.union depth val) ->
  function_parser_union.union (depth + k) val
  = function_parser_union.union depth val.
Proof. apply union_deeper_by. Qed.

Lemma union_result_independent_of_depth_witness :
  function_parser_union.union (rt := sample_runtime) (2 + 5)
    [VTuple [VInt 1; VNone]; VTuple [VNone; VInt 2]]
  = function_parser_union.union (rt := sample_runtime) 2
      [VTuple [VInt 1; VNone]; VTuple [VNone; VInt 2]].
Proof.
  apply (union_result_independent_of_depth (rt := sample_runtime) 2 5
           [VTuple [VInt 1; VNone]; VTuple [VNone; VInt 2]]).
  exact I.
Defined.

(** X4: [union] raises nothing but [AssertionError], [ValueError],
    [TypeError] and [RecursionError], whatever values it is given. *)
Theorem union_raises_only {rt : Runtime} (depth : nat) (val : list pyval)
    (e : exn) :
  function_parser_union.union depth val = Raise e -> union_exn e.
Proof. apply union_Raise. Qed.

Lemma union_raises_only_witness : union_exn ValueError.
Proof.
  apply (union_raises_only (rt := sample_runtime) 2
           [VStr "ab"; VStr "a"] ValueError).
  reflexivity.
Defined.

(** ** What the parsers return and raise *)

Lemma check_list4 (a0 a1 a2 a3 : pyval) :
  function_parser_base.check (VList [a0; a1; a2; a3])
  = (assert (function_parser_base.str_or_None a0) ;;;
     assert (function_parser_base.str_or_None a1) ;;;
     assert (isinstance_list a2 || is_None a2) ;;;
     bad <- (if is_None a2 then Ok false
             else xs <- py_iter a2 ;;
                  Ok (negb (forallb function_parser_base.parameter_ok xs))) ;;
     if bad : bool then Raise AnnotationFormatError
     else
       if py_eq a3 _empty then Raise UnAnnotatedError
       else
         good <- (if is_None a3 || function_parser_base.return_triple_ok a3
                  then Ok true
                  else xs <- py_iter a3 ;;
                       Ok (forallb function_parser_base.return_entry_ok xs)) ;;
         if good : bool then Ok (VList [a0; a1; a2; a3])
         else Raise AnnotationFormatError).
Proof. reflexivity. Qed.

Lemma getitem_Raise (x : pyval) (i : nat) (e : exn) :
  getitem x i = Raise e -> e = TypeError \/ e = IndexError.
Proof.
  unfold getitem. destruct x; try (intros H; injection H as <-; auto);
    destruct (nth_error _ i); intros H; try discriminate;
    injection H as <-; auto.
Qed.

(** The check raises [UnAnnotatedError] only on the bare marker. *)
Lemma check_UnAnnotatedError (ans : pyval) :
  function_parser_base.check ans = Raise UnAnnotatedError ->
  getitem ans 3 = Ok _empty.
Proof.
  unfold function_parser_base.check. intros H.
  apply bind_Raise in H as [H | (n & _ & H)];
    [apply py_len_Raise in H; discriminate|].
  apply bind_Raise in H as [H | (_ & _ & H)];
    [apply assert_Raise in H; discriminate|].
  apply bind_Raise in H as [H | (a0 & _ & H)].
  { apply getitem_Raise in H as [H | H]; discriminate. }
  apply bind_Raise in H as [H | (_ & _ & H)];
    [apply assert_Raise in H; discriminate|].
  apply bind_Raise in H as [H | (a1 & _ & H)].
  { apply getitem_Raise in H as [H | H]; discriminate. }
  apply bind_Raise in H as [H | (_ & _ & H)];
    [apply assert_Raise in H; discriminate|].
  apply bind_Raise in H as [H | (a2 & _ & H)].
  { apply getitem_Raise in H as [H | H]; discriminate. }
  apply bind_Raise in H as [H | (_ & _ & H)];
    [apply assert_Raise in H; discriminate|].
  apply bind_Raise in H as [H | (bad & _ & H)].
  { destruct (is_None a2); [discriminate|].
    apply bind_Raise in H as [H | (xs & _ & H)];
      [apply py_iter_Raise in H|]; discriminate. }
  destruct bad; [discriminate|].
  apply bind_Raise in H as [H | (a3 & Ha3 & H)].
  { apply getitem_Raise in H as [H | H]; discriminate. }
  rewrite Ha3. destruct (py_eq a3 _empty) eqn:E.
  - apply py_eq_empty in E. subst. reflexivity.
  - apply bind_Raise in H as [H | (good & _ & H)].
    + destruct (is_None a3 || _); [discriminate|].
      apply bind_Raise in H as [H | (xs & _ & H)];
        [apply py_iter_Raise in H|]; discriminate.
    + destruct good; discriminate.
Qed.

Lemma signature_return_not_marker (ra : pyval) : signature_return ra <> _empty.
Proof.
  unfold signature_return.
  destruct ra; cbn; discriminate.
Qed.

Lemma signature__parse_Sig (func : function) (parameters : list inspect.parameter)
    (ra : pyval) :
  signature func = inspect.Sig parameters ra ->
  function_parser_signature._parse func
  = Ok (VList [VNone; VNone; VList (map signature_entry parameters);
               signature_return ra]).
Proof.
  intros H. unfold function_parser_signature._parse. rewrite H. reflexivity.
Qed.

Lemma signature_entries_accepted (parameters : list inspect.parameter) :
  forallb function_parser_base.parameter_ok (map signature_entry parameters)
  = true.
Proof. apply signature_entries_ok. Qed.

(** The check on what the signature extractor returns looks at the return
    annotation only. *)
Lemma check_signature (parameters : list inspect.parameter) (ra : pyval) :
  function_parser_base.check
    (VList [VNone; VNone; VList (map signature_entry parameters);
            signature_return ra])
  = if is_None ra
       || (negb (isinstance_tuple ra) && negb (isinstance_list ra))
       || function_parser_base.return_triple_ok ra
       || forallb function_parser_base.return_entry_ok (items_of ra)
    then Ok (VList [VNone; VNone; VList (map signature_entry parameters);
                    signature_return ra])
    else Raise AnnotationFormatError.
Proof.
  rewrite check_list4. cbn [function_parser_base.str_or_None isinstance_str
    is_None orb assert bind isinstance_list py_iter].
  rewrite signature_entries_accepted. cbn [negb bind].
  destruct (py_eq (signature_return ra) _empty) eqn:E.
  { apply py_eq_empty in E. exfalso. eapply signature_return_not_marker, E. }
  unfold signature_return.
  destruct ra as [ | | | |l|l| | | | ]; try reflexivity; cbn [is_None isinstance_tuple
    isinstance_list orb negb andb py_iter items_of bind];
    destruct (function_parser_base.return_triple_ok _); cbn [bind orb];
    try reflexivity; destruct (forallb _ l); reflexivity.
Qed.

Section docstring_form.
Context {rt : Runtime}.
Import function_parser_docstring_numpy.

Lemma entries_form (d : list node) (d' : pyval) :
  entries d = Ok d' -> exists ntfs, d' = VList (map docstring_entry ntfs).
Proof.
  unfold entries. intros H.
  bind_skip H.
  apply bind_Ok in H as (d0 & _ & H).
  bind_skip H.
  apply bind_Ok in H as (d1 & _ & H).
  bind_skip H. bind_skip H.
  apply bind_Ok in H as (d2 & _ & H).
  bind_skip H.
  apply bind_Ok in H as (d3 & _ & H).
  injection H as <-. exists d3. f_equal. apply map_ext.
  intros [[n t] f]. unfold docstring_entry, blank_to_None.
  destruct (String.length t); reflexivity.
Qed.

Lemma blank_loop_form (a0 : option string) (l : string) (a2 a3 : pyval) :
  foldM blank_step [0; 1]
    [match a0 with Some s => VStr s | None => VNone end; VStr l; a2; a3]
  = Ok [match a0 with Some s => blank_to_None s | None => VNone end;
        blank_to_None l; a2; a3].
Proof.
  unfold blank_to_None.
  destruct a0 as [s|]; cbn; [destruct (String.length s); cbn|];
    destruct (String.length l); reflexivity.
Qed.

(** What the documentation extractor returns: the two descriptions, [None]
    when empty; the entries of the Parameters section or [None]; and no
    return information. *)
Lemma docstring__parse_form (func : function) (ans : pyval) :
  _parse func = Ok ans ->
  exists (short : option string) (long : string) (p : pyval),
    ans = VList [match short with Some s => blank_to_None s | None => VNone end;
                 blank_to_None long; p; VNone]
    /\ (p = VNone \/ exists ntfs, p = VList (map docstring_entry ntfs)).
Proof.
  unfold _parse. intros H.
  apply bind_Ok in H as (doc & _ & H).
  apply bind_Ok in H as (secs & _ & H).
  bind_skip H.
  apply bind_Ok in H as (d & _ & H).
  apply bind_Ok in H as ([ans0 d'] & Hans0 & H).
  apply bind_Ok in H as (ans1 & Hans1 & H).
  apply bind_Ok in H as (ans2 & Hans2 & H).
  apply bind_Ok in H as (ans3 & Hans3 & H). injection H as <-.
  assert (H0 : exists short,
             ans0 = [match short with Some s => VStr s | None => VNone end;
                     VNone; VNone; VNone]).
  { destruct (filter is_paragraph d) as [|t1_0 ?].
    - injection Hans0 as <- _. exists None. reflexivity.
    - cbn in Hans0. injection Hans0 as <- _. eexists (Some _). reflexivity. }
  destruct H0 as (short & ->).
  cbn [setitem bind] in Hans1. injection Hans1 as <-.
  rewrite blank_loop_form in Hans2. injection Hans2 as <-.
  exists short, (strip (document_astext d')).
  cbn [foldM] in Hans3.
  apply bind_Ok in Hans3 as (l0 & Hl0 & Hans3).
  apply bind_Ok in Hans3 as (l1 & Hl1 & Hans3). injection Hans3 as <-.
  unfold section_step in Hl0, Hl1. cbn [fst snd] in Hl0, Hl1.
  destruct (dict_get "results" _); [discriminate|]. injection Hl1 as <-.
  destruct (dict_get "parameters" _) as [sec|].
  - cbn [String.eqb Ascii.eqb Bool.eqb] in Hl0.
    apply bind_Ok in Hl0 as (e' & He' & Hl0).
    cbn [Nat.add setitem bind] in Hl0. injection Hl0 as <-.
    exists e'. split; [reflexivity|]. right. eapply entries_form, He'.
  - injection Hl0 as <-. exists VNone. split; [reflexivity | left; reflexivity].
Qed.

End docstring_form.

Lemma blank_to_None_str_or_None (s : string) :
  function_parser_base.str_or_None (blank_to_None s) = true.
Proof. unfold blank_to_None. destruct (String.length s =? 0); reflexivity. Qed.

Lemma docstring_entries_accepted (ntfs : list (string * string * string)) :
  forallb function_parser_base.parameter_ok (map docstring_entry ntfs) = true.
Proof.
  apply forallb_forall. intros x Hx. apply in_map_iff in Hx as ([[n t] f] & <- & _).
  reflexivity.
Qed.

(** The check accepts whatever the documentation extractor returns. *)
Lemma docstring_parse_is__parse {rt : Runtime} (depth : nat) (func : function) :
  parse depth parser_docstring_numpy func
  = function_parser_docstring_numpy._parse func.
Proof.
  cbn [parse].
  destruct (function_parser_docstring_numpy._parse func) as [ans|e] eqn:E;
    [|reflexivity].
  cbn [bind].
  destruct (docstring__parse_form func ans E) as (short & long & p & -> & Hp).
  rewrite check_list4.
  assert (H0 : function_parser_base.str_or_None
                 match short with Some s => blank_to_None s | None => VNone end
               = true).
  { destruct short; [apply blank_to_None_str_or_None | reflexivity]. }
  rewrite H0, blank_to_None_str_or_None. cbn [assert bind].
  destruct Hp as [-> | (ntfs & ->)]; [reflexivity|].
  cbn [isinstance_list is_None orb assert bind py_iter].
  rewrite docstring_entries_accepted. reflexivity.
Qed.

Lemma filterM_Raise {A : Type} (p : A -> result bool) (l : list A) (e : exn) :
  filterM p l = Raise e -> exists x, In x l /\ p x = Raise e.
Proof.
  induction l as [|x l IH]; [discriminate|].
  change (filterM p (x :: l))
    with (b <- p x ;; ys <- filterM p l ;; Ok (if b then x :: ys else ys)).
  intros H. apply bind_Raise in H as [H | (b & _ & H)].
  - exists x. split; [left; reflexivity | exact H].
  - apply bind_Raise in H as [H | (ys & _ & H)]; [|discriminate].
    destruct (IH H) as (z & Hz & Hpz). exists z. split; [right|]; assumption.
Qed.

Lemma foldM_Raise {A S : Type} (body : S -> A -> result S) (l : list A) (s : S)
    (e : exn) :
  foldM body l s = Raise e -> exists s' x, In x l /\ body s' x = Raise e.
Proof.
  revert s. induction l as [|x l IH]; intros s; [discriminate|].
  rewrite foldM_cons. intros H.
  apply bind_Raise in H as [H | (s' & _ & H)].
  - exists s, x. split; [left; reflexivity | exact H].
  - destruct (IH s' H) as (s'' & z & Hz & Hb). exists s'', z.
    split; [right|]; assumption.
Qed.

Lemma assert_Ok (b : bool) (u : unit) : assert b = Ok u -> b = true.
Proof. destruct b; [reflexivity | discriminate]. Qed.

Section docstring_raises.
Context {rt : Runtime}.
Import function_parser_docstring_numpy.

Lemma first_name_Raise (y : node) (e : exn) :
  first_name y = Raise e -> e = IndexError /\ names y = [].
Proof.
  unfold first_name. destruct (names y); [|discriminate].
  intros H. injection H as <-. split; reflexivity.
Qed.

Lemma child_by_tag_Ok (tag : string) (x : node) :
  has_tag tag x = true -> exists y, child_by_tag tag x = Ok y.
Proof.
  unfold has_tag, child_by_tag. intros H.
  apply existsb_exists in H as (y & Hy & Htag).
  destruct (find _ (rev (children x))) as [z|] eqn:E; [eauto|].
  apply in_rev in Hy. rewrite (find_none _ _ E y Hy) in Htag. discriminate.
Qed.

Lemma nth_str_Ok (l : list string) (i : nat) :
  i < List.length l -> exists s, nth_str l i = Ok s.
Proof.
  intros H. unfold nth_str. destruct (nth_error l i) eqn:E; [eauto|].
  apply nth_error_None in E. lia.
Qed.

(** Past its assertions, the reading of a section cannot fail. *)
Lemma entries_Raise (d : list node) (e : exn) :
  entries d = Raise e -> e = AssertionError.
Proof.
  unfold entries. intros H.
  apply bind_Raise in H as [H | (u1 & H1 & H)];
    [apply assert_Raise in H; exact H|].
  apply assert_Ok, Nat.eqb_eq in H1.
  apply bind_Raise in H as [H | (d0 & _ & H)].
  { destruct d; discriminate. }
  apply bind_Raise in H as [H | (u2 & H2 & H)];
    [apply assert_Raise in H; exact H|].
  apply assert_Ok, list_eqb_length in H2. rewrite length_map in H2.
  apply bind_Raise in H as [H | (d1 & _ & H)].
  { destruct (nth_error _ 1) eqn:E; [discriminate|].
    apply nth_error_None in E. cbn in H2. lia. }
  apply bind_Raise in H as [H | (u3 & _ & H)];
    [apply assert_Raise in H; exact H|].
  apply bind_Raise in H as [H | (u4 & H4 & H)];
    [apply assert_Raise in H; exact H|].
  apply assert_Ok in H4.
  apply bind_Raise in H as [H | (d2 & _ & H)].
  { exfalso. apply mapM_Raise in H as (x & Hx & H).
    apply (proj1 (forallb_forall _ _) H4) in Hx.
    apply andb_prop in Hx as [Ht Hf].
    destruct (child_by_tag_Ok _ _ Ht) as (t & Et).
    destruct (child_by_tag_Ok _ _ Hf) as (f & Ef).
    rewrite Et, Ef in H. discriminate. }
  apply bind_Raise in H as [H | (u5 & H5 & H)];
    [apply assert_Raise in H; exact H|].
  apply assert_Ok in H5.
  apply bind_Raise in H as [H | (d3 & _ & H)]; [|discriminate].
  exfalso. apply mapM_Raise in H as (x & Hx & H).
  apply (proj1 (forallb_forall _ _) H5) in Hx. apply Nat.eqb_eq in Hx.
  destruct (nth_str_Ok (split ":" (fst x)) 0) as (n & En); [lia|].
  destruct (nth_str_Ok (split ":" (fst x)) 1) as (t & Et); [lia|].
  rewrite En, Et in H. discriminate.
Qed.

(** What the documentation extractor raises, and when: [TypeError] for a
    missing documentation string, [IndexError] for a section without a
    name, and otherwise [AssertionError] or [NotImplementedError]. *)
Lemma docstring__parse_Raise (func : function) (e : exn) :
  _parse func = Raise e ->
  (e = TypeError /\ __doc__ func = None)
  \/ (e = IndexError
      /\ exists text y,
           __doc__ func = Some text /\ In y (_parse_rst (dedent text))
           /\ tagname y = "section" /\ names y = [])
  \/ e = AssertionError \/ e = NotImplementedError.
Proof.
  unfold _parse. intros H.
  destruct (__doc__ func) as [text|] eqn:Edoc;
    [|injection H as <-; left; split; reflexivity].
  right. cbn [bind] in H.
  apply bind_Raise in H as [H | (secs & _ & H)].
  { left. apply mapM_Raise in H as (x & _ & H).
    apply bind_Raise in H as [H | (y & _ & H)]; [|discriminate].
    apply filterM_Raise in H as (y & Hy & H). unfold is_section in H.
    destruct (String.eqb_spec (tagname y) "section") as [Htag|]; [|discriminate].
    apply bind_Raise in H as [H | (n & _ & H)]; [|discriminate].
    apply first_name_Raise in H as [-> Hnames].
    split; [reflexivity|]. exists text, y. auto. }
  apply bind_Raise in H as [H | (_ & _ & H)];
    [apply assert_Raise in H; auto|].
  apply bind_Raise in H as [H | (d & _ & H)].
  { left. apply filterM_Raise in H as (y & Hy & H).
    apply bind_Raise in H as [H | (b & _ & H)]; [|discriminate].
    unfold is_removed in H.
    destruct (String.eqb_spec (tagname y) "section") as [Htag|]; [|discriminate].
    apply bind_Raise in H as [H | (n & _ & H)]; [|discriminate].
    apply first_name_Raise in H as [-> Hnames].
    split; [reflexivity|]. exists text, y. auto. }
  right.
  apply bind_Raise in H as [H | ([ans0 d'] & Hans0 & H)].
  { destruct (filter is_paragraph d); discriminate. }
  assert (H0 : exists short,
             ans0 = [match short with Some s => VStr s | None => VNone end;
                     VNone; VNone; VNone]).
  { destruct (filter is_paragraph d) as [|t1_0 ?].
    - injection Hans0 as <- _. exists None. reflexivity.
    - cbn in Hans0. injection Hans0 as <- _. eexists (Some _). reflexivity. }
  destruct H0 as (short & ->).
  cbn [setitem bind] in H. rewrite blank_loop_form in H. cbn [bind foldM] in H.
  apply bind_Raise in H as [H | (ans3 & _ & H)]; [|discriminate].
  apply bind_Raise in H as [H | (l0 & Hl0 & H)]; unfold section_step in *;
    cbn [fst snd] in *.
  - destruct (dict_get "parameters" _); [|discriminate].
    cbn [String.eqb Ascii.eqb Bool.eqb] in H.
    apply bind_Raise in H as [H | (e' & _ & H)];
      [left; eapply entries_Raise, H | discriminate].
  - destruct (dict_get "results" _); [|discriminate].
    injection H as <-. right. reflexivity.
Qed.

End docstring_raises.

(** ** The return information is never the bare marker *)

Section return_marker.
Context {rt : Runtime}.
Import function_parser_union.

Lemma union_values_not_marker (depth : nat) (l : list pyval) (r : pyval) :
  Forall (fun x => x <> _empty) l ->
  union depth l = Ok r -> r <> _empty.
Proof.
  intros Hl H.
  apply union_Ok in H
    as [[_ ->] | [Hin | (depth' & v1_0 & v1_1 & first & others & items & _
                           & _ & _ & _ & _ & _ & _ & Hr)]].
  - discriminate.
  - apply known_In in Hin as [Hin _]. rewrite Forall_forall in Hl. apply Hl, Hin.
  - destruct v1_0; cbn in Hr; try discriminate; injection Hr as <-; discriminate.
Qed.

Lemma return_known (a : pyval) :
  return_not_marker a ->
  is_None a = false
  /\ exists a0 a1 a2 a3, a = VList [a0; a1; a2; a3] /\ a3 <> _empty.
Proof.
  intros (a0 & a1 & a2 & a3 & -> & H). split; [reflexivity|].
  exists a0, a1, a2, a3. split; [reflexivity | exact H].
Qed.

Lemma union_return_not_marker (depth : nat) (l : list pyval) (a : pyval) :
  Forall return_not_marker l ->
  union depth l = Ok a ->
  a = VNone \/ return_not_marker a.
Proof.
  intros Hl H. pose proof (known_Forall _ _ Hl) as Hk.
  apply union_Ok in H
    as [[_ ->] | [Hin | (depth' & v1_0 & v1_1 & first & others & items & ->
                           & Ev1 & _ & Hfirst & Hothers & _ & Hitems & Hr)]].
  - left. reflexivity.
  - right. rewrite Forall_forall in Hk. apply Hk, Hin.
  - right. rewrite Ev1 in Hk. inversion Hk as [|? ? [H0 _] Hk1]; subst.
    destruct (return_known _ H0) as (_ & a0 & a1 & a2 & a3 & -> & Ha3).
    injection Hfirst as <-.
    apply py_iter_items in Hothers. subst others.
    assert (Hlists : Forall (fun x => exists b0 b1 b2 b3,
                               x = VList [b0; b1; b2; b3] /\ b3 <> _empty)
                            v1_1).
    { eapply Forall_impl; [|exact Hk1]. intros x [Hx _].
      apply return_known, Hx. }
    rewrite zip_star_columns in Hitems.
    2:{ rewrite Forall_map. eapply Forall_impl; [|exact Hlists].
        intros x (b0 & b1 & b2 & b3 & -> & _). cbn. lia. }
    cbn [List.length seq map nth] in Hitems.
    inversion Hitems as [|r0 i0 rs0 is0 _ Hitems1]; subst.
    inversion Hitems1 as [|r1 i1 rs1 is1 _ Hitems2]; subst.
    inversion Hitems2 as [|r2 i2 rs2 is2 _ Hitems3]; subst.
    inversion Hitems3 as [|r3 i3 rs3 is3 Hi3 Hitems4]; subst.
    inversion Hitems4; subst.
    injection Hr as <-. exists i0, i1, i2, i3. split; [reflexivity|].
    eapply union_values_not_marker; [|exact Hi3].
    constructor; [exact Ha3|].
    rewrite map_map, Forall_map. eapply Forall_impl; [|exact Hlists].
    intros x (b0 & b1 & b2 & b3 & -> & Hb). exact Hb.
Qed.

End return_marker.

Lemma parse_inv {rt : Runtime} (depth : nat) (parser : function_parser)
    (func : function) :
  parse depth parser func
  = (ans <- match parser with
            | parser_signature => function_parser_signature._parse func
            | parser_docstring_numpy =>
                function_parser_docstring_numpy._parse func
            | parser_union parsers =>
                function_parser_union._parse (parse depth) depth parsers func
            end ;;
     function_parser_base.check ans ;;; Ok ans).
Proof. destruct parser; reflexivity. Qed.

Lemma parse_return_not_marker {rt : Runtime} (depth : nat)
    (parser : function_parser) (func : function) (ans : pyval) :
  parse depth parser func = Ok ans -> return_not_marker ans.
Proof.
  revert ans.
  induction parser as [ | |parsers IH] using function_parser_ind_nested;
    intros ans H; rewrite parse_inv in H;
    apply bind_Ok in H as (a & Ha & H);
    apply bind_Ok in H as (u & Hcheck & H); injection H as <-.
  - unfold function_parser_signature._parse in Ha.
    destruct (signature func) as [ps ra|msg].
    + injection Ha as <-. do 4 eexists. split; [reflexivity|].
      apply (signature_return_not_marker ra).
    + destruct (String.prefix _ msg); discriminate.
  - destruct (docstring__parse_form func a Ha) as (short & long & p & -> & _).
    do 4 eexists. split; [reflexivity | discriminate].
  - unfold function_parser_union._parse in Ha.
    apply bind_Ok in Ha as (anss & Hanss & Ha).
    apply mapM_Forall2 in Hanss.
    assert (Hshapes : Forall return_not_marker anss).
    { clear - Hanss IH. induction Hanss as [|p a ps anss Hp _ IHl];
        [constructor|].
      inversion IH; subst. constructor; [auto | apply IHl; assumption]. }
    destruct (union_return_not_marker depth anss a Hshapes Ha) as [-> | Hs];
      [discriminate | exact Hs].
Qed.

(** [UnAnnotatedError] comes from line 93 alone. *)
Lemma parse_UnAnnotatedError {rt : Runtime} (depth : nat)
    (parser : function_parser) (func : function) :
  parse depth parser func = Raise UnAnnotatedError ->
  exists msg,
    signature func = inspect.SigValueError msg
    /\ String.prefix "no signature found for builtin" msg = true.
Proof.
  induction parser as [ | |parsers IH] using function_parser_ind_nested;
    intros H.
  - rewrite parse_inv in H.
    unfold function_parser_signature._parse in H.
    destruct (signature func) as [ps ra|msg].
    + cbn [bind] in H.
      apply bind_Raise in H as [H | (u & _ & H)]; [|discriminate].
      apply check_UnAnnotatedError in H. cbn in H. injection H as H.
      exfalso. eapply signature_return_not_marker, H.
    + exists msg. split; [reflexivity|].
      destruct (String.prefix _ msg); [reflexivity | discriminate].
  - rewrite docstring_parse_is__parse in H.
    apply docstring__parse_Raise in H.
    destruct H as [[H _] | [[H _] | [H | H]]]; discriminate.
  - rewrite parse_inv in H.
    apply bind_Raise in H as [H | (a & Ha & H)].
    + unfold function_parser_union._parse in H.
      apply bind_Raise in H as [H | (anss & _ & H)].
      * apply mapM_Raise in H as (p & Hp & H).
        rewrite Forall_forall in IH. apply (IH p Hp H).
      * apply union_Raise in H.
        destruct H as [H | [H | [H | H]]]; discriminate.
    + apply bind_Raise in H as [H | (u & _ & H)]; [|discriminate].
      apply check_UnAnnotatedError in H.
      assert (Hs : a = VNone \/ return_not_marker a).
      { unfold function_parser_union._parse in Ha.
        apply bind_Ok in Ha as (anss & Hanss & Ha).
        apply mapM_Forall2 in Hanss.
        eapply union_return_not_marker; [|exact Ha].
        clear - Hanss. induction Hanss as [|p b ps anss Hp _ IHl];
          constructor; [eapply parse_return_not_marker, Hp | exact IHl]. }
      destruct Hs as [-> | (a0 & a1 & a2 & a3 & -> & Ha3)]; [discriminate|].
      cbn in H. injection H as H. contradiction.
Qed.

(** ** The pipeline of [docstringrunner] *)

Lemma pipeline_unfold {rt : Runtime} (depth : nat) (func : function) :
  parse depth docstringrunner_parser_func func
  = (a <- parse depth parser_signature func ;;
     b <- parse depth parser_docstring_numpy func ;;
     r <- function_parser_union.union depth [a; b] ;;
     function_parser_base.check r ;;; Ok r).
Proof.
  unfold docstringrunner_parser_func. rewrite parse_inv.
  unfold function_parser_union._parse. rewrite !mapM_cons.
  destruct (parse depth parser_signature func); [|reflexivity].
  destruct (parse depth parser_docstring_numpy func); reflexivity.
Qed.

Lemma parse_signature_Ok {rt : Runtime} (depth : nat) (func : function)
    (A : pyval) :
  parse depth parser_signature func = Ok A ->
  exists ps ra,
    signature func = inspect.Sig ps ra
    /\ A = VList [VNone; VNone; VList (map signature_entry ps);
                  signature_return ra]
    /\ function_parser_base.check A = Ok A.
Proof.
  rewrite parse_inv. intros H.
  apply bind_Ok in H as (a & Ha & H).
  apply bind_Ok in H as (u & Hcheck & H). injection H as ->.
  destruct (signature func) as [ps ra|msg] eqn:Esig.
  2:{ unfold function_parser_signature._parse in Ha. rewrite Esig in Ha.
      destruct (String.prefix _ msg); discriminate. }
  rewrite (signature__parse_Sig func ps ra Esig) in Ha.
  injection Ha as <-. exists ps, ra. split; [reflexivity|].
  split; [reflexivity|].
  rewrite check_signature in Hcheck |- *.
  destruct (is_None ra || _ || _ || _); [reflexivity | discriminate].
Qed.

Lemma merge_None_r (x : pyval) : merge x VNone = x.
Proof. destruct x; reflexivity. Qed.

Lemma merged_entries_accepted (ps : list inspect.parameter)
    (ntfs : list (string * string * string)) :
  forallb function_parser_base.parameter_ok
    (zip_with merge (map signature_entry ps) (map docstring_entry ntfs)) = true.
Proof.
  revert ntfs. induction ps as [|y ps IH]; intros [|[[n t] f] ntfs];
    try reflexivity.
  cbn [map zip_with forallb]. rewrite IH, andb_true_r.
  unfold signature_entry, docstring_entry. cbn [merge py_eq list_eqb].
  rewrite !andb_false_r. cbn [zip_with merge].
  rewrite merge_None_r.
  unfold function_parser_base.parameter_ok, function_parser_signature.optionality.
  cbn [is_None orb function_parser_base.str_or_None isinstance_str andb].
  destruct (negb (py_eq (inspect.default y) _empty)); cbn;
    rewrite ?orb_true_r; reflexivity.
Qed.

Lemma merge_list4 (a0 a1 a2 a3 b0 b1 b2 b3 : pyval) :
  merge (VList [a0; a1; a2; a3]) (VList [b0; b1; b2; b3])
  = if py_eq (VList [b0; b1; b2; b3]) (VList [a0; a1; a2; a3])
    then VList [a0; a1; a2; a3]
    else VList [merge a0 b0; merge a1 b1; merge a2 b2; merge a3 b3].
Proof. reflexivity. Qed.

Lemma merge_None_l (y : pyval) : merge VNone y = y.
Proof. reflexivity. Qed.

Lemma merge_parameters (ps : list inspect.parameter) (p : pyval) :
  p = VNone \/ (exists ntfs, p = VList (map docstring_entry ntfs)) ->
  exists xs, merge (VList (map signature_entry ps)) p = VList xs
             /\ forallb function_parser_base.parameter_ok xs = true.
Proof.
  intros [-> | (ntfs & ->)].
  - eexists. split; [reflexivity | apply signature_entries_accepted].
  - cbn [merge]. destruct (py_eq _ _).
    + eexists. split; [reflexivity | apply signature_entries_accepted].
    + eexists. split; [reflexivity | apply merged_entries_accepted].
Qed.

(** The check accepts the merge of what the two extractors return. *)
Lemma check_merge {rt : Runtime} (depth : nat) (func : function) (A B : pyval) :
  parse depth parser_signature func = Ok A ->
  parse depth parser_docstring_numpy func = Ok B ->
  function_parser_base.check (merge A B) = Ok (merge A B).
Proof.
  intros HA HB.
  apply parse_signature_Ok in HA as (ps & ra & _ & -> & Hcheck).
  rewrite docstring_parse_is__parse in HB.
  apply docstring__parse_form in HB as (short & long & p & -> & Hp).
  rewrite merge_list4.
  destruct (py_eq _ _); [exact Hcheck|].
  rewrite !merge_None_l, merge_None_r.
  destruct (merge_parameters ps p Hp) as (xs & -> & Hxs).
  rewrite check_signature in Hcheck. rewrite check_list4.
  assert (H0 : function_parser_base.str_or_None
                 match short with Some s => blank_to_None s | None => VNone end
               = true).
  { destruct short; [apply blank_to_None_str_or_None | reflexivity]. }
  rewrite H0, blank_to_None_str_or_None.
  cbn [assert bind isinstance_list is_None orb py_iter]. rewrite Hxs.
  cbn [negb bind].
  destruct (py_eq (signature_return ra) _empty) eqn:E.
  { apply py_eq_empty in E. exfalso. eapply signature_return_not_marker, E. }
  destruct (is_None ra || _ || _ || _) eqn:Era; [|discriminate].
  clear Hcheck.
  unfold signature_return in *.
  destruct ra as [ | | | |l|l| | | | ]; try reflexivity;
    cbn [is_None isinstance_tuple isinstance_list orb negb andb py_iter
         items_of bind] in Era |- *;
    destruct (function_parser_base.return_triple_ok _); cbn [bind orb] in Era |- *;
    try reflexivity; rewrite Era; reflexivity.
Qed.

(** When both extractors return compatible metadata, the pipeline returns
    their merge. *)
Lemma pipeline_merge {rt : Runtime} (depth : nat) (func : function) (A B : pyval) :
  parse depth parser_signature func = Ok A ->
  parse depth parser_docstring_numpy func = Ok B ->
  compatible A B = true -> nesting A < depth ->
  parse depth docstringrunner_parser_func func = Ok (merge A B).
Proof.
  intros HA HB Hc Hn. rewrite pipeline_unfold, HA, HB. cbn [bind].
  rewrite (union_compatible depth A B Hc Hn). cbn [bind].
  rewrite (check_merge depth func A B HA HB). reflexivity.
Qed.

(** Whatever the pipeline returns is the merge of compatible metadata of
    the two extractors. *)
Lemma pipeline_Ok {rt : Runtime} (depth : nat) (func : function) (R : pyval) :
  parse depth docstringrunner_parser_func func = Ok R ->
  exists A B,
    parse depth parser_signature func = Ok A
    /\ parse depth parser_docstring_numpy func = Ok B
    /\ compatible A B = true
    /\ R = merge A B.
Proof.
  rewrite pipeline_unfold. intros H.
  apply bind_Ok in H as (A & HA & H).
  apply bind_Ok in H as (B & HB & H).
  apply bind_Ok in H as (r & Hr & H).
  apply bind_Ok in H as (u & _ & H). injection H as <-.
  apply union_pair_Ok in Hr as [Hc ->].
  exists A, B. auto.
Qed.

Section pipeline_cases.
Context {rt : Runtime}.
Import function_parser_union.

Lemma union_None_l (depth : nat) (y : pyval) :
  union (S depth) [VNone; y] = Ok y.
Proof. destruct y; reflexivity. Qed.

Lemma union_None_r (depth : nat) (x : pyval) :
  union (S depth) [x; VNone] = Ok x.
Proof. destruct x; reflexivity. Qed.

Lemma union_same (depth : nat) (s : string) :
  union (S depth) [VStr s; VStr s] = Ok (VStr s).
Proof.
  rewrite union_pair_unfold by reflexivity. cbn [py_type py_eq].
  rewrite String.eqb_refl. reflexivity.
Qed.

(** Two unequal tuples, or two unequal lists, of one length: the union
    descends into their items. *)
Lemma union_tuple_rows (depth : nat) (l m : list pyval) :
  py_eq (VTuple m) (VTuple l) = false -> List.length l = List.length m ->
  union (S depth) [VTuple l; VTuple m]
  = (items <- mapM (union depth) (zip_with (fun x y => [x; y]) l m) ;;
     Ok (VTuple items)).
Proof.
  intros E Hlen. rewrite union_pair_unfold by reflexivity. rewrite E.
  cbn [py_type py_tuple hasattr_len py_len py_iter andb assert bind].
  replace (py_eq py_tuple py_tuple) with true by reflexivity.
  cbn [andb assert bind]. rewrite <- Hlen, Nat.eqb_refl. cbn [negb bind].
  rewrite zip_star_pair by exact Hlen. reflexivity.
Qed.

Lemma union_list_rows (depth : nat) (l m : list pyval) :
  py_eq (VList m) (VList l) = false -> List.length l = List.length m ->
  union (S depth) [VList l; VList m]
  = (items <- mapM (union depth) (zip_with (fun x y => [x; y]) l m) ;;
     Ok (VList items)).
Proof.
  intros E Hlen. rewrite union_pair_unfold by reflexivity. rewrite E.
  cbn [py_type py_list hasattr_len py_len py_iter andb assert bind].
  replace (py_eq py_list py_list) with true by reflexivity.
  cbn [andb assert bind]. rewrite <- Hlen, Nat.eqb_refl. cbn [negb bind].
  rewrite zip_star_pair by exact Hlen. reflexivity.
Qed.

Lemma py_eq_VTuple_cons (x y : pyval) (l m : list pyval) :
  py_eq (VTuple (x :: l)) (VTuple (y :: m))
  = item_eq x y && py_eq (VTuple l) (VTuple m).
Proof. reflexivity. Qed.

Lemma py_eq_VList_cons (x y : pyval) (l m : list pyval) :
  py_eq (VList (x :: l)) (VList (y :: m))
  = item_eq x y && py_eq (VList l) (VList m).
Proof. reflexivity. Qed.

Lemma item_eq_VTuple (l : list pyval) (y : pyval) :
  item_eq (VTuple l) y = py_eq (VTuple l) y.
Proof. reflexivity. Qed.

Lemma item_eq_VList (l : list pyval) (y : pyval) :
  item_eq (VList l) y = py_eq (VList l) y.
Proof. reflexivity. Qed.

Lemma item_eq_text_type (ann : pyval) (t : string) :
  isinstance_str ann = false -> item_eq (VStr t) ann = false.
Proof. destruct ann; try discriminate; reflexivity. Qed.

(** A type the signature declares and a type text of the documentation
    never have the same type, unless the declared type is itself text. *)
Lemma union_type_and_text (depth : nat) (ann : pyval) (t : string) :
  is_None ann = false -> isinstance_str ann = false ->
  union (S depth) [ann; VStr t] = Raise AssertionError.
Proof.
  intros Hn Hs. rewrite union_pair_unfold by (assumption || reflexivity).
  replace (py_eq (py_type (VStr t)) (py_type ann)) with false; [reflexivity|].
  destruct ann; try discriminate; try reflexivity.
  cbn. destruct (is_typing_Union ann); [|destruct (is_types_UnionType ann)];
    reflexivity.
Qed.

Lemma union_typed_entries (depth : nat) (n : string) (ann a2 a3 : pyval)
    (t : string) (b2 b3 : pyval) :
  is_None ann = false -> isinstance_str ann = false ->
  union (S (S depth))
    [VTuple [VStr n; ann; a2; a3]; VTuple [VStr n; VStr t; b2; b3]]
  = Raise AssertionError.
Proof.
  intros Hn Hs. rewrite union_tuple_rows; [|
    rewrite !py_eq_VTuple_cons, (item_eq_text_type ann t Hs), andb_false_r;
    reflexivity | reflexivity].
  cbn [zip_with]. rewrite !mapM_cons, union_same. cbn [bind].
  rewrite (union_type_and_text depth ann t Hn Hs). reflexivity.
Qed.

Lemma union_typed_parameters (depth : nat) (n : string) (ann a2 a3 : pyval)
    (t : string) (b2 b3 : pyval) (sigs docs : list pyval) :
  is_None ann = false -> isinstance_str ann = false ->
  List.length sigs = List.length docs ->
  union (S (S (S depth)))
    [VList (VTuple [VStr n; ann; a2; a3] :: sigs);
     VList (VTuple [VStr n; VStr t; b2; b3] :: docs)]
  = Raise AssertionError.
Proof.
  intros Hn Hs Hlen. rewrite union_list_rows; [|
    rewrite py_eq_VList_cons, item_eq_VTuple, !py_eq_VTuple_cons,
      (item_eq_text_type ann t Hs), andb_false_r; reflexivity
    | cbn; congruence].
  cbn [zip_with]. rewrite mapM_cons.
  rewrite (union_typed_entries depth n ann a2 a3 t b2 b3 Hn Hs). reflexivity.
Qed.

Lemma union_typed_metadata (depth : nat) (n : string) (ann a2 a3 : pyval)
    (t : string) (b2 b3 : pyval) (sigs docs : list pyval) (R b0 b1 : pyval) :
  is_None ann = false -> isinstance_str ann = false ->
  List.length sigs = List.length docs ->
  union (S (S (S (S depth))))
    [VList [VNone; VNone; VList (VTuple [VStr n; ann; a2; a3] :: sigs); R];
     VList [b0; b1; VList (VTuple [VStr n; VStr t; b2; b3] :: docs); VNone]]
  = Raise AssertionError.
Proof.
  intros Hn Hs Hlen. rewrite union_list_rows; [| | reflexivity].
  - cbn [zip_with]. rewrite !mapM_cons, !union_None_l. cbn [bind].
    rewrite (union_typed_parameters depth n ann a2 a3 t b2 b3 sigs docs
               Hn Hs Hlen).
    reflexivity.
  - rewrite !py_eq_VList_cons, item_eq_VList, py_eq_VList_cons, item_eq_VTuple,
      !py_eq_VTuple_cons, (item_eq_text_type ann t Hs).
    rewrite !andb_false_r. reflexivity.
Qed.

End pipeline_cases.

(** ** The pipeline as a whole *)

(** X5: whatever the parser and the recursion depth, [parse] raises
    [UnAnnotatedError] only for a function whose signature
    [inspect.signature] cannot read, with the message of a builtin: the
    check of the return annotation never raises it on what the extractors
    and their unions return. *)
Theorem parse_UnAnnotatedError_only_for_builtins {rt : Runtime} (depth : nat)
    (parser : function_parser) (func : function) :
  parse depth parser func = Raise UnAnnotatedError ->
  exists msg,
    signature func = inspect.SigValueError msg
    /\ String.prefix "no signature found for builtin" msg = true.
Proof. apply parse_UnAnnotatedError. Qed.

Lemma parse_UnAnnotatedError_only_for_builtins_witness :
  exists msg,
    signature sample_builtin = inspect.SigValueError msg
    /\ String.prefix "no signature found for builtin" msg = true.
Proof.
  apply (parse_UnAnnotatedError_only_for_builtins (rt := sample_runtime) 3
           docstringrunner_parser_func sample_builtin).
  reflexivity.
Defined.

(** X6: when the signature extractor and the documentation extractor both
    return, and what they return is compatible, the pipeline of
    [docstringrunner] returns the merge of the two, provided the recursion
    depth exceeds the nesting of the signature's metadata: the shared
    check never rejects the merge. *)
Theorem pipeline_returns_merge {rt : Runtime} (depth : nat) (func : function)
    (A B : pyval) :
  parse depth parser_signature func = Ok A ->
  parse depth parser_docstring_numpy func = Ok B ->
  compatible A B = true -> nesting A < depth ->
  parse depth docstringrunner_parser_func func = Ok (merge A B).
Proof. apply pipeline_merge. Qed.

Lemma pipeline_returns_merge_witness :
  parse (rt := sample_runtime) 5 docstringrunner_parser_func sample_greet
  = Ok (merge
          (VList [VNone; VNone;
                  VList [VTuple [VStr "name"; py_str; VNone;
                                 VTuple [VBool false; VNone]];
                         VTuple [VStr "loud"; py_bool; VNone;
                                 VTuple [VBool true; VBool true]]];
                  VTuple [VNone; py_str; VNone]])
          (VList [VStr "Doc."; VNone; VNone; VNone])).
Proof.
  apply (pipeline_returns_merge (rt := sample_runtime) 5 sample_greet);
    [reflexivity | reflexivity | reflexivity | cbn; lia].
Defined.

(** X7: whatever the pipeline of [docstringrunner] returns for a function is
    the merge of what the signature extractor and the documentation
    extractor return for it, and the two are compatible. *)
Theorem pipeline_returns_only_merges {rt : Runtime} (depth : nat)
    (func : function) (R : pyval) :
  parse depth docstringrunner_parser_func func = Ok R ->
  exists A B,
    parse depth parser_signature func = Ok A
    /\ parse depth parser_docstring_numpy func = Ok B
    /\ compatible A B = true
    /\ R = merge A B.
Proof. apply pipeline_Ok. Qed.

Lemma pipeline_returns_only_merges_witness :
  exists A B,
    parse (rt := sample_runtime) 5 parser_signature sample_greet = Ok A
    /\ parse (rt := sample_runtime) 5 parser_docstring_numpy sample_greet = Ok B
    /\ compatible A B = true
    /\ sample_metadata = merge A B.
Proof.
  apply (pipeline_returns_only_merges (rt := sample_runtime) 5 sample_greet
           sample_metadata).
  reflexivity.
Defined.


Lemma py_eq_None_r (x : pyval) : py_eq x VNone = true -> x = VNone.
Proof. destruct x; try discriminate; reflexivity. Qed.

Lemma py_eq_None_l (x : pyval) : py_eq VNone x = true -> x = VNone.
Proof. destruct x; try discriminate; reflexivity. Qed.

Lemma mapM_zip_with_map {A B : Type} (f : list pyval -> result B)
    (a b : A -> pyval) (c : A -> B) (l : list A) :
  (forall x, In x l -> f [a x; b x] = Ok (c x)) ->
  mapM f (zip_with (fun x y => [x; y]) (map a l) (map b l)) = Ok (map c l).
Proof.
  induction l as [|x l IH]; intros H; [reflexivity|].
  cbn [map zip_with]. rewrite mapM_cons, (H x (or_introl eq_refl)). cbn [bind].
  rewrite IH by (intros y Hy; apply H; right; exact Hy). reflexivity.
Qed.

(** The signature extractor's [parse] on a signature that can be read. *)
Lemma parse_signature_Sig {rt : Runtime} (depth : nat) (func : function)
    (ps : list inspect.parameter) (ra : pyval) :
  signature func = inspect.Sig ps ra ->
  parse depth parser_signature func
  = if is_None ra
       || (negb (isinstance_tuple ra) && negb (isinstance_list ra))
       || function_parser_base.return_triple_ok ra
       || forallb function_parser_base.return_entry_ok (items_of ra)
    then Ok (VList [VNone; VNone; VList (map signature_entry ps);
                    signature_return ra])
    else Raise AnnotationFormatError.
Proof.
  intros Hsig. rewrite parse_inv, (signature__parse_Sig func ps ra Hsig).
  cbn [bind]. rewrite check_signature.
  destruct (is_None ra || _ || _ || _); reflexivity.
Qed.

Lemma parse_signature_plain {rt : Runtime} (depth : nat) (func : function)
    (ps : list inspect.parameter) (ra : pyval) :
  signature func = inspect.Sig ps ra ->
  isinstance_tuple ra = false -> isinstance_list ra = false ->
  parse depth parser_signature func
  = Ok (VList [VNone; VNone; VList (map signature_entry ps);
               signature_return ra]).
Proof.
  intros Hsig Ht Hl. rewrite (parse_signature_Sig depth func ps ra Hsig).
  rewrite Ht, Hl. cbn [negb andb]. rewrite orb_true_r. reflexivity.
Qed.

Section pipeline_documented.
Context {rt : Runtime}.
Import function_parser_union.

Lemma item_eq_None_r (x : pyval) : item_eq x VNone = true -> x = VNone.
Proof. destruct x; try discriminate; reflexivity. Qed.

Lemma item_eq_None_l (x : pyval) : item_eq VNone x = true -> x = VNone.
Proof. destruct x; try discriminate; reflexivity. Qed.

Lemma union_equal_lists (depth : nat) (l m : list pyval) :
  py_eq (VList m) (VList l) = true ->
  union (S depth) [VList l; VList m] = Ok (VList l).
Proof.
  intros E. rewrite union_pair_unfold by reflexivity. rewrite E. reflexivity.
Qed.

Lemma merge_equal (x y : pyval) : py_eq y x = true -> merge x y = x.
Proof.
  intros E. destruct (is_None x) eqn:Hx.
  { destruct x; try discriminate. apply py_eq_None_r in E. subst.
    reflexivity. }
  destruct (is_None y) eqn:Hy.
  { destruct y; try discriminate. apply py_eq_None_l in E. subst.
    discriminate. }
  apply merge_eq; assumption.
Qed.

(** The pipeline returns whatever the union of the two extractors'
    metadata returns. *)
Lemma pipeline_of_union (depth : nat) (func : function) (A B r : pyval) :
  parse depth parser_signature func = Ok A ->
  parse depth parser_docstring_numpy func = Ok B ->
  union depth [A; B] = Ok r ->
  parse depth docstringrunner_parser_func func = Ok r.
Proof.
  intros HA HB Hr. rewrite pipeline_unfold, HA, HB. cbn [bind]. rewrite Hr.
  cbn [bind]. apply union_pair_Ok in Hr as [_ ->].
  rewrite (check_merge depth func A B HA HB). reflexivity.
Qed.

Lemma pipeline_of_union_Raise (depth : nat) (func : function) (A B : pyval)
    (e : exn) :
  parse depth parser_signature func = Ok A ->
  parse depth parser_docstring_numpy func = Ok B ->
  union depth [A; B] = Raise e ->
  parse depth docstringrunner_parser_func func = Raise e.
Proof.
  intros HA HB Hr. rewrite pipeline_unfold, HA, HB. cbn [bind]. rewrite Hr.
  reflexivity.
Qed.

(** The union of the two metadata lists, from the union of their
    parameters. *)
Lemma union_metadata_rows (depth : nat) (a2 a3 b0 b1 b2 r2 : pyval) :
  union (S depth) [a2; b2] = Ok r2 ->
  union (S (S depth)) [VList [VNone; VNone; a2; a3]; VList [b0; b1; b2; VNone]]
  = Ok (VList [b0; b1; r2; a3]).
Proof.
  intros H.
  destruct (py_eq (VList [b0; b1; b2; VNone]) (VList [VNone; VNone; a2; a3]))
    eqn:E.
  - rewrite (union_equal_lists _ _ _ E).
    rewrite !py_eq_VList_cons in E.
    apply andb_prop in E as [E0 E]. apply andb_prop in E as [E1 E].
    apply andb_prop in E as [E2 E]. apply andb_prop in E as [E3 _].
    apply item_eq_None_r in E0. apply item_eq_None_r in E1.
    apply item_eq_None_l in E3. subst.
    unfold item_eq in E2. apply orb_prop in E2 as [E2 | E2].
    + destruct b2, a2; try discriminate E2. discriminate H.
    + apply union_pair_Ok in H as [_ ->].
      rewrite (merge_equal _ _ E2). reflexivity.
  - rewrite union_list_rows by (exact E || reflexivity).
    cbn [zip_with]. rewrite !mapM_cons, !union_None_l, H, union_None_r.
    reflexivity.
Qed.

Lemma union_documented_entry (depth : nat) (n f : string) (ann opt : pyval) :
  union (S (S depth))
    [VTuple [VStr n; ann; VNone; opt]; VTuple [VStr n; VNone; VStr f; VNone]]
  = Ok (VTuple [VStr n; ann; VStr f; opt]).
Proof.
  rewrite union_tuple_rows; [| | reflexivity].
  - cbn [zip_with]. rewrite !mapM_cons, union_same, !union_None_r, union_None_l.
    reflexivity.
  - rewrite !py_eq_VTuple_cons.
    replace (item_eq (VStr f) VNone) with false by reflexivity.
    rewrite !andb_false_r. reflexivity.
Qed.

Lemma union_documented_parameters (depth : nat)
    (pfs : list (inspect.parameter * string)) :
  union (S (S (S depth)))
    [VList (map (fun pf => signature_entry (fst pf)) pfs);
     VList (map (fun pf => VTuple [VStr (inspect.name (fst pf)); VNone;
                                   VStr (snd pf); VNone]) pfs)]
  = Ok (VList (map (fun pf => VTuple [VStr (inspect.name (fst pf));
                                      inspect.annotation (fst pf);
                                      VStr (snd pf);
                                      function_parser_signature.optionality
                                        (fst pf)]) pfs)).
Proof.
  destruct pfs as [|pf pfs]; [reflexivity|].
  rewrite union_list_rows.
  - rewrite (mapM_zip_with_map (union (S (S depth))) _ _
               (fun pf => VTuple [VStr (inspect.name (fst pf));
                                  inspect.annotation (fst pf);
                                  VStr (snd pf);
                                  function_parser_signature.optionality
                                    (fst pf)])).
    + reflexivity.
    + intros x _. apply union_documented_entry.
  - cbn [map]. rewrite py_eq_VList_cons. unfold signature_entry.
    rewrite item_eq_VTuple, !py_eq_VTuple_cons.
    replace (item_eq (VStr (snd pf)) VNone) with false by reflexivity.
    rewrite !andb_false_r. reflexivity.
  - rewrite !length_map. reflexivity.
Qed.

End pipeline_documented.

(** X8: for a function whose signature can be read and whose return
    annotation is neither a tuple nor a list, and whose Parameters section
    documents every parameter of the signature, in order, without a type,
    the pipeline of [docstringrunner] returns the two descriptions of the
    documentation, one record per parameter with the name, the annotation
    and the optionality of the signature and the description of the
    documentation, and the return annotation.  A recursion depth of four is
    enough. *)
Theorem pipeline_documented_parameters {rt : Runtime} (depth : nat)
    (func : function) (pfs : list (inspect.parameter * string))
    (ra b0 b1 : pyval) :
  signature func = inspect.Sig (map fst pfs) ra ->
  isinstance_tuple ra = false -> isinstance_list ra = false ->
  function_parser_docstring_numpy._parse func
  = Ok (VList [b0; b1;
               VList (map (fun pf => VTuple [VStr (inspect.name (fst pf));
                                             VNone; VStr (snd pf); VNone])
                          pfs);
               VNone]) ->
  parse (4 + depth) docstringrunner_parser_func func
  = Ok (VList [b0; b1;
               VList (map (fun pf => VTuple [VStr (inspect.name (fst pf));
                                             inspect.annotation (fst pf);
                                             VStr (snd pf);
                                             function_parser_signature.optionality
                                               (fst pf)])
                          pfs);
               signature_return ra]).
Proof.
  intros Hsig Ht Hl Hdoc.
  eapply pipeline_of_union.
  - apply (parse_signature_plain _ func _ ra Hsig Ht Hl).
  - rewrite docstring_parse_is__parse. exact Hdoc.
  - rewrite map_map. change (4 + depth) with (S (S (S (S depth)))).
    apply union_metadata_rows, union_documented_parameters.
Qed.

Lemma pipeline_documented_parameters_witness :
  parse (rt := sample_parameters_runtime) (4 + 0) docstringrunner_parser_func
    (sample_double "x:")
  = Ok (VList [VStr "Doc."; VNone;
               VList [VTuple [VStr "x"; py_int; VStr "the input";
                              VTuple [VBool false; VNone]]];
               VTuple [VNone; py_int; VNone]]).
Proof.
  apply (pipeline_documented_parameters (rt := sample_parameters_runtime) 0
           (sample_double "x:")
           [({| inspect.name := "x"; inspect.annotation := py_int;
                inspect.default := _empty |}, "the input")]
           py_int (VStr "Doc.") VNone);
    reflexivity.
Defined.

(** X9: for a function whose signature can be read and whose return
    annotation is neither a tuple nor a list, and whose documentation has no
    Parameters section, the pipeline of [docstringrunner] returns the two
    descriptions of the documentation with the parameters and the return
    annotation of the signature; no parameter has a description.  A
    recursion depth of two is enough. *)
Theorem pipeline_without_parameters_section {rt : Runtime} (depth : nat)
    (func : function) (ps : list inspect.parameter) (ra b0 b1 : pyval) :
  signature func = inspect.Sig ps ra ->
  isinstance_tuple ra = false -> isinstance_list ra = false ->
  function_parser_docstring_numpy._parse func
  = Ok (VList [b0; b1; VNone; VNone]) ->
  parse (2 + depth) docstringrunner_parser_func func
  = Ok (VList [b0; b1; VList (map signature_entry ps); signature_return ra]).
Proof.
  intros Hsig Ht Hl Hdoc.
  eapply pipeline_of_union.
  - apply (parse_signature_plain _ func _ ra Hsig Ht Hl).
  - rewrite docstring_parse_is__parse. exact Hdoc.
  - change (2 + depth) with (S (S depth)).
    apply union_metadata_rows, union_None_r.
Qed.

Lemma pipeline_without_parameters_section_witness :
  parse (rt := sample_runtime) (2 + 0) docstringrunner_parser_func sample_greet
  = Ok sample_metadata.
Proof.
  apply (pipeline_without_parameters_section (rt := sample_runtime) 0
           sample_greet
           [ {| inspect.name := "name"; inspect.annotation := py_str;
                inspect.default := _empty |};
             {| inspect.name := "loud"; inspect.annotation := py_bool;
                inspect.default := VBool true |} ]
           py_str (VStr "Doc.") VNone);
    reflexivity.
Defined.

(** X10: the signature extractor's [parse] never fails on the parameters:
    for a signature that can be read it returns no descriptions, one record
    (name, annotation, no description, optionality) per parameter, and the
    return annotation, kept as it is when it is [None], a tuple or a list
    and wrapped into a triple otherwise; it raises [AnnotationFormatError],
    and nothing else, exactly when the return annotation is a tuple or a
    list that is neither a well-formed triple nor a sequence of well-formed
    entries. *)
Theorem signature_parse_outcome {rt : Runtime} (depth : nat) (func : function)
    (ps : list inspect.parameter) (ra : pyval) :
  signature func = inspect.Sig ps ra ->
  parse depth parser_signature func
  = if is_None ra
       || (negb (isinstance_tuple ra) && negb (isinstance_list ra))
       || function_parser_base.return_triple_ok ra
       || forallb function_parser_base.return_entry_ok (items_of ra)
    then Ok (VList [VNone; VNone; VList (map signature_entry ps);
                    signature_return ra])
    else Raise AnnotationFormatError.
Proof. apply parse_signature_Sig. Qed.

Lemma signature_parse_outcome_witness :
  parse (rt := sample_runtime) 1 parser_signature sample_unannotated
  = Ok (VList [VNone; VNone;
               VList [VTuple [VStr "x"; py_int; VNone;
                              VTuple [VBool false; VNone]]];
               VTuple [VNone; _empty; VNone]]).
Proof.
  apply (signature_parse_outcome (rt := sample_runtime) 1 sample_unannotated
           [ {| inspect.name := "x"; inspect.annotation := py_int;
                inspect.default := _empty |} ] _empty).
  reflexivity.
Defined.

(** ** Types given by the documentation *)

Lemma Forall2_nth_error_both {A B : Type} (R : A -> B -> Prop) (l : list A)
    (m : list B) (i : nat) (x : A) (y : B) :
  Forall2 R l m -> nth_error l i = Some x -> nth_error m i = Some y -> R x y.
Proof.
  intros H. revert i. induction H as [|a b l m Hab _ IH]; intros [|i] Hx Hy;
    try discriminate.
  - injection Hx as <-. injection Hy as <-. exact Hab.
  - apply (IH i); assumption.
Qed.

Lemma Forall2_swap {A B : Type} (R : A -> B -> Prop) (l : list A) (m : list B) :
  Forall2 R l m -> Forall2 (fun y x => R x y) m l.
Proof. induction 1; constructor; assumption. Qed.

(** Two sequences that are equal or compatible are so item by item. *)
Lemma agree_items (l m : list pyval) :
  list_eqb item_eq m l = true \/ list_eqb compatible l m = true ->
  Forall2 (fun x y => item_eq y x = true \/ compatible x y = true) l m.
Proof.
  intros [H | H].
  - apply list_eqb_Forall2, Forall2_swap in H.
    eapply Forall2_impl; [|exact H]. cbn. auto.
  - apply list_eqb_Forall2 in H.
    eapply Forall2_impl; [|exact H]. cbn. auto.
Qed.

Lemma agree_VList (l m : list pyval) :
  item_eq (VList m) (VList l) = true \/ compatible (VList l) (VList m) = true ->
  Forall2 (fun x y => item_eq y x = true \/ compatible x y = true) l m.
Proof.
  intros H. apply agree_items. destruct H as [H | H]; [left; exact H|].
  cbn [compatible is_None orb py_type] in H.
  apply andb_prop in H as [_ H]. apply orb_prop in H as [H | H]; auto.
Qed.

Lemma agree_VTuple (l m : list pyval) :
  item_eq (VTuple m) (VTuple l) = true \/ compatible (VTuple l) (VTuple m) = true ->
  Forall2 (fun x y => item_eq y x = true \/ compatible x y = true) l m.
Proof.
  intros H. apply agree_items. destruct H as [H | H]; [left; exact H|].
  cbn [compatible is_None orb py_type] in H.
  apply andb_prop in H as [_ H]. apply orb_prop in H as [H | H]; auto.
Qed.

Lemma agree_text (ann : pyval) (t : string) :
  item_eq (VStr t) ann = true \/ compatible ann (VStr t) = true ->
  is_None ann = true \/ isinstance_str ann = true.
Proof.
  intros [H | H].
  - destruct ann; try discriminate. right. reflexivity.
  - destruct ann; try discriminate; auto.
    cbn in H. destruct (is_typing_Union ann); try discriminate.
    destruct (is_types_UnionType ann); discriminate.
Qed.

(** X11: the pipeline of [docstringrunner] never returns for a function
    whose Parameters section gives a type to a parameter that the signature
    annotates with anything but [None] or a string: whenever it returns,
    every parameter that the documentation types has such an annotation. *)
Theorem pipeline_rejects_documented_types {rt : Runtime} (depth : nat)
    (func : function) (R : pyval) (ps : list inspect.parameter)
    (ra b0 b1 b3 : pyval) (docs : list pyval) :
  parse depth docstringrunner_parser_func func = Ok R ->
  signature func = inspect.Sig ps ra ->
  function_parser_docstring_numpy._parse func
  = Ok (VList [b0; b1; VList docs; b3]) ->
  forall (i : nat) (p : inspect.parameter) (n : pyval) (t : string)
         (f o : pyval),
    nth_error ps i = Some p ->
    nth_error docs i = Some (VTuple [n; VStr t; f; o]) ->
    is_None (inspect.annotation p) = true
    \/ isinstance_str (inspect.annotation p) = true.
Proof.
  intros HR Hsig Hdoc i p n t f o Hp Hd.
  apply pipeline_Ok in HR as (A & B & HA & HB & Hc & _).
  apply parse_signature_Ok in HA as (ps' & ra' & Hsig' & -> & _).
  rewrite Hsig in Hsig'. injection Hsig' as <- <-.
  rewrite docstring_parse_is__parse, Hdoc in HB. injection HB as <-.
  pose proof (agree_VList _ _ (or_intror Hc)) as H.
  inversion H as [|a0 c0 l0 m0 _ H1]; subst.
  inversion H1 as [|a1 c1 l1 m1 _ H2]; subst.
  inversion H2 as [|a2 c2 l2 m2 Hparams _]; subst.
  apply agree_VList in Hparams.
  assert (Hentry : nth_error (map signature_entry ps) i
                   = Some (signature_entry p)).
  { rewrite nth_error_map, Hp. reflexivity. }
  pose proof (Forall2_nth_error_both _ _ _ i _ _ Hparams Hentry Hd) as He.
  apply agree_VTuple in He.
  inversion He as [|e0 d0 l3 m3 _ He1]; subst.
  inversion He1 as [|e1 d1 l4 m4 Hann _]; subst.
  apply agree_text in Hann. exact Hann.
Qed.

Lemma pipeline_rejects_documented_types_witness :
  is_None (VStr "int") = true \/ isinstance_str (VStr "int") = true.
Proof.
  apply (pipeline_rejects_documented_types (rt := sample_parameters_runtime) 5
           {| __name__ := "double";
              __doc__ := Some "x: int";
              signature :=
                inspect.Sig
                  [ {| inspect.name := "x"; inspect.annotation := VStr "int";
                       inspect.default := _empty |} ]
                  py_int;
              __call__ := sample_call |}
           (VList [VStr "Doc."; VNone;
                   VList [VTuple [VStr "x"; VStr "int"; VStr "the input";
                                  VTuple [VBool false; VNone]]];
                   VTuple [VNone; py_int; VNone]])
           [ {| inspect.name := "x"; inspect.annotation := VStr "int";
                inspect.default := _empty |} ]
           py_int (VStr "Doc.") VNone VNone
           [VTuple [VStr "x"; VStr "int"; VStr "the input"; VNone]])
    with (i := 0)
         (p := {| inspect.name := "x"; inspect.annotation := VStr "int";
                  inspect.default := _empty |})
         (n := VStr "x") (t := "int"%string) (f := VStr "the input")
         (o := VNone);
    reflexivity.
Defined.

(** X12: when the signature annotates its first parameter with anything but
    [None] or a string, and the first entry of the Parameters section
    documents that parameter with a type, the pipeline of [docstringrunner]
    raises [AssertionError], provided the section has as many entries as
    the signature has parameters and the return annotation is neither a
    tuple nor a list.  A recursion depth of four is enough. *)
Theorem pipeline_typed_parameter_raises {rt : Runtime} (depth : nat)
    (func : function) (p : inspect.parameter) (ps : list inspect.parameter)
    (ra b0 b1 f : pyval) (t : string) (docs : list pyval) :
  signature func = inspect.Sig (p :: ps) ra ->
  isinstance_tuple ra = false -> isinstance_list ra = false ->
  is_None (inspect.annotation p) = false ->
  isinstance_str (inspect.annotation p) = false ->
  function_parser_docstring_numpy._parse func
  = Ok (VList [b0; b1;
               VList (VTuple [VStr (inspect.name p); VStr t; f; VNone] :: docs);
               VNone]) ->
  List.length docs = List.length ps ->
  parse (4 + depth) docstringrunner_parser_func func = Raise AssertionError.
Proof.
  intros Hsig Ht Hl Hn Hs Hdoc Hlen.
  eapply pipeline_of_union_Raise.
  - apply (parse_signature_plain _ func _ ra Hsig Ht Hl).
  - rewrite docstring_parse_is__parse. exact Hdoc.
  - change (4 + depth) with (S (S (S (S depth)))). cbn [map].
    unfold signature_entry at 1.
    apply union_typed_metadata; [assumption | assumption|].
    rewrite length_map. symmetry. exact Hlen.
Qed.

Lemma pipeline_typed_parameter_raises_witness :
  parse (rt := sample_parameters_runtime) (4 + 0) docstringrunner_parser_func
    (sample_double "x: int")
  = Raise AssertionError.
Proof.
  apply (pipeline_typed_parameter_raises (rt := sample_parameters_runtime) 0
           (sample_double "x: int")
           {| inspect.name := "x"; inspect.annotation := py_int;
              inspect.default := _empty |}
           [] py_int (VStr "Doc.") VNone (VStr "the input") "int" []);
    reflexivity.
Defined.

(** ** The documentation extractor on a document *)

Lemma filterM_filter {A : Type} (p : A -> result bool) (q : A -> bool)
    (l : list A) :
  (forall y, In y l -> p y = Ok (q y)) -> filterM p l = Ok (filter q l).
Proof.
  induction l as [|x l IH]; intros H; [reflexivity|].
  change (filterM p (x :: l))
    with (b <- p x ;; ys <- filterM p l ;; Ok (if b then x :: ys else ys)).
  rewrite (H x (or_introl eq_refl)), IH by (intros y Hy; apply H; right; exact Hy).
  cbn [bind filter]. destruct (q x); reflexivity.
Qed.

Lemma filterM_drop {A : Type} (p : A -> result bool) (q : A -> bool)
    (l : list A) :
  (forall y, q y = false -> p y = Ok false) ->
  filterM p l = filterM p (filter q l).
Proof.
  intros H. induction l as [|x l IH]; [reflexivity|].
  change (filterM p (x :: l))
    with (b <- p x ;; ys <- filterM p l ;; Ok (if b then x :: ys else ys)).
  cbn [filter]. destruct (q x) eqn:E.
  - change (filterM p (x :: filter q l))
      with (b <- p x ;; ys <- filterM p (filter q l) ;;
            Ok (if b then x :: ys else ys)).
    rewrite IH. reflexivity.
  - rewrite (H x E). cbn [bind]. rewrite IH.
    destruct (filterM p (filter q l)); reflexivity.
Qed.

Lemma mapM_map {A B : Type} (f : A -> result B) (g : A -> B) (l : list A) :
  (forall x, In x l -> f x = Ok (g x)) -> mapM f l = Ok (map g l).
Proof.
  induction l as [|x l IH]; intros H; [reflexivity|].
  rewrite mapM_cons, (H x (or_introl eq_refl)),
    IH by (intros y Hy; apply H; right; exact Hy).
  reflexivity.
Qed.

Lemma forallb_of_map {A B : Type} (f : A -> B) (p : B -> bool) (l : list A) :
  forallb p (map f l) = forallb (fun x => p (f x)) l.
Proof.
  induction l as [|x l IH]; [reflexivity|]. cbn. rewrite IH. reflexivity.
Qed.



Section docstring_documents.
Context {rt : Runtime}.
Import function_parser_docstring_numpy.

Lemma hidden_is_section (x : string) :
  x = "parameters" \/ x = "results" ->
  forall y, negb (hidden_section y) = false -> is_section x y = Ok false.
Proof.
  unfold hidden_section, is_section, first_name. intros Hx y H.
  apply negb_false_iff, andb_prop in H as [Htag H]. rewrite Htag.
  destruct (names y) as [|n ns]; [discriminate|]. cbn [bind].
  apply orb_prop in H as [H | H]; apply String.eqb_eq in H; subst n;
    destruct Hx as [-> | ->]; reflexivity.
Qed.

Lemma hidden_is_removed (found : list string) (y : node) :
  negb (hidden_section y) = false ->
  (b <- is_removed found ["yields"; "receives"] y ;; Ok (negb b)) = Ok false.
Proof.
  unfold hidden_section, is_removed, first_name. intros H.
  apply negb_false_iff, andb_prop in H as [Htag H]. rewrite Htag.
  destruct (names y) as [|n ns]; [discriminate|]. cbn [bind].
  rewrite existsb_app. cbn [existsb]. rewrite orb_false_r, H, orb_true_r.
  reflexivity.
Qed.

(** The extractor reads the document through the nodes that are not hidden
    sections. *)
Lemma _parse_hidden (func1 func2 : function) (text1 text2 : string) :
  __doc__ func1 = Some text1 -> __doc__ func2 = Some text2 ->
  filter (fun y => negb (hidden_section y)) (_parse_rst (dedent text1))
  = filter (fun y => negb (hidden_section y)) (_parse_rst (dedent text2)) ->
  _parse func1 = _parse func2.
Proof.
  intros H1 H2 Hd. unfold _parse. rewrite H1, H2. cbn [bind mapM].
  rewrite (filterM_drop (is_section "parameters") _ (_parse_rst (dedent text1))
             (hidden_is_section "parameters" ltac:(auto))).
  rewrite (filterM_drop (is_section "parameters") _ (_parse_rst (dedent text2))
             (hidden_is_section "parameters" ltac:(auto))).
  rewrite (filterM_drop (is_section "results") _ (_parse_rst (dedent text1))
             (hidden_is_section "results" ltac:(auto))).
  rewrite (filterM_drop (is_section "results") _ (_parse_rst (dedent text2))
             (hidden_is_section "results" ltac:(auto))).
  rewrite Hd.
  destruct (filterM (is_section "parameters") _) as [y1|]; [|reflexivity].
  cbn [bind].
  destruct (filterM (is_section "results") _) as [y2|]; [|reflexivity].
  cbn [bind].
  destruct (assert _); [|reflexivity]. cbn [bind].
  rewrite (filterM_drop _ _ (_parse_rst (dedent text1))
             (hidden_is_removed _)).
  rewrite (filterM_drop _ _ (_parse_rst (dedent text2))
             (hidden_is_removed _)).
  rewrite Hd. reflexivity.
Qed.

Lemma no_entries_is_section (x : string) (y : node) :
  x = "parameters" \/ x = "results" ->
  no_entries y = true -> is_section x y = Ok false.
Proof.
  unfold no_entries, is_section, first_name. intros Hx H.
  destruct (String.eqb (tagname y) "section"); [|reflexivity].
  cbn [negb orb] in H. destruct (names y) as [|n ns]; [discriminate|].
  cbn [bind]. apply andb_prop in H as [Hp Hr].
  apply negb_true_iff in Hp, Hr.
  destruct Hx as [-> | ->]; [rewrite Hp | rewrite Hr]; reflexivity.
Qed.

Lemma no_entries_is_removed (y : node) :
  no_entries y = true ->
  (b <- is_removed [] ["yields"; "receives"] y ;; Ok (negb b))
  = Ok (negb (hidden_section y)).
Proof.
  unfold no_entries, is_removed, hidden_section, first_name. intros H.
  destruct (String.eqb (tagname y) "section"); [|reflexivity].
  cbn [negb orb] in H. destruct (names y) as [|n ns]; [discriminate|].
  cbn [bind app existsb andb]. rewrite orb_false_r. reflexivity.
Qed.

(** The two descriptions of a document without Parameters and Results
    sections. *)
Lemma _parse_descriptions (func : function) (text : string) :
  __doc__ func = Some text ->
  forallb no_entries (_parse_rst (dedent text)) = true ->
  _parse func
  = let d := filter (fun y => negb (hidden_section y))
                    (_parse_rst (dedent text)) in
    Ok (VList [match filter is_paragraph d with
               | t1_0 :: _ => blank_to_None (strip (astext t1_0))
               | [] => VNone
               end;
               blank_to_None
                 (strip (document_astext
                           match filter is_paragraph d with
                           | _ :: _ => remove_first is_paragraph d
                           | [] => d
                           end));
               VNone; VNone]).
Proof.
  intros Hdoc Hplain. unfold _parse. rewrite Hdoc. cbn [bind mapM].
  rewrite forallb_forall in Hplain.
  rewrite (filterM_filter (is_section "parameters") (fun _ => false))
    by (intros y Hy; apply no_entries_is_section; auto).
  rewrite (filterM_filter (is_section "results") (fun _ => false))
    by (intros y Hy; apply no_entries_is_section; auto).
  assert (Hnil : forall l : list node, filter (fun _ => false) l = []).
  { induction l; [reflexivity | assumption]. }
  rewrite Hnil. cbn [bind filter List.length Nat.ltb Nat.leb snd forallb assert
                     map fst].
  rewrite (filterM_filter _ (fun y => negb (hidden_section y)))
    by (intros y Hy; apply no_entries_is_removed; auto).
  cbn [bind].
  destruct (filter is_paragraph _) as [|t1_0 ?].
  - cbn [bind setitem].
    rewrite (blank_loop_form None). reflexivity.
  - cbn [bind setitem].
    rewrite (blank_loop_form (Some _)). reflexivity.
Qed.

Lemma item_text_child (tag : string) (x : node) :
  has_tag tag x = true ->
  exists y, child_by_tag tag x = Ok y /\ strip (astext y) = item_text tag x.
Proof.
  intros H. destruct (child_by_tag_Ok tag x H) as (y & Hy). exists y.
  split; [exact Hy|]. unfold child_by_tag in Hy. unfold item_text.
  destruct (find _ _); [injection Hy as ->; reflexivity | discriminate].
Qed.

Lemma nth_str_nth (l : list string) (i : nat) :
  i < List.length l -> nth_str l i = Ok (nth i l EmptyString).
Proof.
  intros H. unfold nth_str. rewrite (nth_error_nth' l EmptyString H).
  reflexivity.
Qed.

(** The reading of a section made of a title and a definition list. *)
Lemma entries_section (sec title dl : node) :
  children sec = [title; dl] ->
  tagname title = "title" -> tagname dl = "definition_list" ->
  entries [sec]
  = if items_ok (children dl)
    then Ok (VList (map entry_of_item (children dl)))
    else Raise AssertionError.
Proof.
  intros Hc Ht Hdl. unfold entries, items_ok.
  cbn [List.length Nat.eqb assert bind]. rewrite Hc.
  cbn [map nth_error]. rewrite Ht, Hdl.
  cbn [list_eqb String.eqb Ascii.eqb Bool.eqb andb assert bind].
  destruct (forallb (fun x => String.eqb (tagname x) "definition_list_item") _);
    [|reflexivity].
  cbn [assert bind andb].
  destruct (forallb (fun x => has_tag "term" x && has_tag "definition" x) _)
    eqn:Htags; [|reflexivity].
  cbn [assert bind andb]. rewrite forallb_forall in Htags.
  rewrite (mapM_map _ (fun x => (item_text "term" x, item_text "definition" x))).
  2:{ intros x Hx. apply Htags, andb_prop in Hx as [H1 H2].
      destruct (item_text_child _ _ H1) as (t & -> & <-).
      destruct (item_text_child _ _ H2) as (f & -> & <-). reflexivity. }
  cbn [bind]. rewrite forallb_of_map. cbn [fst].
  destruct (forallb (fun x => List.length (split ":" (item_text "term" x)) =? 2) _)
    eqn:Hsplit; [|reflexivity].
  cbn [assert bind]. rewrite forallb_forall in Hsplit.
  rewrite (mapM_map _ (fun x => (strip (nth 0 (split ":" (fst x)) EmptyString),
                                 strip (nth 1 (split ":" (fst x)) EmptyString),
                                 snd x))).
  2:{ intros x Hx. apply in_map_iff in Hx as (y & <- & Hy).
      apply Hsplit, Nat.eqb_eq in Hy. cbn [fst snd].
      rewrite !nth_str_nth by lia. reflexivity. }
  cbn [bind]. rewrite !map_map. do 2 f_equal. apply map_ext. intros x.
  cbn [fst snd]. unfold entry_of_item, docstring_entry, blank_to_None.
  destruct (String.length _); reflexivity.
Qed.






End docstring_documents.

(** X13: the shared check accepts whatever the documentation extractor
    returns: its [parse] returns and raises exactly what its [_parse]
    does. *)
Theorem docstring_check_accepts {rt : Runtime} (depth : nat) (func : function) :
  parse depth parser_docstring_numpy func
  = function_parser_docstring_numpy._parse func.
Proof. apply docstring_parse_is__parse. Qed.



(** X15: what the code of the documentation extractor raises once the
    parser of docutils has returned the document of the documentation
    string (what that parser raises itself, as [SystemMessage] on a severe
    markup error, is no part of this).  It raises [TypeError] only for a
    function without documentation string, which [dedent] refuses;
    [IndexError] only when the document has a section without a name; and
    otherwise nothing but [AssertionError] and [NotImplementedError]: past
    its assertions, no lookup in the Parameters section can fail. *)
Theorem docstring_raises_only {rt : Runtime} (func : function) (e : exn) :
  function_parser_docstring_numpy._parse func = Raise e ->
  (e = TypeError /\ __doc__ func = None)
  \/ exists text,
       __doc__ func = Some text
       /\ let document := _parse_rst (dedent text) in
          (e = IndexError
           /\ exists y,
                In y document /\ tagname y = "section" /\ names y = [])
          \/ e = AssertionError \/ e = NotImplementedError.
Proof.
  intros H. destruct (__doc__ func) as [text|] eqn:Edoc.
  - right. exists text. split; [reflexivity|]. cbv zeta.
    destruct (docstring__parse_Raise func e H)
      as [[_ Hnone] | [(-> & text' & y & Hdoc & Hy) | Hrest]].
    + congruence.
    + left. split; [reflexivity|]. rewrite Edoc in Hdoc.
      injection Hdoc as <-. exists y. exact Hy.
    + right. exact Hrest.
  - left. unfold function_parser_docstring_numpy._parse in H.
    rewrite Edoc in H. injection H as <-. split; reflexivity.
Qed.

Lemma docstring_raises_only_witness :
  (NotImplementedError = TypeError /\ __doc__ sample_with_results = None)
  \/ exists text,
       __doc__ sample_with_results = Some text
       /\ let document := _parse_rst (Runtime := sample_runtime)
                            (dedent (Runtime := sample_runtime) text) in
          (NotImplementedError = IndexError
           /\ exists y,
                In y document /\ tagname y = "section" /\ names y = [])
          \/ NotImplementedError = AssertionError
          \/ NotImplementedError = NotImplementedError.
Proof.
  apply (docstring_raises_only (rt := sample_runtime) sample_with_results).
  reflexivity.
Defined.

(** X16: a section made of a title and a definition list is read into one
    record per item, from the last term and the last definition of the
    item: the text of the term before its colon is the name, the text after
    it the type, both stripped, and an empty type is [None].  The reading
    raises [AssertionError] when a child of the list is not an item, when an
    item lacks a term or a definition, or when the text of a term does not
    hold exactly one colon; it raises nothing else. *)
Theorem entries_of_section {rt : Runtime} (sec title dl : node) :
  children sec = [title; dl] ->
  tagname title = "title" -> tagname dl = "definition_list" ->
  function_parser_docstring_numpy.entries [sec]
  = if items_ok (children dl)
    then Ok (VList (map entry_of_item (children dl)))
    else Raise AssertionError.
Proof. apply entries_section. Qed.

Lemma entries_of_section_witness :
  function_parser_docstring_numpy.entries
    [Node "section" ["parameters"] "Parameters"
       [Node "title" [] "Parameters" [];
        Node "definition_list" [] ""
          [Node "definition_list_item" [] ""
             [Node "term" [] "x" []; Node "definition" [] "the input" []]]]]
  = Raise AssertionError.
Proof.
  apply (entries_of_section (rt := sample_runtime)
           (Node "section" ["parameters"] "Parameters"
              [Node "title" [] "Parameters" [];
               Node "definition_list" [] ""
                 [Node "definition_list_item" [] ""
                    [Node "term" [] "x" [];
                     Node "definition" [] "the input" []]]])
           (Node "title" [] "Parameters" [])
           (Node "definition_list" [] ""
              [Node "definition_list_item" [] ""
                 [Node "term" [] "x" []; Node "definition" [] "the input" []]]));
    reflexivity.
Defined.

(** X17: the sections named [yields] and [receives] do not show in what the
    documentation extractor returns or raises: two functions whose
    documents differ in such sections only are read alike. *)
Theorem hidden_sections_are_ignored {rt : Runtime} (func1 func2 : function)
    (text1 text2 : string) :
  __doc__ func1 = Some text1 -> __doc__ func2 = Some text2 ->
  filter (fun y => negb (hidden_section y)) (_parse_rst (dedent text1))
  = filter (fun y => negb (hidden_section y)) (_parse_rst (dedent text2)) ->
  function_parser_docstring_numpy._parse func1
  = function_parser_docstring_numpy._parse func2.
Proof. apply _parse_hidden. Qed.

Lemma hidden_sections_are_ignored_witness :
  function_parser_docstring_numpy._parse
    (rt := {| dedent := fun s => s;
              _parse_rst := fun doc =>
                if String.eqb doc "Doc."
                then [Node "paragraph" [] "Doc." []]
                else [Node "section" ["yields"] "Yields int" [];
                      Node "paragraph" [] "Doc." []];
              str_of_list := fun _ => "" |})
    sample_greet
  = function_parser_docstring_numpy._parse
      (rt := {| dedent := fun s => s;
                _parse_rst := fun doc =>
                  if String.eqb doc "Doc."
                  then [Node "paragraph" [] "Doc." []]
                  else [Node "section" ["yields"] "Yields int" [];
                        Node "paragraph" [] "Doc." []];
                str_of_list := fun _ => "" |})
      sample_with_results.
Proof.
  apply (hidden_sections_are_ignored
           (rt := {| dedent := fun s => s;
                     _parse_rst := fun doc =>
                       if String.eqb doc "Doc."
                       then [Node "paragraph" [] "Doc." []]
                       else [Node "section" ["yields"] "Yields int" [];
                             Node "paragraph" [] "Doc." []];
                     str_of_list := fun _ => "" |})
           sample_greet sample_with_results "Doc." "Doc. Results");
    reflexivity.
Defined.

(** X18: for a documented function whose document has no section named
    [parameters] or [results], and no section without a name, the
    documentation extractor returns the stripped text of the first
    paragraph as the short description and the stripped text of all the
    other nodes except the sections named [yields] and [receives] as the
    long description, each replaced by [None] when empty, and [None] for
    the parameters and the return information. *)
Theorem docstring_descriptions {rt : Runtime} (func : function) (text : string) :
  __doc__ func = Some text ->
  forallb no_entries (_parse_rst (dedent text)) = true ->
  function_parser_docstring_numpy._parse func
  = let d := filter (fun y => negb (hidden_section y))
                    (_parse_rst (dedent text)) in
    Ok (VList [match filter function_parser_docstring_numpy.is_paragraph d with
               | t1_0 :: _ => blank_to_None (strip (astext t1_0))
               | [] => VNone
               end;
               blank_to_None
                 (strip (document_astext
                           match filter function_parser_docstring_numpy.is_paragraph d with
                           | _ :: _ =>
                               function_parser_docstring_numpy.remove_first
                                 function_parser_docstring_numpy.is_paragraph d
                           | [] => d
                           end));
               VNone; VNone]).
Proof. apply _parse_descriptions. Qed.

Lemma docstring_descriptions_witness :
  function_parser_docstring_numpy._parse (rt := sample_runtime) sample_greet
  = Ok (VList [VStr "Doc."; VNone; VNone; VNone]).
Proof.
  apply (docstring_descriptions (rt := sample_runtime) sample_greet "Doc.");
    reflexivity.
Defined.

(** ** Type resolution and the declared arguments *)

Lemma totype_cases (t : pyval) :
  match totype t with
  | Ok T =>
      (isinstance_type t = true /\ T = t)
      \/ (isinstance_type t = false /\ In T (get_args t)
          /\ py_eq T NoneType = false)
  | Raise e => e = TypeError
  end.
Proof.
  unfold totype. destruct (isinstance_type t) eqn:Ht; [left; auto|].
  cbn [fst snd].
  destruct (py_eq (get_origin t) typing_Union && (List.length (get_args t) =? 2)
            && (List.length (filter (fun x => py_eq x NoneType) (get_args t)) =? 1))
    eqn:E; [|reflexivity].
  apply andb_prop in E as [E E1]. apply andb_prop in E as [_ E2].
  apply Nat.eqb_eq in E1, E2.
  destruct (filter (fun x => negb (py_eq x NoneType)) (get_args t))
    as [|x l] eqn:Ef.
  - exfalso. pose proof (filter_length (fun x => py_eq x NoneType) (get_args t))
      as Hlen.
    cbn beta in Hlen. rewrite Ef, E1, E2 in Hlen. discriminate.
  - right. split; [reflexivity|].
    assert (Hx : In x (filter (fun x => negb (py_eq x NoneType)) (get_args t)))
      by (rewrite Ef; left; reflexivity).
    apply filter_In in Hx as [Hin Hx]. apply negb_true_iff in Hx. auto.
Qed.

Lemma declare_argument_parameter (y : inspect.parameter) (h : pyval) :
  declare_argument
    (VTuple [VStr (inspect.name y); inspect.annotation y; h;
             function_parser_signature.optionality y])
  = (T <- totype (inspect.annotation y) ;; Ok (argument_of y h T)).
Proof.
  unfold declare_argument, function_parser_signature.optionality, argument_of.
  destruct (negb (py_eq (inspect.default y) _empty)); cbn;
    destruct (totype (inspect.annotation y)) as [T|]; cbn; try reflexivity.
  destruct (py_eq T py_bool); reflexivity.
Qed.

Lemma mapM_ext_in {A B : Type} (f g : A -> result B) (l : list A) :
  (forall x, In x l -> f x = g x) -> mapM f l = mapM g l.
Proof.
  induction l as [|x l IH]; intros H; [reflexivity|].
  rewrite !mapM_cons, (H x (or_introl eq_refl)),
    IH by (intros y Hy; apply H; right; exact Hy).
  reflexivity.
Qed.

Lemma mapM_of_map {A B C : Type} (f : B -> result C) (g : A -> B) (l : list A) :
  mapM f (map g l) = mapM (fun x => f (g x)) l.
Proof.
  induction l as [|x l IH]; [reflexivity|].
  cbn [map]. rewrite !mapM_cons, IH. reflexivity.
Qed.

(** X19: [totype] raises nothing but [TypeError], so the lookup of the
    member that is not the null type cannot fail; what it returns for a
    value that is not a plain type is a member of the union that differs
    from the null type. *)
Theorem totype_outcome (t : pyval) :
  match totype t with
  | Ok T =>
      (isinstance_type t = true /\ T = t)
      \/ (isinstance_type t = false /\ In T (get_args t)
          /\ py_eq T NoneType = false)
  | Raise e => e = TypeError
  end.
Proof. apply totype_cases. Qed.

(** X20: on metadata whose parameter records carry the name, the
    annotation and the optionality of parameters of a signature, the
    builder declares, in order, a flag [--name] for every parameter with a
    default ([store_true] when the annotation resolves to [bool], and the
    default of the signature otherwise) and a positional [name] for every
    parameter without; it raises what [totype] raises on the first
    annotation that does not resolve. *)
Theorem signature_parameters_declared (a0 a1 r : pyval)
    (phs : list (inspect.parameter * pyval)) :
  docstringparser_arguments
    (VList [a0; a1;
            VList (map (fun ph => VTuple [VStr (inspect.name (fst ph));
                                          inspect.annotation (fst ph);
                                          snd ph;
                                          function_parser_signature.optionality
                                            (fst ph)])
                       phs);
            r])
  = mapM (fun ph => T <- totype (inspect.annotation (fst ph)) ;;
                    Ok (argument_of (fst ph) (snd ph) T))
         phs.
Proof.
  unfold docstringparser_arguments. cbn [getitem nth_error bind py_iter].
  rewrite mapM_of_map. apply mapM_ext_in. intros ph _.
  apply declare_argument_parameter.
Qed.

(** X21: metadata of the documentation extractor alone declares no
    argument: on it the builder raises [TypeError], unless the Parameters
    section is there and empty. *)
Theorem docstring_metadata_declares_nothing {rt : Runtime} (depth : nat)
    (func : function) (ans : pyval) :
  parse depth parser_docstring_numpy func = Ok ans ->
  docstringparser_arguments ans = Raise TypeError
  \/ (docstringparser_arguments ans = Ok []
      /\ getitem ans 2 = Ok (VList [])).
Proof.
  rewrite docstring_parse_is__parse. intros H.
  apply docstring__parse_form in H as (short & long & p & -> & Hp).
  unfold docstringparser_arguments. cbn [getitem nth_error bind].
  destruct Hp as [-> | ([|[[n t] f] ntfs] & ->)].
  - left. reflexivity.
  - right. split; reflexivity.
  - left. reflexivity.
Qed.

Lemma docstring_metadata_declares_nothing_witness :
  docstringparser_arguments
    (VList [VStr "Doc."; VNone;
            VList [VTuple [VStr "x"; VStr "int"; VStr "the input"; VNone]];
            VNone])
  = Raise TypeError
  \/ (docstringparser_arguments
        (VList [VStr "Doc."; VNone;
                VList [VTuple [VStr "x"; VStr "int"; VStr "the input"; VNone]];
                VNone])
      = Ok []
      /\ getitem
           (VList [VStr "Doc."; VNone;
                   VList [VTuple [VStr "x"; VStr "int"; VStr "the input";
                                  VNone]];
                   VNone]) 2
         = Ok (VList [])).
Proof.
  apply (docstring_metadata_declares_nothing (rt := sample_parameters_runtime)
           3 (sample_double "x: int")).
  reflexivity.
Defined.

(** ** Dispatch and discovery *)

Lemma foldM_ext_in {A S : Type} (f g : S -> A -> result S) (l : list A) (s : S) :
  (forall s x, In x l -> f s x = g s x) -> foldM f l s = foldM g l s.
Proof.
  revert s. induction l as [|x l IH]; intros s H; [reflexivity|].
  rewrite !foldM_cons, (H s x (or_introl eq_refl)).
  destruct (g s x) as [s'|]; [|reflexivity]. cbn [bind].
  apply IH. intros s0 y Hy. apply H. right. exact Hy.
Qed.

Lemma getattr_agree (args1 args2 : Namespace) (x : pyval) :
  (forall n, x = VStr n ->
     dict_get n (attributes args1) = dict_get n (attributes args2)) ->
  getattr args1 x = getattr args2 x.
Proof.
  intros H. destruct x; try reflexivity. cbn [getattr].
  rewrite (H s eq_refl). reflexivity.
Qed.

Lemma recorded_parameters_fullname (funcs : list (string * (function * pyval)))
    (args1 args2 : Namespace) :
  _fullname args1 = _fullname args2 ->
  recorded_parameters funcs args2 = recorded_parameters funcs args1.
Proof. intros H. unfold recorded_parameters. rewrite H. reflexivity. Qed.

Lemma run_args_agree (funcs : list (string * (function * pyval)))
    (args1 args2 : Namespace) :
  _func args1 = _func args2 -> _fullname args1 = _fullname args2 ->
  (forall xs x n,
     recorded_parameters funcs args1 = Ok xs -> In x xs ->
     getitem x 0 = Ok (VStr n) ->
     dict_get n (attributes args1) = dict_get n (attributes args2)) ->
  run_args funcs args1 = run_args funcs args2.
Proof.
  intros Hfunc Hname H. unfold run_args.
  rewrite (recorded_parameters_fullname funcs args1 args2 Hname).
  destruct (recorded_parameters funcs args1) as [xs|] eqn:E; [|reflexivity].
  cbn [bind].
  assert (Hattr : forall x x_0, In x xs -> getitem x 0 = Ok x_0 ->
                    getattr args1 x_0 = getattr args2 x_0).
  { intros x x_0 Hx Hx0. apply getattr_agree. intros n ->.
    apply (H xs x n eq_refl Hx Hx0). }
  rewrite (foldM_ext_in _
             (fun a x =>
                x_3 <- getitem x 3 ;;
                o <- getitem x_3 0 ;;
                if negb (truthy o)
                then x_0 <- getitem x 0 ;;
                     v <- getattr args2 x_0 ;;
                     Ok (a ++ [v])
                else Ok a) xs []).
  2:{ intros a x Hx. destruct (getitem x 3) as [x_3|]; [|reflexivity].
      cbn [bind]. destruct (getitem x_3 0) as [o|]; [|reflexivity].
      cbn [bind]. destruct (negb (truthy o)); [|reflexivity].
      destruct (getitem x 0) as [x_0|] eqn:E0; [|reflexivity]. cbn [bind].
      rewrite (Hattr x x_0 Hx E0). reflexivity. }
  destruct (foldM _ xs []) as [a|]; [|reflexivity]. cbn [bind].
  rewrite (foldM_ext_in _
             (fun ka x =>
                x_3 <- getitem x 3 ;;
                o <- getitem x_3 0 ;;
                if truthy o
                then x_0 <- getitem x 0 ;;
                     v <- getattr args2 x_0 ;;
                     k <- as_str x_0 ;;
                     Ok (dict_set k v ka)
                else Ok ka) xs []).
  2:{ intros ka x Hx. destruct (getitem x 3) as [x_3|]; [|reflexivity].
      cbn [bind]. destruct (getitem x_3 0) as [o|]; [|reflexivity].
      cbn [bind]. destruct (truthy o); [|reflexivity].
      destruct (getitem x 0) as [x_0|] eqn:E0; [|reflexivity]. cbn [bind].
      rewrite (Hattr x x_0 Hx E0). reflexivity. }
  rewrite Hfunc. reflexivity.
Qed.

Lemma dict_get_dict_set {V : Type} (k x : string) (v : V) (d : list (string * V)) :
  dict_get x (dict_set k v d) = if String.eqb k x then Some v else dict_get x d.
Proof.
  destruct (String.eqb_spec k x) as [->|Hk].
  - induction d as [|[k0 v0] d IH]; cbn.
    + rewrite String.eqb_refl. reflexivity.
    + destruct (String.eqb_spec x k0) as [->|Hx]; cbn.
      * rewrite String.eqb_refl. reflexivity.
      * destruct (String.eqb_spec x k0); [contradiction | exact IH].
  - apply dict_set_get_other. congruence.
Qed.

Lemma by_name_snoc (ans : list (function * list string))
    (xy : function * list string) :
  by_name (ans ++ [xy])
  = dict_set (String.concat "." (snd xy)) (fst xy) (by_name ans).
Proof. unfold by_name. rewrite fold_left_app. reflexivity. Qed.

Lemma by_name_find (ans : list (function * list string)) (k : string) :
  dict_get k (by_name ans)
  = option_map fst
      (find (fun xy => String.eqb (String.concat "." (snd xy)) k) (rev ans)).
Proof.
  induction ans as [|xy ans IH] using rev_ind; [reflexivity|].
  rewrite by_name_snoc, dict_get_dict_set, rev_app_distr. cbn [rev app find].
  destruct (String.eqb _ k); [reflexivity | exact IH].
Qed.

Section discovery.
Variable parse_func : function -> result pyval.
Variable errskip : list exn.

Lemma parse_all_parsed (l : list (string * function))
    (r : list (string * (function * pyval))) :
  mapM (fun '(x, y) => m <- parse_func y ;; Ok (x, (y, m))) l = Ok r ->
  r = parsed parse_func l.
Proof.
  revert r. induction l as [|[x y] l IH]; intros r H.
  - injection H as <-. reflexivity.
  - rewrite mapM_cons in H. apply bind_Ok in H as ([x' ym] & Hy & H).
    apply bind_Ok in H as (r' & Hr' & H). injection H as <-.
    cbn [parsed flat_map fst snd].
    destruct (parse_func y) as [m|]; [|discriminate].
    injection Hy as <- <-. rewrite (IH r' Hr'). reflexivity.
Qed.

Lemma parse_all_Raise (l : list (string * function)) (e : exn) :
  mapM (fun '(x, y) => m <- parse_func y ;; Ok (x, (y, m))) l = Raise e ->
  exists x y, In (x, y) l /\ parse_func y = Raise e.
Proof.
  intros H. apply mapM_Raise in H as ([x y] & Hin & H).
  exists x, y. split; [exact Hin|].
  destruct (parse_func y); [discriminate | cbn [bind] in H; injection H as <-; reflexivity].
Qed.

Lemma parse_skip_parsed (l : list (string * function))
    (ans_f r : list (string * (function * pyval))) :
  NoDup (map fst ans_f ++ map fst l) ->
  foldM (fun ans_f '(x, y) =>
           match parse_func y with
           | Ok m => Ok (dict_set x (y, m) ans_f)
           | Raise e => if caught_by errskip e then Ok ans_f else Raise e
           end) l ans_f = Ok r ->
  r = ans_f ++ parsed parse_func l.
Proof.
  revert ans_f. induction l as [|[x y] l IH]; intros ans_f Hnd H.
  - injection H as <-. cbn. rewrite app_nil_r. reflexivity.
  - rewrite foldM_cons in H. apply bind_Ok in H as (ans_f' & Hstep & H).
    cbn [parsed flat_map fst snd]. fold (parsed parse_func l).
    assert (Hfresh : ~ In x (map fst ans_f)).
    { intros Hin. cbn [map fst] in Hnd. apply NoDup_remove_2 in Hnd.
      apply Hnd, in_or_app. left. exact Hin. }
    destruct (parse_func y) as [m|e].
    + injection Hstep as <-. rewrite (dict_set_fresh _ _ _ Hfresh) in H.
      apply IH in H.
      * rewrite H, <- app_assoc. reflexivity.
      * rewrite map_app, <- app_assoc. exact Hnd.
    + destruct (caught_by errskip e); [|discriminate].
      injection Hstep as <-. apply IH in H; [exact H|].
      cbn [map fst] in Hnd. eapply NoDup_remove_1, Hnd.
Qed.

Lemma parse_skip_Raise (l : list (string * function))
    (ans_f : list (string * (function * pyval))) (e : exn) :
  foldM (fun ans_f '(x, y) =>
           match parse_func y with
           | Ok m => Ok (dict_set x (y, m) ans_f)
           | Raise e => if caught_by errskip e then Ok ans_f else Raise e
           end) l ans_f = Raise e ->
  exists x y, In (x, y) l /\ parse_func y = Raise e
              /\ caught_by errskip e = false.
Proof.
  intros H. apply foldM_Raise in H as (s' & [x y] & Hin & H).
  exists x, y. split; [exact Hin|].
  destruct (parse_func y) as [m|e']; [discriminate|].
  destruct (caught_by errskip e') eqn:E; [discriminate|].
  injection H as <-. auto.
Qed.

Lemma discovery_Ok (ans : list (function * list string))
    (r : list (string * (function * pyval))) :
  get_functions_raw_ans_f parse_func errskip ans = Ok r ->
  r = parsed parse_func (by_name ans).
Proof.
  unfold get_functions_raw_ans_f.
  destruct (List.length errskip =? 0); intros H.
  - apply parse_all_parsed, H.
  - apply (parse_skip_parsed (by_name ans) [] r); [|exact H].
    apply by_name_NoDup.
Qed.

Lemma discovery_Raise (ans : list (function * list string)) (e : exn) :
  get_functions_raw_ans_f parse_func errskip ans = Raise e ->
  exists x y,
    dict_get x (by_name ans) = Some y /\ parse_func y = Raise e
    /\ caught_by errskip e = false.
Proof.
  unfold get_functions_raw_ans_f.
  destruct (List.length errskip =? 0) eqn:El; intros H.
  - apply parse_all_Raise in H as (x & y & Hin & H). exists x, y.
    split; [|split; [exact H|]].
    + destruct (dict_get x (by_name ans)) as [y'|] eqn:E.
      * f_equal. symmetry.
        eapply dict_get_unique; [apply by_name_NoDup | exact E | exact Hin].
      * exfalso. clear - E Hin. induction (by_name ans) as [|[k v] d IH];
          [contradiction|].
        cbn in E. destruct (String.eqb_spec x k) as [->|Hk]; [discriminate|].
        destruct Hin as [Heq | Hin]; [congruence | auto].
    + destruct errskip; [reflexivity | discriminate].
  - apply parse_skip_Raise in H as (x & y & Hin & H & Hc). exists x, y.
    split; [|auto].
    destruct (dict_get x (by_name ans)) as [y'|] eqn:E.
    + f_equal. symmetry.
      eapply dict_get_unique; [apply by_name_NoDup | exact E | exact Hin].
    + exfalso. clear - E Hin. induction (by_name ans) as [|[k v] d IH];
        [contradiction|].
      cbn in E. destruct (String.eqb_spec x k) as [->|Hk]; [discriminate|].
      destruct Hin as [Heq | Hin]; [congruence | auto].
Qed.

End discovery.

(** X22: [run_args] reads, of the parsed arguments, the callable, the full
    name and the attributes named by the recorded parameters of that
    function, and nothing else: two namespaces that agree on these make it
    return or raise the same. *)
Theorem run_args_ignores_other_attributes
    (funcs : list (string * (function * pyval))) (args1 args2 : Namespace) :
  _func args1 = _func args2 -> _fullname args1 = _fullname args2 ->
  (forall xs x n,
     recorded_parameters funcs args1 = Ok xs -> In x xs ->
     getitem x 0 = Ok (VStr n) ->
     dict_get n (attributes args1) = dict_get n (attributes args2)) ->
  run_args funcs args1 = run_args funcs args2.
Proof. apply run_args_agree. Qed.

Lemma run_args_ignores_other_attributes_witness :
  run_args [("pkg.tools.greet", (sample_greet, sample_metadata))]
    sample_namespace
  = run_args [("pkg.tools.greet", (sample_greet, sample_metadata))]
      {| _func := sample_call;
         _fullname := "pkg.tools.greet";
         attributes := [("subcommand_1", VStr "tools");
                        ("subcommand_2", VStr "greet");
                        ("name", VStr "Ada"); ("loud", VBool true)] |}.
Proof.
  apply (run_args_ignores_other_attributes
           [("pkg.tools.greet", (sample_greet, sample_metadata))]
           sample_namespace
           {| _func := sample_call;
              _fullname := "pkg.tools.greet";
              attributes := [("subcommand_1", VStr "tools");
                             ("subcommand_2", VStr "greet");
                             ("name", VStr "Ada"); ("loud", VBool true)] |});
    [reflexivity | reflexivity|].
  intros xs x n Hxs Hx Hn. injection Hxs as <-.
  destruct Hx as [<- | [<- | []]]; injection Hn as <-; reflexivity.
Defined.

(** X23: in the dict of the collected functions, a dotted name maps to the
    function collected last under that name, and to nothing when no
    function was collected under it. *)
Theorem by_name_last_wins (ans : list (function * list string)) (k : string) :
  dict_get k (by_name ans)
  = option_map fst
      (find (fun xy => String.eqb (String.concat "." (snd xy)) k) (rev ans)).
Proof. apply by_name_find. Qed.

(** X24: when discovery returns, with or without skip-list, its dict holds
    exactly the collected functions whose metadata [parse] returns, each
    with that metadata, in the order of the dict of the collected
    functions. *)
Theorem discovery_returns_parsed (parse_func : function -> result pyval)
    (errskip : list exn) (ans : list (function * list string))
    (r : list (string * (function * pyval))) :
  get_functions_raw_ans_f parse_func errskip ans = Ok r ->
  r = parsed parse_func (by_name ans).
Proof. apply discovery_Ok. Qed.

Lemma discovery_returns_parsed_witness :
  [("pkg.tools.greet", (sample_greet, sample_metadata))]
  = parsed (parse (rt := sample_runtime) 5 docstringrunner_parser_func)
      (by_name [(sample_undocumented, ["pkg"; "quiet"]);
                (sample_greet, ["pkg"; "tools"; "greet"])]).
Proof.
  apply (discovery_returns_parsed
           (parse (rt := sample_runtime) 5 docstringrunner_parser_func)
           [TypeError]
           [(sample_undocumented, ["pkg"; "quiet"]);
            (sample_greet, ["pkg"; "tools"; "greet"])]).
  reflexivity.
Defined.

(** X25: an exception that discovery raises was raised by [parse] on one of
    the collected functions and is not caught by the skip-list. *)
Theorem discovery_raises_uncaught (parse_func : function -> result pyval)
    (errskip : list exn) (ans : list (function * list string)) (e : exn) :
  get_functions_raw_ans_f parse_func errskip ans = Raise e ->
  exists x y,
    dict_get x (by_name ans) = Some y /\ parse_func y = Raise e
    /\ caught_by errskip e = false.
Proof. apply discovery_Raise. Qed.

Lemma discovery_raises_uncaught_witness :
  exists x y,
    dict_get x (by_name [(sample_undocumented, ["pkg"; "quiet"]);
                         (sample_greet, ["pkg"; "tools"; "greet"])])
    = Some y
    /\ parse (rt := sample_runtime) 5 docstringrunner_parser_func y
       = Raise TypeError
    /\ caught_by [AssertionError] TypeError = false.
Proof.
  apply (discovery_raises_uncaught
           (parse (rt := sample_runtime) 5 docstringrunner_parser_func)
           [AssertionError]
           [(sample_undocumented, ["pkg"; "quiet"]);
            (sample_greet, ["pkg"; "tools"; "greet"])]
           TypeError).
  reflexivity.
Defined.

(** ** Dotted names *)

Lemma split_nonempty (sep : ascii) (s : string) : split sep s <> [].
Proof.
  destruct s as [|c s]; cbn; [discriminate|].
  destruct (Ascii.eqb c sep); [discriminate|].
  destruct (split sep s); discriminate.
Qed.

Lemma join_cons (c : string) (l : list string) :
  l <> [] -> join (c :: l) = (c ++ "." ++ join l)%string.
Proof. destruct l; [contradiction | reflexivity]. Qed.

Lemma join_String (a : ascii) (w : string) (ws : list string) :
  join (String a w :: ws) = String a (join (w :: ws)).
Proof. destruct ws; reflexivity. Qed.

Lemma join_split (s : string) : join (split "." s) = s.
Proof.
  induction s as [|a s IH]; [reflexivity|]. cbn [split].
  destruct (Ascii.eqb a ".") eqn:E.
  - apply Ascii.eqb_eq in E. subst a.
    rewrite join_cons by apply split_nonempty. rewrite IH. reflexivity.
  - destruct (split "." s) as [|w ws] eqn:Es;
      [exfalso; eapply split_nonempty, Es|].
    rewrite join_String, IH. reflexivity.
Qed.

(** A component holds no dot: splitting it gives itself. *)
Lemma split_components (s : string) :
  Forall (fun c => split "." c = [c]) (split "." s).
Proof.
  induction s as [|a s IH]; [repeat constructor|]. cbn [split].
  destruct (Ascii.eqb a ".") eqn:E.
  - constructor; [reflexivity | exact IH].
  - destruct (split "." s) as [|w ws]; [repeat constructor; cbn; rewrite E; reflexivity|].
    inversion IH as [|? ? Hw Hws]; subst. constructor; [|exact Hws].
    cbn [split]. rewrite E, Hw. reflexivity.
Qed.

Lemma split_component_app (c r : string) :
  split "." c = [c] -> split "." (c ++ "." ++ r) = c :: split "." r.
Proof.
  induction c as [|a c IH]; intros H; [reflexivity|].
  cbn [split append] in *.
  destruct (Ascii.eqb a ".") eqn:E.
  - exfalso. injection H as H _. discriminate.
  - destruct (split "." c) as [|w ws] eqn:Ec;
      [exfalso; eapply split_nonempty, Ec|].
    injection H as Hw Hws. subst w ws. rewrite IH by reflexivity. reflexivity.
Qed.

Lemma split_join (l : list string) :
  l <> [] -> Forall (fun c => split "." c = [c]) l -> split "." (join l) = l.
Proof.
  induction l as [|c l IH]; intros Hne H; [contradiction|].
  inversion H as [|? ? Hc Hl]; subst.
  destruct l as [|c' l]; [exact Hc|].
  rewrite join_cons by discriminate.
  rewrite (split_component_app _ _ Hc), IH by (discriminate || exact Hl).
  reflexivity.
Qed.

Lemma Forall_firstn {A : Type} (P : A -> Prop) (n : nat) (l : list A) :
  Forall P l -> Forall P (firstn n l).
Proof.
  intros H. revert n. induction H as [|x l Hx _ IH]; intros [|n]; cbn;
    constructor; auto.
Qed.

(** The parent of a prefix of a dotted name. *)
Lemma parent_of_prefix (xi : string) (j : nat) :
  j < List.length (split "." xi) ->
  join (removelast (split "." (join (firstn (S j) (split "." xi)))))
  = join (firstn j (split "." xi)).
Proof.
  intros Hj. rewrite split_join.
  - rewrite removelast_firstn by exact Hj. reflexivity.
  - destruct (split "." xi); [cbn in Hj; lia | discriminate].
  - apply Forall_firstn, split_components.
Qed.

(** ** The dicts of the builder *)

Lemma dict_in_dict_set {V : Type} (k x : string) (v : V) (d : list (string * V)) :
  dict_in x (dict_set k v d) = String.eqb k x || dict_in x d.
Proof.
  unfold dict_in. rewrite dict_get_dict_set.
  destruct (String.eqb k x); reflexivity.
Qed.

Lemma dict_item_in {V : Type} (d : list (string * V)) (k : string) :
  dict_in k d = true -> exists v, dict_item d k = Ok v.
Proof.
  unfold dict_in, dict_item. destruct (dict_get k d); [eauto | discriminate].
Qed.

Lemma dict_get_of_In {V : Type} (k : string) (v : V) (d : list (string * V)) :
  NoDup (map fst d) -> In (k, v) d -> dict_get k d = Some v.
Proof.
  intros Hnd Hin. destruct (dict_get k d) as [v'|] eqn:E.
  - f_equal. symmetry. eapply dict_get_unique; eassumption.
  - exfalso. clear Hnd. induction d as [|[k0 v0] d IH]; [contradiction|].
    cbn in E. destruct (String.eqb_spec k k0) as [->|Hk]; [discriminate|].
    destruct Hin as [Heq | Hin]; [congruence | auto].
Qed.

Lemma dict_in_keys {V : Type} (k : string) (d : list (string * V)) :
  In k (map fst d) -> dict_in k d = true.
Proof.
  unfold dict_in. induction d as [|[k0 v0] d IH]; [contradiction|].
  cbn. destruct (String.eqb_spec k k0); [reflexivity|].
  intros [H | H]; [congruence | exact (IH H)].
Qed.

(** ** The steps of the builder *)

Lemma calls_on_app (id : nat) (cs cs' : list argparse_call) :
  calls_on id (cs ++ cs') = calls_on id cs ++ calls_on id cs'.
Proof. apply filter_app. Qed.

Lemma calls_on_arguments (id i : nat) (args : list add_argument) :
  calls_on i (map (add_argument_to id) args)
  = if id =? i then map (add_argument_to id) args else [].
Proof.
  induction args as [|a args IH]; [destruct (id =? i); reflexivity|].
  cbn [map calls_on filter]. fold (calls_on i (map (add_argument_to id) args)).
  rewrite IH. destruct (id =? i); reflexivity.
Qed.

Lemma module_step_Ok (m : list (string * pyval)) (t1 : list string)
    (st st' : parsers) (xj : nat) :
  module_step m t1 st xj = Ok st' ->
  (dict_in (join (firstn xj t1)) (dict_p st) = true /\ st' = st)
  \/ (dict_in (join (firstn xj t1)) (dict_p st) = false
      /\ exists ps_t3 help,
           dict_get (join (removelast (split "." (join (firstn xj t1)))))
                    (dict_ps st) = Some ps_t3
           /\ st' = {| dict_p := dict_set (join (firstn xj t1))
                                (List.length (calls st)) (dict_p st);
                    dict_ps := dict_set (join (firstn xj t1))
                                 (S (List.length (calls st))) (dict_ps st);
                    calls := calls st
                             ++ [add_parser ps_t3
                                   (last (split "." (join (firstn xj t1)))
                                         EmptyString)
                                   help None;
                                 add_subparsers (List.length (calls st))
                                   (subcommand xj)] |}).
Proof.
  unfold module_step. destruct (dict_in _ (dict_p st)) eqn:E; intros H.
  - left. injection H as <-. auto.
  - right. split; [reflexivity|].
    apply bind_Ok in H as (u & _ & H).
    apply bind_Ok in H as (m_t2 & _ & H).
    apply bind_Ok in H as (ps_t3 & Hps & H).
    cbn [called calls dict_p dict_ps] in H. injection H as <-.
    exists ps_t3. eexists. split.
    + unfold dict_item in Hps. destruct (dict_get _ (dict_ps st));
        [injection Hps as ->; reflexivity | discriminate].
    + rewrite length_app, Nat.add_comm, <- app_assoc. reflexivity.
Qed.

(** The loop over the parent modules only adds parsers and groups of
    subparsers, under names that were not in [p]. *)
Lemma module_loop_Ok (m : list (string * pyval)) (t1 : list string)
    (l : list nat) (st st' : parsers) :
  foldM (module_step m t1) l st = Ok st' ->
  exists mods,
    calls st' = calls st ++ mods
    /\ (forall i, calls_on i mods = [])
    /\ (forall k i, dict_get k (dict_p st) = Some i ->
                    dict_get k (dict_p st') = Some i).
Proof.
  revert st. induction l as [|xj l IH]; intros st H.
  - injection H as <-. exists []. rewrite app_nil_r. auto.
  - rewrite foldM_cons in H. apply bind_Ok in H as (st1 & Hstep & H).
    destruct (IH st1 H) as (mods & Hcalls & Hon & Hp).
    apply module_step_Ok in Hstep as [[_ ->] | (Hfresh & ps_t3 & help & _ & ->)];
      [exists mods; auto|].
    cbn [calls dict_p] in *. eexists. split; [|split].
    + rewrite Hcalls, <- app_assoc. reflexivity.
    + intros i. rewrite calls_on_app, Hon. reflexivity.
    + intros k i Hk. apply Hp. cbn [dict_p].
      rewrite dict_set_get_other; [exact Hk|].
      intros ->. unfold dict_in in Hfresh. rewrite Hk in Hfresh. discriminate.
Qed.

Lemma function_step_Ok (linesep pkgname : string) (nlv : nat)
    (f : list (string * (function * pyval))) (m : list (string * pyval))
    (st st' : parsers) (xi : string) :
  function_step linesep pkgname nlv f m st xi = Ok st' ->
  exists func p0 stm ps_t2 help desc args a0 a1,
    dict_get xi f = Some (func, p0)
    /\ nlv < List.length (split "." xi)
    /\ join (firstn nlv (split "." xi)) = pkgname
    /\ foldM (module_step m (split "." xi))
             (seq nlv (List.length (split "." xi) - nlv)) st = Ok stm
    /\ dict_get (join (removelast (split "." xi))) (dict_ps stm) = Some ps_t2
    /\ docstringparser_arguments p0 = Ok args
    /\ getitem p0 0 = Ok a0 /\ function_parser_base.str_or_None a0 = true
    /\ getitem p0 1 = Ok a1 /\ function_parser_base.str_or_None a1 = true
    /\ st' = {| dict_p := dict_set xi (List.length (calls stm)) (dict_p stm);
                dict_ps := dict_ps stm;
                calls := calls stm
                         ++ add_parser ps_t2 (last (split "." xi) EmptyString)
                              help (Some desc)
                            :: map (add_argument_to (List.length (calls stm)))
                                   args
                         ++ [set_defaults (List.length (calls stm)) func xi] |}.
Proof.
  unfold function_step. intros H.
  apply bind_Ok in H as ([func p0] & Hf & H).
  apply bind_Ok in H as (u1 & H1 & H). apply assert_Ok, Nat.ltb_lt in H1.
  apply bind_Ok in H as (u2 & H2 & H). apply assert_Ok, String.eqb_eq in H2.
  apply bind_Ok in H as (stm & Hstm & H).
  apply bind_Ok in H as (a0 & Ha0 & H).
  apply bind_Ok in H as ([help desc0] & Hhelp & H).
  apply bind_Ok in H as (a1 & Ha1 & H).
  apply bind_Ok in H as (desc & Hdesc & H).
  apply bind_Ok in H as (ps_t2 & Hps & H).
  cbn [called calls dict_p dict_ps] in H.
  apply bind_Ok in H as (args & Hargs & H).
  cbn [called calls dict_p dict_ps snd] in H. injection H as <-.
  exists func, p0, stm, ps_t2, help, desc, args, a0, a1.
  unfold dict_item in Hf, Hps.
  destruct (dict_get xi f) as [e|]; [injection Hf as ->|discriminate].
  destruct (dict_get _ (dict_ps stm)) as [i|]; [injection Hps as ->|discriminate].
  repeat split; try assumption.
  - destruct a0; try reflexivity; cbn in Hhelp; discriminate.
  - destruct a1; try reflexivity; cbn in Hdesc; discriminate.
  - f_equal. rewrite <- !app_assoc. reflexivity.
Qed.

Lemma function_step_leaves (linesep pkgname : string) (nlv : nat)
    (f : list (string * (function * pyval))) (m : list (string * pyval))
    (st st' : parsers) (xi : string) :
  function_step linesep pkgname nlv f m st xi = Ok st' ->
  (forall i, List.length (calls st) <= i -> calls_on i (calls st) = []) ->
  (forall i, List.length (calls st') <= i -> calls_on i (calls st') = [])
  /\ (exists func p0, dict_get xi f = Some (func, p0) /\ leaf_of xi func p0 st')
  /\ (forall xi' func' p0',
        xi' <> xi -> leaf_of xi' func' p0' st -> leaf_of xi' func' p0' st').
Proof.
  intros H Hwf.
  apply function_step_Ok in H
    as (func & p0 & stm & ps_t2 & help & desc & args & a0 & a1 & Hf & _ & _
        & Hstm & _ & Hargs & _ & _ & _ & _ & ->).
  apply module_loop_Ok in Hstm as (mods & Hcalls & Hon & Hp).
  cbn [calls dict_p].
  assert (Hlen : List.length (calls st) <= List.length (calls stm)).
  { rewrite Hcalls, length_app. lia. }
  assert (Hstm : forall i, List.length (calls st) <= i ->
                           calls_on i (calls stm) = []).
  { intros i Hi. rewrite Hcalls, calls_on_app, Hon, (Hwf i Hi). reflexivity. }
  assert (Hnew : forall i,
             calls_on i
               (add_parser ps_t2 (last (split "." xi) EmptyString) help (Some desc)
                :: map (add_argument_to (List.length (calls stm))) args
                ++ [set_defaults (List.length (calls stm)) func xi])
             = if List.length (calls stm) =? i
               then map (add_argument_to (List.length (calls stm))) args
                    ++ [set_defaults (List.length (calls stm)) func xi]
               else []).
  { intros i. change (calls_on i (?c :: ?l)) with (calls_on i l).
    rewrite calls_on_app, calls_on_arguments. cbn [calls_on filter].
    destruct (List.length (calls stm) =? i); reflexivity. }
  split; [|split].
  - intros i Hi. rewrite calls_on_app, Hnew.
    rewrite length_app in Hi. cbn [List.length] in Hi.
    rewrite Hstm by lia.
    destruct (Nat.eqb_spec (List.length (calls stm)) i); [lia | reflexivity].
  - exists func, p0. split; [exact Hf|].
    exists (List.length (calls stm)), ps_t2, help, (Some desc), args.
    cbn [calls dict_p]. split; [|split; [|split]].
    + rewrite dict_get_dict_set, String.eqb_refl. reflexivity.
    + rewrite nth_error_app2, Nat.sub_diag by lia. reflexivity.
    + exact Hargs.
    + rewrite calls_on_app, Hnew, Nat.eqb_refl, Hstm by lia. reflexivity.
  - intros xi' func' p0' Hne (id & sp & h & d & args' & Hid & Hnth & Hargs' & Hcs).
    assert (Hlt : id < List.length (calls st)).
    { apply nth_error_Some. rewrite Hnth. discriminate. }
    exists id, sp, h, d, args'. cbn [calls dict_p].
    split; [|split; [|split]].
    + rewrite dict_set_get_other by exact Hne. apply Hp, Hid.
    + rewrite nth_error_app1 by lia. rewrite Hcalls, nth_error_app1 by lia.
      exact Hnth.
    + exact Hargs'.
    + rewrite calls_on_app, Hnew.
      destruct (Nat.eqb_spec (List.length (calls stm)) id); [lia|].
      rewrite app_nil_r, Hcalls, calls_on_app, Hon, app_nil_r. exact Hcs.
Qed.

Lemma string_app_assoc (a b c : string) :
  ((a ++ b) ++ c)%string = (a ++ (b ++ c))%string.
Proof.
  induction a as [|x a IH]; [reflexivity|]. cbn [append]. rewrite IH.
  reflexivity.
Qed.

Lemma join_app (a b : list string) :
  a <> [] -> b <> [] -> join (a ++ b) = (join a ++ "." ++ join b)%string.
Proof.
  induction a as [|x a IH]; intros Ha Hb; [contradiction|].
  destruct a as [|y a].
  - cbn [app]. apply join_cons, Hb.
  - change ((x :: y :: a) ++ b) with (x :: ((y :: a) ++ b)).
    rewrite join_cons by discriminate. rewrite IH by (discriminate || exact Hb).
    rewrite (join_cons x (y :: a)) by discriminate.
    rewrite !string_app_assoc. reflexivity.
Qed.

Lemma split_app_dot (a b : string) :
  split "." (a ++ "." ++ b) = split "." a ++ split "." b.
Proof.
  induction a as [|c a IH]; [reflexivity|].
  change (String c a ++ "." ++ b)%string with (String c (a ++ "." ++ b)).
  cbn [split]. rewrite IH.
  destruct (Ascii.eqb c "."); [reflexivity|].
  destruct (split "." a) as [|w ws] eqn:Ea;
    [exfalso; eapply split_nonempty, Ea | reflexivity].
Qed.

(** A name below the package, by its components and as a string. *)
Lemma below_package (pkgname xi : string) :
  List.length (split "." pkgname) < List.length (split "." xi)
  /\ join (firstn (List.length (split "." pkgname)) (split "." xi)) = pkgname
  <-> exists rest, xi = (pkgname ++ "." ++ rest)%string.
Proof.
  split.
  - intros [Hlen Hjoin].
    exists (join (skipn (List.length (split "." pkgname)) (split "." xi))).
    rewrite <- Hjoin at 1. rewrite <- join_app.
    + rewrite firstn_skipn, join_split. reflexivity.
    + pose proof (split_nonempty "." pkgname) as Hne.
      destruct (split "." pkgname); [contradiction|].
      destruct (split "." xi); [cbn in Hlen; lia | discriminate].
    + intros H. apply (f_equal (@List.length string)) in H.
      rewrite length_skipn in H. cbn in H. lia.
  - intros (rest & ->). rewrite split_app_dot, length_app.
    pose proof (split_nonempty "." rest) as Hne.
    split.
    + destruct (split "." rest); [contradiction | cbn; lia].
    + rewrite firstn_app, Nat.sub_diag, firstn_all, app_nil_r.
      apply join_split.
Qed.

Lemma foldM_Ok_In {A S : Type} (body : S -> A -> result S) (l : list A)
    (s s' : S) :
  foldM body l s = Ok s' ->
  forall x, In x l -> exists s1 s2, body s1 x = Ok s2.
Proof.
  revert s. induction l as [|y l IH]; intros s H x Hx; [contradiction|].
  rewrite foldM_cons in H. apply bind_Ok in H as (s1 & Hy & H).
  destruct Hx as [<- | Hx]; [eauto | eapply IH; eassumption].
Qed.

Section builder.
Variable linesep pkgname : string.
Variable f : list (string * (function * pyval)).
Variable m : list (string * pyval).

Let nlv : nat := List.length (split "." pkgname).

Lemma functions_loop_leaves (l : list string) (st st' : parsers) :
  foldM (function_step linesep pkgname nlv f m) l st = Ok st' ->
  NoDup l ->
  (forall i, List.length (calls st) <= i -> calls_on i (calls st) = []) ->
  (forall i, List.length (calls st') <= i -> calls_on i (calls st') = [])
  /\ (forall xi, In xi l ->
        exists func p0, dict_get xi f = Some (func, p0) /\ leaf_of xi func p0 st')
  /\ (forall xi func p0,
        ~ In xi l -> leaf_of xi func p0 st -> leaf_of xi func p0 st').
Proof.
  revert st. induction l as [|xi l IH]; intros st H Hnd Hwf.
  - injection H as <-. split; [exact Hwf|]. split; [contradiction | auto].
  - rewrite foldM_cons in H. apply bind_Ok in H as (st1 & Hstep & H).
    inversion Hnd as [|? ? Hfresh Hnd']; subst.
    destruct (function_step_leaves _ _ _ _ _ _ _ _ Hstep Hwf)
      as (Hwf1 & (func & p0 & Hf & Hleaf) & Hkeep1).
    destruct (IH st1 H Hnd' Hwf1) as (Hwf' & Hleaves & Hkeep).
    split; [exact Hwf'|]. split.
    + intros xi' [<- | Hin]; [|apply Hleaves, Hin].
      exists func, p0. split; [exact Hf|]. apply Hkeep; assumption.
    + intros xi' func' p0' Hnin Hleaf'. apply Hkeep.
      * intros Hin. apply Hnin. right. exact Hin.
      * apply Hkeep1; [|exact Hleaf']. intros ->. apply Hnin. left. reflexivity.
Qed.

(** In the tree that [docstringparser] builds, every function has its
    leaf. *)
Lemma docstringparser_leaves (st : parsers) :
  docstringparser_parsers linesep pkgname f m = Ok st ->
  NoDup (map fst f) ->
  forall xi func p0, In (xi, (func, p0)) f -> leaf_of xi func p0 st.
Proof.
  unfold docstringparser_parsers. intros H Hnd xi func p0 Hin.
  apply bind_Ok in H as (m_pkgname & _ & H).
  cbn [called calls dict_p dict_ps List.length app] in H.
  apply functions_loop_leaves in H as (_ & Hleaves & _); [|exact Hnd|].
  - destruct (Hleaves xi) as (func' & p0' & Hf & Hleaf).
    { apply in_map_iff. exists (xi, (func, p0)). auto. }
    rewrite (dict_get_of_In _ _ _ Hnd Hin) in Hf. injection Hf as <- <-.
    exact Hleaf.
  - intros i _. reflexivity.
Qed.

(** What a build that returns tells of every function. *)
Lemma docstringparser_needs (st : parsers) :
  docstringparser_parsers linesep pkgname f m = Ok st ->
  dict_in pkgname m = true
  /\ forall xi func p0,
       dict_get xi f = Some (func, p0) ->
       (exists rest, xi = (pkgname ++ "." ++ rest)%string)
       /\ (exists a0 a1 args,
             getitem p0 0 = Ok a0 /\ function_parser_base.str_or_None a0 = true
             /\ getitem p0 1 = Ok a1
             /\ function_parser_base.str_or_None a1 = true
             /\ docstringparser_arguments p0 = Ok args).
Proof.
  unfold docstringparser_parsers. intros H.
  apply bind_Ok in H as (m_pkgname & Hm & H).
  split.
  { unfold dict_item in Hm. unfold dict_in.
    destruct (dict_get pkgname m); [reflexivity | discriminate]. }
  intros xi func p0 Hf.
  assert (Hin : In xi (map fst f)).
  { apply dict_get_In in Hf. apply in_map_iff. exists (xi, (func, p0)). auto. }
  destruct (foldM_Ok_In _ _ _ _ H xi Hin) as (s1 & s2 & Hstep).
  apply function_step_Ok in Hstep
    as (func' & p0' & stm & ps_t2 & help & desc & args & a0 & a1 & Hf' & Hlen
        & Hjoin & _ & _ & Hargs & Ha0 & Hs0 & Ha1 & Hs1 & _).
  rewrite Hf in Hf'. injection Hf' as <- <-.
  split; [apply below_package; auto | eauto 10].
Qed.

(** *** When the build returns *)

Section one_function.
Variable xi : string.
Hypothesis below : nlv < List.length (split "." xi).
Hypothesis prefix : join (firstn nlv (split "." xi)) = pkgname.
Hypothesis modules :
  forall j, nlv < j < List.length (split "." xi) ->
    dict_in (join (firstn j (split "." xi))) m = true
    /\ dict_in (join (firstn j (split "." xi))) f = false.

Lemma module_step_builds (st : parsers) (j : nat) :
  tree_inv pkgname f st -> nlv <= j < List.length (split "." xi) ->
  (j = nlv
   \/ dict_in (join (firstn (j - 1) (split "." xi))) (dict_ps st) = true) ->
  exists st',
    module_step m (split "." xi) st j = Ok st' /\ tree_inv pkgname f st'
    /\ dict_in (join (firstn j (split "." xi))) (dict_ps st') = true.
Proof.
  intros (I1 & I2 & I3) Hj Hprev. unfold module_step.
  destruct (dict_in (join (firstn j (split "." xi))) (dict_p st)) eqn:E.
  - exists st. split; [reflexivity|]. split; [repeat split; assumption|].
    destruct (Nat.eq_dec j nlv) as [-> | Hne]; [rewrite prefix; exact I1|].
    destruct (I3 _ E) as [H | H]; [exact H|].
    destruct (modules j) as [_ Hf]; [lia|]. rewrite Hf in H. discriminate.
  - assert (Hne : j <> nlv).
    { intros ->. rewrite prefix, (I2 _ I1) in E. discriminate. }
    destruct Hprev as [-> | Hprev]; [contradiction|].
    destruct j as [|j]; [lia|].
    rewrite parent_of_prefix by lia.
    replace (S j - 1) with j in Hprev by lia. rewrite Hprev.
    cbn [assert bind].
    destruct (modules (S j)) as [Hm _]; [lia|].
    destruct (dict_item_in _ _ Hm) as (m_t2 & ->).
    destruct (dict_item_in _ _ Hprev) as (ps_t3 & ->).
    cbn [bind called calls dict_p dict_ps]. eexists. split; [reflexivity|].
    unfold tree_inv. cbn [dict_p dict_ps]. split; [repeat split|].
    + rewrite dict_in_dict_set, I1. apply orb_true_r.
    + intros k. rewrite !dict_in_dict_set.
      destruct (String.eqb _ k); [reflexivity | apply I2].
    + intros k. rewrite !dict_in_dict_set.
      destruct (String.eqb _ k); [left; reflexivity | apply I3].
    + rewrite dict_in_dict_set, String.eqb_refl. reflexivity.
Qed.

Lemma module_loop_builds (n : nat) :
  forall (j : nat) (st : parsers),
    j + n = List.length (split "." xi) -> nlv <= j ->
    tree_inv pkgname f st ->
    (j = nlv
     \/ dict_in (join (firstn (j - 1) (split "." xi))) (dict_ps st) = true) ->
    exists st',
      foldM (module_step m (split "." xi)) (seq j n) st = Ok st'
      /\ tree_inv pkgname f st'
      /\ dict_in (join (removelast (split "." xi))) (dict_ps st') = true.
Proof.
  induction n as [|n IH]; intros j st Hlen Hj Hinv Hprev.
  - exists st. split; [reflexivity|]. split; [exact Hinv|].
    destruct Hprev as [-> | Hprev]; [lia|].
    rewrite removelast_firstn_len.
    replace (pred (List.length (split "." xi))) with (j - 1) by lia.
    exact Hprev.
  - cbn [seq]. rewrite foldM_cons.
    destruct (module_step_builds st j Hinv) as (st1 & -> & Hinv1 & Hj1);
      [lia | exact Hprev|].
    cbn [bind]. apply IH; [lia | lia | exact Hinv1|].
    right. replace (S j - 1) with j by lia. exact Hj1.
Qed.

Lemma function_step_builds (st : parsers) (func : function) (p0 : pyval)
    (a0 a1 : pyval) (args : list add_argument) :
  dict_get xi f = Some (func, p0) ->
  getitem p0 0 = Ok a0 -> function_parser_base.str_or_None a0 = true ->
  getitem p0 1 = Ok a1 -> function_parser_base.str_or_None a1 = true ->
  docstringparser_arguments p0 = Ok args ->
  tree_inv pkgname f st ->
  exists st',
    function_step linesep pkgname nlv f m st xi = Ok st' /\ tree_inv pkgname f st'.
Proof.
  intros Hf Ha0 Hs0 Ha1 Hs1 Hargs Hinv. unfold function_step, dict_item.
  rewrite Hf. cbn [bind].
  rewrite (proj2 (Nat.ltb_lt _ _) below), prefix, String.eqb_refl.
  cbn [assert bind].
  destruct (module_loop_builds (List.length (split "." xi) - nlv) nlv st)
    as (stm & -> & (I1 & I2 & I3) & Hparent);
    [lia | lia | exact Hinv | left; reflexivity|].
  cbn [bind]. rewrite Ha0. cbn [bind].
  assert (E0 : exists hd,
             (if negb (is_None a0)
              then s <- as_str a0 ;;
                   Ok (Some a0, (s ++ linesep ++ linesep)%string)
              else Ok (None, EmptyString)) = Ok hd).
  { destruct a0; try discriminate; cbn; eauto. }
  destruct E0 as ([help desc0] & ->). cbn [bind]. rewrite Ha1. cbn [bind].
  assert (E1 : exists d,
             (if negb (is_None a1)
              then s <- as_str a1 ;; Ok (desc0 ++ s)%string
              else Ok desc0) = Ok d).
  { destruct a1; try discriminate; cbn; eauto. }
  destruct E1 as (desc & ->). cbn [bind].
  unfold dict_in in Hparent.
  destruct (dict_get (join (removelast (split "." xi))) (dict_ps stm))
    as [ps_t2|]; [|discriminate].
  cbn [bind called calls dict_p dict_ps]. rewrite Hargs.
  cbn [bind called calls dict_p dict_ps snd]. eexists. split; [reflexivity|].
  unfold tree_inv. cbn [dict_p dict_ps]. repeat split.
  - exact I1.
  - intros k Hk. rewrite dict_in_dict_set, (I2 k Hk). apply orb_true_r.
  - intros k. rewrite dict_in_dict_set.
    destruct (String.eqb_spec xi k) as [<- | _]; [|apply I3].
    intros _. right. unfold dict_in. rewrite Hf. reflexivity.
Qed.

End one_function.

Lemma docstringparser_returns :
  dict_in pkgname m = true ->
  (forall xi func p0,
     dict_get xi f = Some (func, p0) ->
     (exists rest, xi = (pkgname ++ "." ++ rest)%string)
     /\ (forall j,
           List.length (split "." pkgname) < j < List.length (split "." xi) ->
           dict_in (join (firstn j (split "." xi))) m = true
           /\ dict_in (join (firstn j (split "." xi))) f = false)
     /\ (exists a0 a1 args,
           getitem p0 0 = Ok a0 /\ function_parser_base.str_or_None a0 = true
           /\ getitem p0 1 = Ok a1
           /\ function_parser_base.str_or_None a1 = true
           /\ docstringparser_arguments p0 = Ok args)) ->
  exists st, docstringparser_parsers linesep pkgname f m = Ok st.
Proof.
  intros Hm Hf. unfold docstringparser_parsers.
  destruct (dict_item_in _ _ Hm) as (m_pkgname & ->).
  cbn [bind called calls dict_p dict_ps List.length app].
  fold nlv.
  assert (Hloop : forall l st,
             incl l (map fst f) -> tree_inv pkgname f st ->
             exists st',
               foldM (function_step linesep pkgname nlv f m) l st = Ok st'
               /\ tree_inv pkgname f st').
  { induction l as [|xi l IH]; intros st Hl Hinv;
      [exists st; split; [reflexivity | exact Hinv]|].
    rewrite foldM_cons.
    assert (Hxi : exists func p0, dict_get xi f = Some (func, p0)).
    { pose proof (dict_in_keys xi f (Hl xi (or_introl eq_refl))) as H.
      unfold dict_in in H. destruct (dict_get xi f) as [[func p0]|];
        [eauto | discriminate]. }
    destruct Hxi as (func & p0 & Hxi).
    destruct (Hf xi func p0 Hxi)
      as (Hbelow & Hmods & a0 & a1 & args & Ha0 & Hs0 & Ha1 & Hs1 & Hargs).
    apply below_package in Hbelow as [Hlen Hjoin].
    destruct (function_step_builds xi Hlen Hjoin Hmods st func p0 a0 a1 args)
      as (st1 & -> & Hinv1); try assumption.
    cbn [bind]. apply IH; [|exact Hinv1].
    intros x Hx. apply Hl. right. exact Hx. }
  destruct (Hloop (map fst f)
              {| dict_p := dict_set pkgname 0 [];
                 dict_ps := dict_set pkgname 1 [];
                 calls := [ArgumentParser (hd EmptyString (split "." pkgname))
                             m_pkgname;
                           add_subparsers 0 (subcommand 1)] |})
    as (st & Hst & _).
  - apply incl_refl.
  - unfold tree_inv. cbn [dict_p dict_ps dict_set]. unfold dict_in.
    cbn [dict_get]. rewrite String.eqb_refl. repeat split.
    + intros k. destruct (String.eqb k pkgname); auto.
    + intros k. destruct (String.eqb k pkgname); [auto | discriminate].
  - exists st. exact Hst.
Qed.

End builder.

(** X26: in the command tree that [docstringparser] builds from a dict of
    functions, every function has its leaf: [p] maps its dotted name to a
    parser that [add_parser] created under the last component of the name,
    and the calls on that parser are the declarations of the arguments of
    its metadata, in order, followed by the one [set_defaults] with the
    function and its dotted name. *)
Theorem every_function_has_its_leaf (linesep pkgname : string)
    (f : list (string * (function * pyval))) (m : list (string * pyval))
    (st : parsers) :
  docstringparser_parsers linesep pkgname f m = Ok st ->
  NoDup (map fst f) ->
  forall xi func p0, In (xi, (func, p0)) f -> leaf_of xi func p0 st.
Proof. apply docstringparser_leaves. Qed.

Lemma every_function_has_its_leaf_witness :
  exists st,
    docstringparser_parsers (String newline EmptyString) "pkg"
      sample_functions sample_modules = Ok st
    /\ leaf_of "pkg.tools.greet" sample_greet sample_metadata st.
Proof.
  eexists. split; [reflexivity|].
  eapply (every_function_has_its_leaf (String newline EmptyString) "pkg"
            sample_functions sample_modules).
  - reflexivity.
  - repeat constructor. intros [].
  - left. reflexivity.
Defined.

(** X27: none of the steps of [docstringparser] itself, its assertions, its
    lookups in [m], [p] and [ps], its use of the descriptions and the
    declaration of the arguments, raises, and all the calls on [argparse]
    are made, when the documentation of the package is known and every
    function of the dict has a name below the package, parent modules
    between the package and itself whose documentation is known and whose
    names are not names of functions, descriptions that are strings or
    [None], and parameters whose arguments can be declared.  So the tree is
    built whenever [argparse] accepts each of these calls; [argparse] may
    still refuse one, as the flag [--help] of a parameter named [help],
    which every parser has already. *)
Theorem docstringparser_builds_the_tree (linesep pkgname : string)
    (f : list (string * (function * pyval))) (m : list (string * pyval)) :
  dict_in pkgname m = true ->
  (forall xi func p0,
     dict_get xi f = Some (func, p0) ->
     (exists rest, xi = (pkgname ++ "." ++ rest)%string)
     /\ (forall j,
           List.length (split "." pkgname) < j < List.length (split "." xi) ->
           dict_in (join (firstn j (split "." xi))) m = true
           /\ dict_in (join (firstn j (split "." xi))) f = false)
     /\ (exists a0 a1 args,
           getitem p0 0 = Ok a0 /\ function_parser_base.str_or_None a0 = true
           /\ getitem p0 1 = Ok a1
           /\ function_parser_base.str_or_None a1 = true
           /\ docstringparser_arguments p0 = Ok args)) ->
  exists st, docstringparser_parsers linesep pkgname f m = Ok st.
Proof. apply docstringparser_returns. Qed.

Lemma docstringparser_builds_the_tree_witness :
  exists st,
    docstringparser_parsers (String newline EmptyString) "pkg"
      sample_functions sample_modules = Ok st.
Proof.
  apply (docstringparser_builds_the_tree (String newline EmptyString) "pkg"
           sample_functions sample_modules); [reflexivity|].
  intros xi func p0 H. unfold sample_functions in H. cbn [dict_get] in H.
  destruct (String.eqb_spec xi "pkg.tools.greet") as [-> | _]; [|discriminate].
  injection H as <- <-. split; [|split].
  - exists "tools.greet". reflexivity.
  - intros [|[|[|j]]] Hj; cbn in Hj; try lia. split; reflexivity.
  - do 3 eexists. repeat split; reflexivity.
Defined.

(** X28: when [docstringparser] builds the tree, the documentation of the
    package is known and every function of the dict has a dotted name that
    starts with the name of the package and a dot, descriptions that are
    strings or [None], and parameters whose arguments can all be declared:
    a function outside the package, or one whose metadata the argument loop
    rejects, makes the whole build raise. *)
Theorem docstringparser_requires (linesep pkgname : string)
    (f : list (string * (function * pyval))) (m : list (string * pyval))
    (st : parsers) :
  docstringparser_parsers linesep pkgname f m = Ok st ->
  dict_in pkgname m = true
  /\ forall xi func p0,
       dict_get xi f = Some (func, p0) ->
       (exists rest, xi = (pkgname ++ "." ++ rest)%string)
       /\ (exists a0 a1 args,
             getitem p0 0 = Ok a0 /\ function_parser_base.str_or_None a0 = true
             /\ getitem p0 1 = Ok a1
             /\ function_parser_base.str_or_None a1 = true
             /\ docstringparser_arguments p0 = Ok args).
Proof. apply docstringparser_needs. Qed.

Lemma docstringparser_requires_witness :
  dict_in "pkg" sample_modules = true
  /\ forall xi func p0,
       dict_get xi sample_functions = Some (func, p0) ->
       (exists rest, xi = ("pkg" ++ "." ++ rest)%string)
       /\ (exists a0 a1 args,
             getitem p0 0 = Ok a0 /\ function_parser_base.str_or_None a0 = true
             /\ getitem p0 1 = Ok a1
             /\ function_parser_base.str_or_None a1 = true
             /\ docstringparser_arguments p0 = Ok args).
Proof.
  eapply (docstringparser_requires (String newline EmptyString) "pkg"
            sample_functions sample_modules).
  reflexivity.
Defined.

(** ** The shape of the command tree *)

Lemma nth_error_later {A : Type} (l l' : list A) (i : nat) (x : A) :
  nth_error l i = Some x -> nth_error (l ++ l') i = Some x.
Proof.
  intros H. rewrite nth_error_app1; [exact H|].
  apply nth_error_Some. rewrite H. discriminate.
Qed.

Lemma command_path_later (cs cs' : list argparse_call) (id : nat)
    (path : list string) :
  command_path cs id path -> command_path (cs ++ cs') id path.
Proof.
  induction 1 as [id prog description H
                 |id sp pid name dest help desc path Hid Hsp _ IH].
  - eapply path_root, nth_error_later, H.
  - eapply path_step; [apply nth_error_later, Hid
                      |apply nth_error_later, Hsp | exact IH].
Qed.

Lemma spelled_by_later (pkgname : string) (cs cs' : list argparse_call)
    (name : string) (id : nat) :
  spelled_by pkgname cs name id -> spelled_by pkgname (cs ++ cs') name id.
Proof.
  intros (path & Hpath & Hname). exists path.
  split; [apply command_path_later, Hpath | exact Hname].
Qed.

Lemma join_snoc (l : list string) (x : string) :
  l <> [] -> join (l ++ [x]) = (join l ++ "." ++ x)%string.
Proof. intros H. apply join_app; [exact H | discriminate]. Qed.

(** A dotted name of two components or more: its parent, a dot, and its
    last component. *)
Lemma join_parent_last (l : list string) :
  2 <= List.length l ->
  join l = (join (removelast l) ++ "." ++ last l EmptyString)%string.
Proof.
  intros H.
  assert (Hne : l <> []) by (destruct l; [cbn in H; lia | discriminate]).
  rewrite (app_removelast_last EmptyString Hne) at 1.
  apply join_snoc. destruct l as [|a [|b l]]; cbn in H; try lia. discriminate.
Qed.

(** The parser made under the command [last] in the group of the parent. *)
Lemma spelled_by_child (pkgname : string) (cs : list argparse_call)
    (l : list string) (sp pid : nat) (dest : string) (help : option pyval)
    (desc : option string) (tl : list argparse_call) :
  2 <= List.length l ->
  nth_error cs sp = Some (add_subparsers pid dest) ->
  spelled_by pkgname cs (join (removelast l)) pid ->
  spelled_by pkgname
    (cs ++ add_parser sp (last l EmptyString) help desc :: tl)
    (join l) (List.length cs).
Proof.
  intros Hl Hsp (path & Hpath & Hname).
  exists (path ++ [last l EmptyString]). split.
  - eapply path_step.
    + rewrite nth_error_app2, Nat.sub_diag by lia. reflexivity.
    + apply nth_error_later, Hsp.
    + apply command_path_later, Hpath.
  - rewrite (join_parent_last l Hl), Hname.
    change (pkgname :: path ++ [last l EmptyString])
      with ((pkgname :: path) ++ [last l EmptyString]).
    rewrite join_snoc by discriminate. reflexivity.
Qed.

Lemma module_step_paths (pkgname : string) (nlv : nat)
    (m : list (string * pyval)) (xi : string) (st st' : parsers) (xj : nat) :
  1 <= nlv -> join (firstn nlv (split "." xi)) = pkgname ->
  nlv <= xj < List.length (split "." xi) ->
  module_step m (split "." xi) st xj = Ok st' ->
  tree_paths pkgname st -> tree_paths pkgname st'.
Proof.
  intros Hnlv Hpkg Hxj H (Hroot & Hp & Hps).
  apply module_step_Ok in H as [[_ ->] | (Hfresh & ps_t3 & help & Hparent & ->)];
    [repeat split; assumption|].
  assert (Hsplit : split "." (join (firstn xj (split "." xi)))
                   = firstn xj (split "." xi)).
  { apply split_join.
    - destruct (split "." xi), xj; cbn in *; try lia; discriminate.
    - apply Forall_firstn, split_components. }
  assert (Hlen : 2 <= List.length (firstn xj (split "." xi))).
  { rewrite length_firstn.
    destruct (Nat.eq_dec xj nlv) as [-> | Hne]; [|lia].
    rewrite Hpkg, Hroot in Hfresh. discriminate. }
  rewrite Hsplit in Hparent |- *.
  destruct (Hps _ _ Hparent) as (pid & dest & Hsp & Hpid).
  pose proof (spelled_by_child pkgname (calls st) _ ps_t3 pid dest help None
                [add_subparsers (List.length (calls st)) (subcommand xj)]
                Hlen Hsp Hpid) as Hnew.
  split; [|split]; cbn [dict_p dict_ps calls].
  - rewrite dict_in_dict_set, Hroot. apply orb_true_r.
  - intros name id. rewrite dict_get_dict_set.
    destruct (String.eqb_spec (join (firstn xj (split "." xi))) name)
      as [<- | _]; intros Hid.
    + injection Hid as <-. exact Hnew.
    + apply spelled_by_later, Hp, Hid.
  - intros name sp. rewrite dict_get_dict_set.
    destruct (String.eqb_spec (join (firstn xj (split "." xi))) name)
      as [<- | _]; intros Hid.
    + injection Hid as <-. exists (List.length (calls st)), (subcommand xj).
      split; [|exact Hnew].
      rewrite nth_error_app2 by lia.
      replace (S (List.length (calls st)) - List.length (calls st)) with 1
        by lia.
      reflexivity.
    + destruct (Hps _ _ Hid) as (pid' & dest' & Hsp' & Hpid').
      exists pid', dest'.
      split; [apply nth_error_later, Hsp' | apply spelled_by_later, Hpid'].
Qed.

Lemma module_loop_paths (pkgname : string) (nlv : nat)
    (m : list (string * pyval)) (xi : string) (l : list nat)
    (st st' : parsers) :
  1 <= nlv -> join (firstn nlv (split "." xi)) = pkgname ->
  (forall xj, In xj l -> nlv <= xj < List.length (split "." xi)) ->
  foldM (module_step m (split "." xi)) l st = Ok st' ->
  tree_paths pkgname st -> tree_paths pkgname st'.
Proof.
  intros Hnlv Hpkg. revert st. induction l as [|xj l IH]; intros st Hl H Hst.
  - injection H as <-. exact Hst.
  - rewrite foldM_cons in H. apply bind_Ok in H as (st1 & Hstep & H).
    eapply IH; [intros y Hy; apply Hl; right; exact Hy | exact H|].
    eapply module_step_paths; try eassumption. apply Hl. left. reflexivity.
Qed.

Lemma function_step_paths (linesep pkgname : string) (nlv : nat)
    (f : list (string * (function * pyval))) (m : list (string * pyval))
    (st st' : parsers) (xi : string) :
  1 <= nlv ->
  function_step linesep pkgname nlv f m st xi = Ok st' ->
  tree_paths pkgname st -> tree_paths pkgname st'.
Proof.
  intros Hnlv H Hst.
  apply function_step_Ok in H
    as (func & p0 & stm & ps_t2 & help & desc & args & a0 & a1 & _ & Hlen
        & Hpkg & Hstm & Hparent & _ & _ & _ & _ & _ & ->).
  apply (module_loop_paths pkgname nlv) in Hstm as (Hroot & Hp & Hps);
    [|assumption|assumption| |exact Hst].
  2:{ intros xj Hxj. apply in_seq in Hxj. lia. }
  destruct (Hps _ _ Hparent) as (pid & dest & Hsp & Hpid).
  assert (Hl : 2 <= List.length (split "." xi)) by lia.
  pose proof (spelled_by_child pkgname (calls stm) _ ps_t2 pid dest help
                (Some desc)
                (map (add_argument_to (List.length (calls stm))) args
                 ++ [set_defaults (List.length (calls stm)) func xi])
                Hl Hsp Hpid) as Hnew.
  rewrite join_split in Hnew.
  split; [|split]; cbn [dict_p dict_ps calls].
  - rewrite dict_in_dict_set, Hroot. apply orb_true_r.
  - intros name id. rewrite dict_get_dict_set.
    destruct (String.eqb_spec xi name) as [<- | _]; intros Hid.
    + injection Hid as <-. exact Hnew.
    + apply spelled_by_later, Hp, Hid.
  - intros name sp Hid.
    destruct (Hps _ _ Hid) as (pid' & dest' & Hsp' & Hpid').
    exists pid', dest'.
    split; [apply nth_error_later, Hsp' | apply spelled_by_later, Hpid'].
Qed.

Lemma docstringparser_paths (linesep pkgname : string)
    (f : list (string * (function * pyval))) (m : list (string * pyval))
    (st : parsers) :
  docstringparser_parsers linesep pkgname f m = Ok st ->
  tree_paths pkgname st.
Proof.
  unfold docstringparser_parsers. intros H.
  apply bind_Ok in H as (m_pkgname & _ & H).
  cbn [called calls dict_p dict_ps List.length app] in H.
  assert (Hnlv : 1 <= List.length (split "." pkgname)).
  { pose proof (split_nonempty "." pkgname).
    destruct (split "." pkgname); [contradiction | cbn; lia]. }
  revert H.
  generalize (map fst f).
  assert (Hinit : tree_paths pkgname
                    {| dict_p := dict_set pkgname 0 [];
                       dict_ps := dict_set pkgname 1 [];
                       calls := [ArgumentParser
                                   (hd EmptyString (split "." pkgname))
                                   m_pkgname;
                                 add_subparsers 0 (subcommand 1)] |}).
  { assert (Hroot : spelled_by pkgname
                      [ArgumentParser (hd EmptyString (split "." pkgname))
                         m_pkgname;
                       add_subparsers 0 (subcommand 1)] pkgname 0).
    { exists []. split; [eapply path_root; reflexivity | reflexivity]. }
    split; [|split]; cbn [dict_p dict_ps dict_set calls].
    - unfold dict_in. cbn [dict_get]. rewrite String.eqb_refl. reflexivity.
    - intros name id. cbn [dict_get].
      destruct (String.eqb_spec name pkgname) as [-> | _]; [|discriminate].
      intros Hid. injection Hid as <-. exact Hroot.
    - intros name sp. cbn [dict_get].
      destruct (String.eqb_spec name pkgname) as [-> | _]; [|discriminate].
      intros Hid. injection Hid as <-. exists 0, (subcommand 1).
      split; [reflexivity | exact Hroot]. }
  revert Hinit. generalize {| dict_p := dict_set pkgname 0 [];
                              dict_ps := dict_set pkgname 1 [];
                              calls := [ArgumentParser
                                          (hd EmptyString (split "." pkgname))
                                          m_pkgname;
                                        add_subparsers 0 (subcommand 1)] |}.
  intros st0 Hshape l. revert st0 Hshape.
  induction l as [|xi l IH]; intros st0 Hshape H.
  - injection H as <-. exact Hshape.
  - rewrite foldM_cons in H. apply bind_Ok in H as (st1 & Hstep & H).
    eapply IH; [|exact H]. eapply function_step_paths; eassumption.
Qed.

(** X29: in the command tree that [docstringparser] builds, the commands
    that lead from the root parser to the parser kept in [p] under a dotted
    name spell that name: the parser of the package is the root, made by
    [ArgumentParser]; any other was made by [add_parser] in a group of
    subparsers that [add_subparsers] had made on a parser of the tree, and
    the name is the name of the package followed by the commands on the way
    down, joined by dots.  The same holds for the groups kept in [ps]: each
    was made by [add_subparsers] on a parser that the commands of its name
    lead to. *)
Theorem parsers_hang_under_their_parents (linesep pkgname : string)
    (f : list (string * (function * pyval))) (m : list (string * pyval))
    (st : parsers) :
  docstringparser_parsers linesep pkgname f m = Ok st ->
  (forall name id,
     dict_get name (dict_p st) = Some id ->
     exists path,
       command_path (calls st) id path /\ name = join (pkgname :: path))
  /\ (forall name sp,
        dict_get name (dict_ps st) = Some sp ->
        exists pid dest path,
          nth_error (calls st) sp = Some (add_subparsers pid dest)
          /\ command_path (calls st) pid path
          /\ name = join (pkgname :: path)).
Proof.
  intros H. destruct (docstringparser_paths linesep pkgname f m st H)
    as (_ & Hp & Hps).
  split; [exact Hp|].
  intros name sp Hsp. destruct (Hps name sp Hsp) as (pid & dest & Hnth & path & Hpath & Hname).
  exists pid, dest, path. auto.
Qed.

Lemma parsers_hang_under_their_parents_witness :
  exists st,
    docstringparser_parsers (String newline EmptyString) "pkg"
      sample_functions sample_modules = Ok st
    /\ exists path,
         command_path (calls st) 4 path
         /\ "pkg.tools.greet"%string = join ("pkg"%string :: path).
Proof.
  eexists. split; [reflexivity|].
  eapply (proj1 (parsers_hang_under_their_parents (String newline EmptyString)
                   "pkg" sample_functions sample_modules _ eq_refl)).
  reflexivity.
Defined.

(** ** From the signature to the call *)

Lemma record_of_parameter (y : inspect.parameter) (h : pyval) :
  VTuple [VStr (inspect.name y); inspect.annotation y; h;
          function_parser_signature.optionality y]
  = record_tuple {| r_name := inspect.name y;
                    r_type := inspect.annotation y;
                    r_description := h;
                    r_optional := has_default y;
                    r_default := if has_default y then inspect.default y
                                 else VNone |}.
Proof.
  unfold record_tuple, function_parser_signature.optionality, has_default.
  cbn [r_name r_type r_description r_optional r_default].
  destruct (negb (py_eq (inspect.default y) _empty)); reflexivity.
Qed.

Lemma filter_of_map {A B : Type} (g : A -> B) (p : B -> bool) (l : list A) :
  filter p (map g l) = map g (filter (fun x => p (g x)) l).
Proof.
  induction l as [|x l IH]; [reflexivity|]. cbn [map filter].
  destruct (p (g x)); cbn [map]; rewrite IH; reflexivity.
Qed.

(** X30: on metadata whose parameter records carry the names and the
    optionality of parameters of a signature, [run_args] passes the
    attributes of the parameters without a default as positional
    arguments, in the order of the signature, and the attributes of the
    parameters with a default as keyword arguments under their names. *)
Theorem run_args_by_defaults (funcs : list (string * (function * pyval)))
    (args : Namespace) (func : function) (meta : pyval)
    (phs : list (inspect.parameter * pyval)) (value : string -> pyval) :
  dict_get (_fullname args) funcs = Some (func, meta) ->
  _func args = __call__ func ->
  getitem meta 2
  = Ok (VList (map (fun ph => VTuple [VStr (inspect.name (fst ph));
                                      inspect.annotation (fst ph);
                                      snd ph;
                                      function_parser_signature.optionality
                                        (fst ph)])
                   phs)) ->
  NoDup (map (fun ph => inspect.name (fst ph)) phs) ->
  (forall ph, In ph phs ->
     dict_get (inspect.name (fst ph)) (attributes args)
     = Some (value (inspect.name (fst ph)))) ->
  run_args funcs args
  = __call__ func
      (map (fun ph => value (inspect.name (fst ph)))
           (filter (fun ph => negb (has_default (fst ph))) phs))
      (map (fun ph => (inspect.name (fst ph), value (inspect.name (fst ph))))
           (filter (fun ph => has_default (fst ph)) phs)).
Proof.
  intros Hfuncs Hcall Hmeta Hnd Hattr.
  set (rec := fun ph : inspect.parameter * pyval =>
                {| r_name := inspect.name (fst ph);
                   r_type := inspect.annotation (fst ph);
                   r_description := snd ph;
                   r_optional := has_default (fst ph);
                   r_default := if has_default (fst ph)
                                then inspect.default (fst ph) else VNone |}).
  assert (Hrecs : map (fun ph => VTuple [VStr (inspect.name (fst ph));
                                         inspect.annotation (fst ph);
                                         snd ph;
                                         function_parser_signature.optionality
                                           (fst ph)]) phs
                  = map record_tuple (map rec phs)).
  { rewrite map_map. apply map_ext. intros ph. apply record_of_parameter. }
  rewrite Hrecs in Hmeta.
  assert (Hattr' : forall r, In r (map rec phs) ->
            dict_get (r_name r) (attributes args) = Some (value (r_name r))).
  { intros r Hr. apply in_map_iff in Hr as (ph & <- & Hph). apply Hattr, Hph. }
  unfold run_args, recorded_parameters.
  rewrite Hfuncs. cbn [bind snd]. rewrite Hmeta. cbn [bind py_iter].
  rewrite (required_loop args value (map rec phs) [] Hattr'). cbn [bind app].
  rewrite (optional_loop args value (map rec phs) [] Hattr').
  2:{ cbn [map app]. rewrite map_map. exact Hnd. }
  cbn [bind app]. rewrite Hcall.
  rewrite !filter_of_map, !map_map. reflexivity.
Qed.

Lemma run_args_by_defaults_witness :
  run_args [("pkg.tools.greet", (sample_greet, sample_metadata))] sample_namespace
  = sample_call [VStr "Ada"] [("loud", VBool true)].
Proof.
  apply (run_args_by_defaults
           [("pkg.tools.greet", (sample_greet, sample_metadata))]
           sample_namespace sample_greet sample_metadata
           [({| inspect.name := "name"; inspect.annotation := py_str;
                inspect.default := _empty |}, VNone);
            ({| inspect.name := "loud"; inspect.annotation := py_bool;
                inspect.default := VBool true |}, VNone)]
           sample_value).
  - reflexivity.
  - reflexivity.
  - reflexivity.
  - repeat constructor; cbn; intuition discriminate.
  - intros ph [<- | [<- | []]]; reflexivity.
Defined.
